(** * Chat backend: conversation, message and room documents, and the
      socket gateway handlers that drive them.

    The development embeds the Mongoose models (Conversation, Message, Room)
    and the Socket.IO handlers of the backend as Rocq functions.

    Conventions of the embedding.
    - An ObjectId is the 24-digit hexadecimal text that [toString()] yields;
      every comparison of identities in the source goes through
      [x.toString() === y.toString()], which is [String.eqb] here.
    - A chat text is a JavaScript string: a sequence of UTF-16 code units.
    - [new Date()] and [new ObjectId()] read the environment; each reading is
      an explicit argument ([now], [freshId]) of the function that makes it.
    - A document method works on the in-memory document [this] and ends in
      [this.save()].  It is embedded as a function that returns the document
      after the call together with the outcome of the save on the collection.
    - A synchronous [throw] and a rejected promise are both values of [Error];
      a method that throws before it saves returns an outer [Err], and the
      outcome of the save is the inner [Result]. *)

From Stdlib Require Import List String Ascii Bool Arith ZArith NArith QArith Qround Lia.
From Stdlib Require Import Sorted.
Import ListNotations.
Local Close Scope Q_scope.
Local Open Scope string_scope.
Local Open Scope list_scope.

(** ** JavaScript values shared by the models *)

Definition ObjectId := string.
Definition Date := Z.

Inductive Error : Type :=
| Thrown (message : string)            (* [new Error(message)] in the source *)
| TypeError (message : string)         (* property read on [null] *)
| ValidationError (path kind : string) (* Mongoose schema validator *)
| DuplicateKey (index : string)        (* unique index of the store *)
| CastError (path : string).           (* text that is no ObjectId, at a query path *)

Inductive Result (A : Type) : Type :=
| Ok (a : A)
| Err (e : Error).
Arguments Ok {A} a.
Arguments Err {A} e.

Module JS.

(** A string is its UTF-16 code units. *)
Definition str := list N.

Definition of_ascii (s : string) : str :=
  map N_of_ascii (list_ascii_of_string s).

(** WhiteSpace and LineTerminator code points of ECMAScript, the ones
    [String.prototype.trim] strips. *)
Definition isWhiteSpace (c : N) : bool :=
  ((9 <=? c) && (c <=? 13) || (c =? 32) || (c =? 160) || (c =? 5760)
   || (8192 <=? c) && (c <=? 8202) || (c =? 8232) || (c =? 8233)
   || (c =? 8239) || (c =? 8287) || (c =? 12288) || (c =? 65279))%N.

Fixpoint trimStart (s : str) : str :=
  match s with
  | c :: s' => if isWhiteSpace c then trimStart s' else s
  | [] => []
  end.

Definition trimEnd (s : str) : str := rev (trimStart (rev s)).

Definition trim (s : str) : str := trimEnd (trimStart s).

(** [[a, b].sort()]: the default comparator orders the elements by their
    string renderings, and the sort is stable. *)
Definition sort2 (a b : ObjectId) : list ObjectId :=
  if String.leb a b then [a; b] else [b; a].

(** [xs.includes(x)] on an array of identities. *)
Definition includes (xs : list ObjectId) (x : ObjectId) : bool :=
  existsb (String.eqb x) xs.

(** [s.charAt(i)]: the empty string outside the string. *)
Definition charAt (s : string) (i : Z) : string :=
  if (i <? 0)%Z then ""
  else match String.get (Z.to_nat i) s with
       | Some c => String c ""
       | None => ""
       end.

(** Assignment through the reference that [find] returned: the first
    matching entry of the array is the one updated. *)
Fixpoint updateFirst {A : Type} (p : A -> bool) (f : A -> A) (l : list A) : list A :=
  match l with
  | [] => []
  | x :: l' => if p x then f x :: l' else x :: updateFirst p f l'
  end.

(** Equality of two strings, code unit by code unit. *)
Definition str_eqb (a b : str) : bool :=
  if list_eq_dec N.eq_dec a b then true else false.

(** [xs.sort(compare)]: the sort is stable; [x] goes before [y] when
    [compare(x, y) <= 0] and [x] came first. *)
Fixpoint insertBy {A : Type} (compare : A -> A -> Z) (x : A) (l : list A) : list A :=
  match l with
  | [] => [x]
  | y :: l' => if (compare x y <=? 0)%Z then x :: l else y :: insertBy compare x l'
  end.

Definition sortBy {A : Type} (compare : A -> A -> Z) (l : list A) : list A :=
  fold_right (insertBy compare) [] l.

(** [s.split(sep)] for a separator of one character. *)
Fixpoint split (sep : ascii) (s : string) : list string :=
  match s with
  | EmptyString => [EmptyString]
  | String c s' =>
      if Ascii.eqb c sep then EmptyString :: split sep s'
      else match split sep s' with
           | piece :: rest => String c piece :: rest
           | [] => [String c EmptyString]
           end
  end.

(** [s.endsWith(suffix)] *)
Definition endsWith (s suffix : string) : bool :=
  (String.length suffix <=? String.length s)%nat
  && String.eqb
       (String.substring (String.length s - String.length suffix)
          (String.length suffix) s)
       suffix.

(** The text of an ObjectId: 24 hexadecimal digits.  The cast of a query
    takes the digits in either case; the id renders in lower case. *)
Definition isHexDigit (c : ascii) : bool :=
  let n := nat_of_ascii c in
  ((48 <=? n) && (n <=? 57) || (97 <=? n) && (n <=? 102)
   || (65 <=? n) && (n <=? 70))%nat.

Definition isLowerHexDigit (c : ascii) : bool :=
  let n := nat_of_ascii c in
  ((48 <=? n) && (n <=? 57) || (97 <=? n) && (n <=? 102))%nat.

Definition lowerHexDigit (c : ascii) : ascii :=
  let n := nat_of_ascii c in
  if ((65 <=? n) && (n <=? 70))%nat then ascii_of_nat (n + 32) else c.

(** [new ObjectId(text)] followed by [toString()]: [None] when the cast
    throws. *)
Definition castObjectId (text : string) : option ObjectId :=
  if (String.length text =? 24)%nat
     && forallb isHexDigit (list_ascii_of_string text)
  then Some (string_of_list_ascii
               (map lowerHexDigit (list_ascii_of_string text)))
  else None.

(** The text is an id as [toString()] renders it. *)
Definition isObjectIdText (text : string) : bool :=
  (String.length text =? 24)%nat
  && forallb isLowerHexDigit (list_ascii_of_string text).

(** Truthiness of a value that is a string or [undefined]. *)
Definition truthy (s : option string) : bool :=
  match s with
  | Some (String _ _) => true
  | _ => false
  end.

End JS.

(** ** Conversation model *)

Module Conversation.

Record UnreadEntry := mkUnread { ur_user : ObjectId; ur_count : Z }.
Record ArchivedEntry := mkArchived { ar_user : ObjectId; ar_archived : bool }.
Record PinnedEntry := mkPinned { pn_user : ObjectId; pn_pinned : bool }.

Record t := mk {
  _id : ObjectId;
  participants : list ObjectId;
  lastMessage : option ObjectId;
  lastMessageAt : Date;
  unreadCount : list UnreadEntry;
  isArchived : list ArchivedEntry;
  isPinned : list PinnedEntry;
  typingUsers : list ObjectId;
  isNew : bool
}.

Definition Collection := list t.

Definition set_lastMessage (m : option ObjectId) (at_ : Date) (c : t) : t :=
  mk (_id c) (participants c) m at_ (unreadCount c) (isArchived c)
     (isPinned c) (typingUsers c) (isNew c).
Definition set_unreadCount (u : list UnreadEntry) (c : t) : t :=
  mk (_id c) (participants c) (lastMessage c) (lastMessageAt c) u
     (isArchived c) (isPinned c) (typingUsers c) (isNew c).
Definition set_isArchived (a : list ArchivedEntry) (c : t) : t :=
  mk (_id c) (participants c) (lastMessage c) (lastMessageAt c)
     (unreadCount c) a (isPinned c) (typingUsers c) (isNew c).
Definition set_isPinned (p : list PinnedEntry) (c : t) : t :=
  mk (_id c) (participants c) (lastMessage c) (lastMessageAt c)
     (unreadCount c) (isArchived c) p (typingUsers c) (isNew c).
Definition set_typingUsers (ty : list ObjectId) (c : t) : t :=
  mk (_id c) (participants c) (lastMessage c) (lastMessageAt c)
     (unreadCount c) (isArchived c) (isPinned c) ty (isNew c).
Definition set_isNew (b : bool) (c : t) : t :=
  mk (_id c) (participants c) (lastMessage c) (lastMessageAt c)
     (unreadCount c) (isArchived c) (isPinned c) (typingUsers c) b.

(** The [pre("save")] hook.  [next(err)] is called first when the
    participant count is not 2; the hook body then runs on (there is no
    [return]) and its closing [next()] is ignored, the first call having
    settled the outcome.  The hook therefore yields the document as the
    body leaves it together with the error, if any. *)
Definition pre_save (this : t) : t * option Error :=
  let failure :=
    if negb (List.length (participants this) =? 2)%nat
    then Some (Thrown "Conversation must have exactly 2 participants")
    else None in
  let this' :=
    if isNew this then
      set_isPinned (map (fun userId => mkPinned userId false) (participants this))
        (set_isArchived (map (fun userId => mkArchived userId false) (participants this))
          (set_unreadCount (map (fun userId => mkUnread userId 0) (participants this))
             this))
    else this in
  (this', failure).

(** Writing a document to the collection: a new document is inserted at
    the end, an existing one replaces the stored document of the same id. *)
Definition store (doc : t) (db : Collection) : Collection :=
  if isNew doc then db ++ [set_isNew false doc]
  else map (fun d => if String.eqb (_id d) (_id doc) then doc else d) db.

(** [this.save()]: hooks, then the write.  The in-memory document is no
    longer new once the write went through. *)
Definition save (this : t) (db : Collection) : t * Result Collection :=
  let (this', failure) := pre_save this in
  match failure with
  | Some e => (this', Err e)
  | None => (set_isNew false this', Ok (store this' db))
  end.

(** [array.find(e => e.user.toString() === userId.toString())] *)
Definition findUnread (userId : ObjectId) (l : list UnreadEntry) : option UnreadEntry :=
  find (fun u => String.eqb (ur_user u) userId) l.
Definition findArchived (userId : ObjectId) (l : list ArchivedEntry) : option ArchivedEntry :=
  find (fun a => String.eqb (ar_user a) userId) l.
Definition findPinned (userId : ObjectId) (l : list PinnedEntry) : option PinnedEntry :=
  find (fun p => String.eqb (pn_user p) userId) l.

Definition getOtherParticipant (userId : ObjectId) (this : t) : option ObjectId :=
  find (fun id => negb (String.eqb id userId)) (participants this).

Definition updateLastMessage (messageId : ObjectId) (now : Date)
    (this : t) (db : Collection) : t * Result Collection :=
  save (set_lastMessage (Some messageId) now this) db.

Definition incrementUnread_body (userId : ObjectId) (this : t) : t :=
  match findUnread userId (unreadCount this) with
  | Some _ =>
      set_unreadCount
        (JS.updateFirst (fun u => String.eqb (ur_user u) userId)
           (fun u => mkUnread (ur_user u) (ur_count u + 1)) (unreadCount this))
        this
  | None => set_unreadCount (unreadCount this ++ [mkUnread userId 1]) this
  end.

Definition incrementUnread (userId : ObjectId) (this : t) (db : Collection)
    : t * Result Collection :=
  save (incrementUnread_body userId this) db.

Definition resetUnread_body (userId : ObjectId) (this : t) : t :=
  match findUnread userId (unreadCount this) with
  | Some _ =>
      set_unreadCount
        (JS.updateFirst (fun u => String.eqb (ur_user u) userId)
           (fun u => mkUnread (ur_user u) 0) (unreadCount this))
        this
  | None => this
  end.

Definition resetUnread (userId : ObjectId) (this : t) (db : Collection)
    : t * Result Collection :=
  save (resetUnread_body userId this) db.

Definition getUnreadCount (userId : ObjectId) (this : t) : Z :=
  match findUnread userId (unreadCount this) with
  | Some unread => ur_count unread
  | None => 0
  end.

Definition archiveForUser (userId : ObjectId) (archive : bool)
    (this : t) (db : Collection) : t * Result Collection :=
  save
    (match findArchived userId (isArchived this) with
     | Some _ =>
         set_isArchived
           (JS.updateFirst (fun a => String.eqb (ar_user a) userId)
              (fun a => mkArchived (ar_user a) archive) (isArchived this))
           this
     | None => set_isArchived (isArchived this ++ [mkArchived userId archive]) this
     end) db.

Definition pinForUser (userId : ObjectId) (pin : bool)
    (this : t) (db : Collection) : t * Result Collection :=
  save
    (match findPinned userId (isPinned this) with
     | Some _ =>
         set_isPinned
           (JS.updateFirst (fun p => String.eqb (pn_user p) userId)
              (fun p => mkPinned (pn_user p) pin) (isPinned this))
           this
     | None => set_isPinned (isPinned this ++ [mkPinned userId pin]) this
     end) db.

Definition isArchivedForUser (userId : ObjectId) (this : t) : bool :=
  match findArchived userId (isArchived this) with
  | Some archived => ar_archived archived
  | None => false
  end.

Definition isPinnedForUser (userId : ObjectId) (this : t) : bool :=
  match findPinned userId (isPinned this) with
  | Some pinned => pn_pinned pinned
  | None => false
  end.

Definition setTyping (userId : ObjectId) (isTyping : bool)
    (this : t) (db : Collection) : t * Result Collection :=
  save
    (if isTyping then
       if negb (JS.includes (typingUsers this) userId)
       then set_typingUsers (typingUsers this ++ [userId]) this
       else this
     else
       set_typingUsers
         (filter (fun id => negb (String.eqb id userId)) (typingUsers this))
         this) db.

(** The query [{ participants: { $all: ps, $size: 2 } }]. *)
Definition matchesAllSize2 (ps : list ObjectId) (c : t) : bool :=
  forallb (fun p => JS.includes (participants c) p) ps
  && (List.length (participants c) =? 2)%nat.

(** A document read from the store is not new. *)
Definition hydrate (c : t) : t := set_isNew false c.

Definition findById (id : ObjectId) (db : Collection) : option t :=
  option_map hydrate (find (fun c => String.eqb (_id c) id) db).

Definition findOne (q : t -> bool) (db : Collection) : option t :=
  option_map hydrate (find q db).

(** [Conversation.create({ participants })]: a new document with the
    schema defaults, saved. *)
Definition create (freshId : ObjectId) (now : Date) (ps : list ObjectId)
    (db : Collection) : t * Result Collection :=
  save (mk freshId ps None now [] [] [] [] true) db.

(** [Conversation.findOrCreate(user1Id, user2Id)].  The populate calls
    resolve references for the reply and leave the record as it is. *)
Definition findOrCreate (freshId : ObjectId) (now : Date)
    (user1Id user2Id : ObjectId) (db : Collection) : Result (t * Collection) :=
  let participants := JS.sort2 user1Id user2Id in
  match findOne (matchesAllSize2 participants) db with
  | Some conversation => Ok (conversation, db)
  | None =>
      match create freshId now participants db with
      | (conversation, Ok db') => Ok (conversation, db')
      | (_, Err e) => Err e
      end
  end.

End Conversation.

(** ** Queries: sorting and limiting *)

Module Query.

Section Sort.
Context {A : Type} (key : A -> Z).

(** [.sort({ key: -1 })]: descending by key.  The store leaves the order
    of equal keys open; the embedding keeps them in collection order. *)
Fixpoint insertDesc (x : A) (l : list A) : list A :=
  match l with
  | [] => [x]
  | y :: l' => if (key y <? key x)%Z then x :: l else y :: insertDesc x l'
  end.

Definition sortDesc (l : list A) : list A :=
  fold_right insertDesc [] l.

(** [.sort({ key: 1 })]: ascending by key. *)
Fixpoint insertAsc (x : A) (l : list A) : list A :=
  match l with
  | [] => [x]
  | y :: l' => if (key x <? key y)%Z then x :: l else y :: insertAsc x l'
  end.

Definition sortAsc (l : list A) : list A :=
  fold_right insertAsc [] l.
End Sort.

(** The order of two neighbours in a listing by descending, and by
    ascending, key. *)
Definition newestFirst {A : Type} (key : A -> Z) (a b : A) : Prop :=
  (key b <= key a)%Z.
Definition oldestFirst {A : Type} (key : A -> Z) (a b : A) : Prop :=
  (key a <= key b)%Z.

(** [.limit(n)]: a limit of 0 is no limit. *)
Definition limit {A : Type} (n : nat) (l : list A) : list A :=
  match n with
  | O => l
  | _ => firstn n l
  end.

End Query.

(** ** Message model *)

Module Message.

Inductive MessageType := text | image | file | system.

Record ReadEntry := mkRead { rd_user : ObjectId; rd_readAt : Date }.

Record Attachment := mkAttachment {
  fileUrl : option string;
  fileName : option string;
  fileSize : option Z;
  mimeType : option string
}.

Record t := mk {
  _id : ObjectId;
  sender : ObjectId;
  conversation : ObjectId;
  content : option JS.str;
  messageType : MessageType;
  attachments : list Attachment;
  readBy : list ReadEntry;
  isEdited : bool;
  editedAt : option Date;
  isDeleted : bool;
  deletedAt : option Date;
  replyTo : option ObjectId;
  createdAt : Date;
  isNew : bool
}.

Definition Collection := list t.

Definition set_content (c : option JS.str) (m : t) : t :=
  mk (_id m) (sender m) (conversation m) c (messageType m) (attachments m)
     (readBy m) (isEdited m) (editedAt m) (isDeleted m) (deletedAt m)
     (replyTo m) (createdAt m) (isNew m).
Definition set_readBy (r : list ReadEntry) (m : t) : t :=
  mk (_id m) (sender m) (conversation m) (content m) (messageType m)
     (attachments m) r (isEdited m) (editedAt m) (isDeleted m) (deletedAt m)
     (replyTo m) (createdAt m) (isNew m).
Definition set_edited (b : bool) (at_ : option Date) (m : t) : t :=
  mk (_id m) (sender m) (conversation m) (content m) (messageType m)
     (attachments m) (readBy m) b at_ (isDeleted m) (deletedAt m)
     (replyTo m) (createdAt m) (isNew m).
Definition set_deleted (b : bool) (at_ : option Date) (m : t) : t :=
  mk (_id m) (sender m) (conversation m) (content m) (messageType m)
     (attachments m) (readBy m) (isEdited m) (editedAt m) b at_
     (replyTo m) (createdAt m) (isNew m).
Definition set_isNew (b : bool) (m : t) : t :=
  mk (_id m) (sender m) (conversation m) (content m) (messageType m)
     (attachments m) (readBy m) (isEdited m) (editedAt m) (isDeleted m)
     (deletedAt m) (replyTo m) (createdAt m) b.

Definition isText (ty : MessageType) : bool :=
  match ty with text => true | _ => false end.

(** The [trim: true] setter of the [content] path runs on assignment. *)
Definition setter_content (c : option JS.str) : option JS.str :=
  option_map JS.trim c.

Definition maxlength : nat := 5000.

(** Schema validation of [content]: required (a non-empty string) when
    the type is ["text"], and never longer than [maxlength]. *)
Definition validate (this : t) : option Error :=
  match content this with
  | None =>
      if isText (messageType this)
      then Some (ValidationError "content" "required") else None
  | Some s =>
      if isText (messageType this) && (List.length s =? 0)%nat
      then Some (ValidationError "content" "required")
      else if (maxlength <? List.length s)%nat
      then Some (ValidationError "content" "maxlength")
      else None
  end.

Definition store (doc : t) (db : Collection) : Collection :=
  if isNew doc then db ++ [set_isNew false doc]
  else map (fun d => if String.eqb (_id d) (_id doc) then doc else d) db.

Definition save (this : t) (db : Collection) : t * Result Collection :=
  match validate this with
  | Some e => (this, Err e)
  | None => (set_isNew false this, Ok (store this db))
  end.

(** [Message.create({ sender, conversation, content, messageType })] *)
Definition create (freshId : ObjectId) (now : Date)
    (sender conversation : ObjectId) (content : option JS.str)
    (messageType : MessageType) (db : Collection) : t * Result Collection :=
  save (mk freshId sender conversation (setter_content content) messageType
           [] [] false None false None None now true) db.

Definition isReadBy (userId : ObjectId) (this : t) : bool :=
  existsb (fun read => String.eqb (rd_user read) userId) (readBy this).

Definition markAsRead_body (userId : ObjectId) (now : Date) (this : t) : t :=
  let alreadyRead :=
    existsb (fun read => String.eqb (rd_user read) userId) (readBy this) in
  if negb alreadyRead
  then set_readBy (readBy this ++ [mkRead userId now]) this
  else this.

Definition markAsRead (userId : ObjectId) (now : Date)
    (this : t) (db : Collection) : t * Result Collection :=
  save (markAsRead_body userId now this) db.

(** How many read entries the message holds for a user. *)
Definition readsOf (u : ObjectId) (m : t) : nat :=
  List.length (filter (fun read => String.eqb (rd_user read) u) (readBy m)).

Definition tombstone : JS.str := JS.of_ascii "This message was deleted".

Definition softDelete_body (now : Date) (this : t) : t :=
  set_content (setter_content (Some tombstone))
    (set_deleted true (Some now) this).

Definition softDelete (now : Date) (this : t) (db : Collection)
    : t * Result Collection :=
  save (softDelete_body now this) db.

Definition editMessage (newContent : option JS.str) (now : Date)
    (this : t) (db : Collection) : t * Result Collection :=
  save (set_edited true (Some now) (set_content (setter_content newContent) this)) db.

(** A document read from the store is not new. *)
Definition hydrate (m : t) : t := set_isNew false m.

Definition findById (id : ObjectId) (db : Collection) : option t :=
  option_map hydrate (find (fun m => String.eqb (_id m) id) db).

(** [Message.getUnreadCount(conversationId, userId)] *)
Definition getUnreadCount (conversationId userId : ObjectId) (db : Collection) : nat :=
  List.length
    (filter (fun m =>
       String.eqb (conversation m) conversationId
       && negb (String.eqb (sender m) userId)
       && negb (existsb (fun read => String.eqb (rd_user read) userId) (readBy m))
       && negb (isDeleted m)) db).

(** A listed message with its [replyTo] reference populated with the
    fields ["content sender"] of the message it points to ([None] when
    there is no reference or it does not resolve). *)
Record Listed := mkListed {
  doc : t;
  replyTo_populated : option (option JS.str * ObjectId)
}.

Definition populate_replyTo (db : Collection) (m : t) : Listed :=
  mkListed m
    (match replyTo m with
     | Some id =>
         match findById id db with
         | Some target => Some (content target, sender target)
         | None => None
         end
     | None => None
     end).

(** [Message.getRecentMessages(conversationId, limit = 50)].  Populating
    [sender] reads the user collection and is left out. *)
Definition getRecentMessages (conversationId : ObjectId) (limit : nat)
    (db : Collection) : list Listed :=
  map (populate_replyTo db)
    (Query.limit limit
       (Query.sortDesc createdAt
          (map hydrate
             (filter (fun m => String.eqb (conversation m) conversationId
                               && negb (isDeleted m)) db)))).

End Message.

(** ** Conversation queries *)

Module ConversationStatics.

(** The comparator of [getUserConversations]: pinned for the user first. *)
Definition pinnedFirst (userId : ObjectId) (a b : Conversation.t) : Z :=
  let aPinned := Conversation.isPinnedForUser userId a in
  let bPinned := Conversation.isPinnedForUser userId b in
  if aPinned && negb bPinned then (-1)%Z
  else if negb aPinned && bPinned then 1%Z
  else 0%Z.

(** [Conversation.getUserConversations(userId, includeArchived = false)].
    The populate calls resolve references for the caller and are left out. *)
Definition getUserConversations (userId : ObjectId) (includeArchived : bool)
    (db : Conversation.Collection) : list Conversation.t :=
  JS.sortBy (pinnedFirst userId)
    (filter (fun conv =>
       includeArchived || negb (Conversation.isArchivedForUser userId conv))
       (Query.sortDesc Conversation.lastMessageAt
          (map Conversation.hydrate
             (filter (fun c => JS.includes (Conversation.participants c) userId)
                db)))).

(** [Conversation.getTotalUnreadCount(userId)] *)
Definition getTotalUnreadCount (userId : ObjectId)
    (db : Conversation.Collection) : Z :=
  fold_left (fun total conv => (total + Conversation.getUnreadCount userId conv)%Z)
    (map Conversation.hydrate
       (filter (fun c => JS.includes (Conversation.participants c) userId) db))
    0%Z.

End ConversationStatics.

(** ** Room model *)

Module Room.

Inductive Role := owner | admin | member.
Inductive Category := academic | social | housing | sports | clubs | general.

Record Member := mkMember {
  mb_user : ObjectId;
  mb_role : Role;
  mb_joinedAt : Date
}.

(** [maxMembers] is a count of members: the schema bounds it by 2 and 1000
    and defaults it to 100, and nothing in the backend sets another value. *)
Record t := mk {
  _id : ObjectId;
  name : JS.str;
  createdBy : ObjectId;
  isPrivate : bool;
  description : option JS.str;
  inviteCode : option string;
  members : list Member;
  maxMembers : Z;
  category : Category;
  isActive : bool;
  lastActivity : Date;
  isNew : bool
}.

Definition Collection := list t.

Definition set_inviteCode (c : option string) (r : t) : t :=
  mk (_id r) (name r) (createdBy r) (isPrivate r) (description r) c
     (members r) (maxMembers r) (category r) (isActive r) (lastActivity r)
     (isNew r).
Definition set_members (ms : list Member) (r : t) : t :=
  mk (_id r) (name r) (createdBy r) (isPrivate r) (description r)
     (inviteCode r) ms (maxMembers r) (category r) (isActive r)
     (lastActivity r) (isNew r).
Definition set_lastActivity (d : Date) (r : t) : t :=
  mk (_id r) (name r) (createdBy r) (isPrivate r) (description r)
     (inviteCode r) (members r) (maxMembers r) (category r) (isActive r) d
     (isNew r).
Definition set_isNew (b : bool) (r : t) : t :=
  mk (_id r) (name r) (createdBy r) (isPrivate r) (description r)
     (inviteCode r) (members r) (maxMembers r) (category r) (isActive r)
     (lastActivity r) b.

(** The unique indexes on [name] and (sparse) on [inviteCode]: a write is
    refused when another room already holds the value. *)
Definition uniqueIndexes (this : t) (db : Collection) : option Error :=
  let others := filter (fun d => negb (String.eqb (_id d) (_id this))) db in
  if existsb (fun d => JS.str_eqb (name d) (name this)) others
  then Some (DuplicateKey "name")
  else match inviteCode this with
       | Some code =>
           if existsb (fun d => match inviteCode d with
                                | Some c => String.eqb c code
                                | None => false
                                end) others
           then Some (DuplicateKey "inviteCode")
           else None
       | None => None
       end.

Definition store (doc : t) (db : Collection) : Collection :=
  if isNew doc then db ++ [set_isNew false doc]
  else map (fun d => if String.eqb (_id d) (_id doc) then doc else d) db.

Definition save (this : t) (db : Collection) : t * Result Collection :=
  match uniqueIndexes this db with
  | Some e => (this, Err e)
  | None => (set_isNew false this, Ok (store this db))
  end.

(** Schema validation of a new room: [name] is required and holds 1 to
    100 code units, [description] at most 500. *)
Definition validate (this : t) : option Error :=
  if (List.length (name this) =? 0)%nat
  then Some (ValidationError "name" "required")
  else if (100 <? List.length (name this))%nat
  then Some (ValidationError "name" "maxlength")
  else match description this with
       | Some d =>
           if (500 <? List.length d)%nat
           then Some (ValidationError "description" "maxlength")
           else None
       | None => None
       end.

(** [Room.create({ name, description, isPrivate, createdBy, members })]
    as the gateway calls it: the creator is the only member, with role
    [owner]; the other paths take their schema defaults.  Both text paths
    carry the [trim] setter. *)
Definition create (freshId : ObjectId) (now : Date) (name : option JS.str)
    (description : option JS.str) (isPrivate : bool) (createdBy : ObjectId)
    (db : Collection) : t * Result Collection :=
  let this :=
    mk freshId (JS.trim (match name with Some n => n | None => [] end))
       createdBy isPrivate (option_map JS.trim description) None
       [mkMember createdBy owner now] 100 general true now true in
  match validate this with
  | Some e => (this, Err e)
  | None => save this db
  end.

Definition chars : string := "ABCDEFGHIJKLMNOPQRSTUVWXYZ0123456789".

(** The loop of [generateInviteCode], from index [i] for [n] more rounds;
    [random k] is the value of the [k]-th call of [Math.random()], a
    double and so a rational.  The product with [chars.length] is taken
    exactly here; rounded to a double it stays at or above 0 and below
    [chars.length] whenever the draw lies in the range of [Math.random()]. *)
Fixpoint inviteLoop (random : nat -> Q) (i n : nat) (code : string) : string :=
  match n with
  | O => code
  | S n' =>
      inviteLoop random (S i) n'
        (code ++ JS.charAt chars
                   (Qfloor (random i * inject_Z (Z.of_nat (String.length chars)))%Q))
  end.

Definition generateInviteCode (random : nat -> Q) (this : t) (db : Collection)
    : t * Result Collection :=
  let code := inviteLoop random 0 8 "" in
  save (set_inviteCode (Some code) this) db.

(** [this.members.some(m => m.user.toString() === userId.toString())] *)
Definition isMember (userId : ObjectId) (this : t) : bool :=
  existsb (fun m => String.eqb (mb_user m) userId) (members this).

(** [addMember(userId, role = "member")]: an outer [Err] is the
    synchronous [throw], which leaves the document untouched. *)
Definition addMember (userId : ObjectId) (role : Role) (now : Date)
    (this : t) (db : Collection) : Result (t * Result Collection) :=
  if existsb (fun m => String.eqb (mb_user m) userId) (members this)
  then Err (Thrown "User is already a member of this room")
  else if (maxMembers this <=? Z.of_nat (List.length (members this)))%Z
  then Err (Thrown "Room has reached maximum capacity")
  else Ok (save (set_members (members this ++ [mkMember userId role now]) this) db).

Definition removeMember (userId : ObjectId) (this : t) (db : Collection)
    : Result (t * Result Collection) :=
  Ok (save (set_members
              (filter (fun m => negb (String.eqb (mb_user m) userId)) (members this))
              this) db).

Definition updateMemberRole (userId : ObjectId) (newRole : Role)
    (this : t) (db : Collection) : Result (t * Result Collection) :=
  match find (fun m => String.eqb (mb_user m) userId) (members this) with
  | None => Err (Thrown "User is not a member of this room")
  | Some _ =>
      Ok (save (set_members
                  (JS.updateFirst
                     (fun m => String.eqb (mb_user m) userId)
                     (fun m => mkMember (mb_user m) newRole (mb_joinedAt m))
                     (members this))
                  this) db)
  end.

Definition isAdminOrOwner (userId : ObjectId) (this : t) : bool :=
  match find (fun m => String.eqb (mb_user m) userId) (members this) with
  | Some m => match mb_role m with owner | admin => true | member => false end
  | None => false
  end.

Definition getMemberCount (this : t) : nat := List.length (members this).

Definition updateActivity (now : Date) (this : t) (db : Collection)
    : t * Result Collection :=
  save (set_lastActivity now this) db.

(** A document read from the store is not new. *)
Definition hydrate (r : t) : t := set_isNew false r.

Definition findById (id : ObjectId) (db : Collection) : option t :=
  option_map hydrate (find (fun r => String.eqb (_id r) id) db).

(** One call of a method on the in-memory room, and the rooms that the
    gateway's [Room.create] followed by such calls can produce. *)
Inductive step : t -> t -> Prop :=
| step_addMember userId role now this db this' saved :
    addMember userId role now this db = Ok (this', saved) -> step this this'
| step_removeMember userId this db this' saved :
    removeMember userId this db = Ok (this', saved) -> step this this'
| step_updateMemberRole userId newRole this db this' saved :
    updateMemberRole userId newRole this db = Ok (this', saved) -> step this this'
| step_generateInviteCode random this db :
    step this (fst (generateInviteCode random this db))
| step_updateActivity now this db :
    step this (fst (updateActivity now this db)).

Inductive reachable : t -> Prop :=
| reachable_create freshId now name description isPrivate createdBy db :
    reachable (fst (create freshId now name description isPrivate createdBy db))
| reachable_step this this' :
    reachable this -> step this this' -> reachable this'.

Definition category_eqb (a b : Category) : bool :=
  match a, b with
  | academic, academic | social, social | housing, housing
  | sports, sports | clubs, clubs | general, general => true
  | _, _ => false
  end.

(** [Room.findPublicRooms(limit = 20)]; [select("-inviteCode")] drops the
    invite code from every room returned.  Populating [createdBy] reads the
    user collection and is left out, here and below. *)
Definition findPublicRooms (limit : nat) (db : Collection) : list t :=
  map (set_inviteCode None)
    (Query.limit limit
       (Query.sortDesc lastActivity
          (map hydrate
             (filter (fun r => negb (isPrivate r) && isActive r) db)))).

(** [Room.findByCategory(category, limit = 20)] *)
Definition findByCategory (cat : Category) (limit : nat) (db : Collection) : list t :=
  Query.limit limit
    (Query.sortDesc lastActivity
       (map hydrate
          (filter (fun r => category_eqb (category r) cat
                            && negb (isPrivate r) && isActive r) db))).

(** [Room.findByInviteCode(code)] *)
Definition findByInviteCode (code : string) (db : Collection) : option t :=
  option_map hydrate
    (find (fun r => match inviteCode r with
                    | Some c => String.eqb c code
                    | None => false
                    end && isPrivate r && isActive r) db).

(** [Room.findUserRooms(userId)] *)
Definition findUserRooms (userId : ObjectId) (db : Collection) : list t :=
  Query.sortDesc lastActivity
    (map hydrate
       (filter (fun r => existsb (fun m => String.eqb (mb_user m) userId) (members r)
                         && isActive r) db)).

(** The names the specification gives to the three membership errors. *)
Definition AlreadyMember : Error := Thrown "User is already a member of this room".
Definition CapacityExceeded : Error := Thrown "Room has reached maximum capacity".
Definition NotAMember : Error := Thrown "User is not a member of this room".

(** The room invariants of the data model. *)
Definition withinCapacity (this : t) : Prop :=
  (Z.of_nat (List.length (members this)) <= maxMembers this)%Z.
Definition distinctMembers (this : t) : Prop :=
  NoDup (map mb_user (members this)).

End Room.

(** ** The socket gateway *)

Module Socket.

Inductive Event :=
| MessageNew (channel : string) (message : Message.t).

(** The store, the channel subscriptions of the connected users and the
    events pushed so far. *)
Record World := mkWorld {
  conversations : Conversation.Collection;
  messages : Message.Collection;
  rooms : Room.Collection;
  joined : list (ObjectId * string);
  emitted : list Event
}.

Definition set_conversations (c : Conversation.Collection) (w : World) : World :=
  mkWorld c (messages w) (rooms w) (joined w) (emitted w).
Definition set_messages (m : Message.Collection) (w : World) : World :=
  mkWorld (conversations w) m (rooms w) (joined w) (emitted w).
Definition set_rooms (r : Room.Collection) (w : World) : World :=
  mkWorld (conversations w) (messages w) r (joined w) (emitted w).
Definition set_joined (j : list (ObjectId * string)) (w : World) : World :=
  mkWorld (conversations w) (messages w) (rooms w) j (emitted w).
Definition set_emitted (e : list Event) (w : World) : World :=
  mkWorld (conversations w) (messages w) (rooms w) (joined w) e.

Definition emptyWorld : World := mkWorld [] [] [] [] [].

(** The body of a handler: it runs on the world, and an awaited rejection
    or a throw ends it with the effects made so far kept. *)
Definition M (A : Type) : Type := World -> Result A * World.

Definition ret {A : Type} (a : A) : M A := fun w => (Ok a, w).

Definition bind {A B : Type} (c : M A) (k : A -> M B) : M B :=
  fun w => match c w with
           | (Ok a, w') => k a w'
           | (Err e, w') => (Err e, w')
           end.

Definition throw {A : Type} (e : Error) : M A := fun w => (Err e, w).

Declare Scope handler_scope.
Delimit Scope handler_scope with handler.
Notation "x <- c ;; k" := (bind c (fun x => k))
  (at level 100, c at next level, right associativity) : handler_scope.
Notation "c ;; k" := (bind c (fun _ => k))
  (at level 100, right associativity) : handler_scope.

(** What the acknowledgement callback receives: [{ success: true, ... }],
    [{ error: "Not authorized" }] or [{ error: error.message }]. *)
Inductive Reply (A : Type) : Type :=
| Success (payload : A)
| NotAuthorized
| Failed (error : Error).
Arguments Success {A} payload.
Arguments NotAuthorized {A}.
Arguments Failed {A} error.

(** [try { ... } catch (error) { callback({ error: error.message }) }] *)
Definition tryCatch {A : Type} (body : M (Reply A)) (w : World) : Reply A * World :=
  match body w with
  | (Ok r, w') => (r, w')
  | (Err e, w') => (Failed e, w')
  end.

(** An awaited model call on one of the collections. *)
Definition onConversations (f : Conversation.Collection ->
    Conversation.t * Result Conversation.Collection) : M Conversation.t :=
  fun w => match f (conversations w) with
           | (doc, Ok db) => (Ok doc, set_conversations db w)
           | (_, Err e) => (Err e, w)
           end.

Definition onMessages (f : Message.Collection ->
    Message.t * Result Message.Collection) : M Message.t :=
  fun w => match f (messages w) with
           | (doc, Ok db) => (Ok doc, set_messages db w)
           | (_, Err e) => (Err e, w)
           end.

Definition onRooms (f : Room.Collection ->
    Room.t * Result Room.Collection) : M Room.t :=
  fun w => match f (rooms w) with
           | (doc, Ok db) => (Ok doc, set_rooms db w)
           | (_, Err e) => (Err e, w)
           end.

Definition join (userId : ObjectId) (channel : string) : M unit :=
  fun w => (Ok tt, set_joined (joined w ++ [(userId, channel)]) w).

Definition emit (e : Event) : M unit :=
  fun w => (Ok tt, set_emitted (emitted w ++ [e]) w).

Local Open Scope handler_scope.

(** [socket.on("conversation:start", ...)].  The ids are taken in the
    text that [toString()] renders, for which the cast of the query is
    the identity. *)
Definition conversation_start (userId otherUserId : ObjectId)
    (freshId : ObjectId) (now : Date)
    : World -> Reply (Conversation.t * list Message.t) * World :=
  tryCatch (
    conversation <- (fun w =>
      match Conversation.findOrCreate freshId now userId otherUserId (conversations w) with
      | Ok (c, db) => (Ok c, set_conversations db w)
      | Err e => (Err e, w)
      end) ;;
    messages <- (fun w =>
      (Ok (Query.limit 50
             (Query.sortAsc Message.createdAt
                (map Message.hydrate
                   (filter (fun m => String.eqb (Message.conversation m)
                                       (Conversation._id conversation))
                      (messages w))))), w)) ;;
    join userId ("conversation:" ++ Conversation._id conversation) ;;
    ret (Success (conversation, messages))).

(** [socket.on("message:send:conversation", ...)].  Reading
    [conversation.participants] throws a [TypeError] when [findById]
    returned [null]; populating the sender of the reply reads the user
    collection and is left out.  The ids are taken in the text that
    [toString()] renders, for which the cast of the query is the
    identity. *)
Definition message_send_conversation (userId conversationId : ObjectId)
    (content : option JS.str) (freshId : ObjectId) (tCreate tUpdate : Date)
    : World -> Reply Message.t * World :=
  tryCatch (
    found <- (fun w =>
      (Ok (Conversation.findById conversationId (conversations w)), w)) ;;
    match found with
    | None =>
        throw (TypeError "Cannot read properties of null (reading 'participants')")
    | Some conversation =>
        if negb (JS.includes (Conversation.participants conversation) userId)
        then ret NotAuthorized
        else
          message <- onMessages
            (Message.create freshId tCreate userId conversationId content
               Message.text) ;;
          onConversations
            (Conversation.updateLastMessage (Message._id message) tUpdate
               conversation) ;;
          emit (MessageNew ("conversation:" ++ conversationId) message) ;;
          ret (Success message)
    end).

(** A listed conversation with its [lastMessage] reference populated. *)
Record ListedConversation := mkListedConversation {
  conv : Conversation.t;
  lastMessage_populated : option Message.t
}.

Definition populate_lastMessage (db : Message.Collection) (c : Conversation.t)
    : ListedConversation :=
  mkListedConversation c
    (match Conversation.lastMessage c with
     | Some id => Message.findById id db
     | None => None
     end).

(** [socket.on("conversation:list", ...)] *)
Definition conversation_list (userId : ObjectId)
    : World -> Reply (list ListedConversation) * World :=
  tryCatch (fun w =>
    (Ok (Success
           (Query.sortDesc (fun l => Conversation.lastMessageAt (conv l))
              (map (populate_lastMessage (messages w))
                 (map Conversation.hydrate
                    (filter (fun c => JS.includes (Conversation.participants c) userId)
                       (conversations w)))))), w)).

(** [socket.on("room:create", ...)] *)
Definition room_create (userId : ObjectId) (name description : option JS.str)
    (isPrivate : bool) (freshId : ObjectId) (now : Date)
    : World -> Reply Room.t * World :=
  tryCatch (
    room <- onRooms (Room.create freshId now name description isPrivate userId) ;;
    join userId ("room:" ++ Room._id room) ;;
    ret (Success room)).

(** [socket.on("message:send:room", ...)].  The ids are taken in the
    text that [toString()] renders, for which the cast of the query is
    the identity. *)
Definition message_send_room (userId roomId : ObjectId)
    (content : option JS.str) (freshId : ObjectId) (tCreate tUpdate : Date)
    : World -> Reply Message.t * World :=
  tryCatch (
    found <- (fun w => (Ok (Room.findById roomId (rooms w)), w)) ;;
    match found with
    | None => ret NotAuthorized
    | Some room =>
        if negb (Room.isMember userId room) then ret NotAuthorized
        else
          message <- onMessages
            (Message.create freshId tCreate userId roomId content Message.text) ;;
          onRooms (Room.updateActivity tUpdate room) ;;
          emit (MessageNew ("room:" ++ roomId) message) ;;
          ret (Success message)
    end).

(** [socket.on("room:list", ...)] *)
Definition room_list (userId : ObjectId) : World -> Reply (list Room.t) * World :=
  tryCatch (fun w =>
    (Ok (Success
           (Query.sortDesc Room.lastActivity
              (map Room.hydrate
                 (filter (fun r =>
                    existsb (fun m => String.eqb (Room.mb_user m) userId)
                      (Room.members r)
                    && Room.isActive r) (rooms w))))), w)).

End Socket.

(** ** User model *)

Module User.

Inductive Status := online | offline.

Record t := mk {
  _id : ObjectId;
  email : string;
  googleId : option string;
  name : JS.str;
  status : Status;
  lastSeen : Date;
  netId : string
}.

Definition Collection := list t.

Record PublicProfile := mkProfile {
  pp_id : string;
  pp_name : JS.str;
  pp_status : Status;
  pp_lastSeen : Date;
  pp_netId : string
}.

Definition getPublicProfile (this : t) : PublicProfile :=
  mkProfile (_id this) (name this) (status this) (lastSeen this) (netId this).

Definition isOnline (u : t) : bool :=
  match status u with online => true | offline => false end.

Definition findOnlineUsers (db : Collection) : list t := filter isOnline db.

Definition findById (id : ObjectId) (db : Collection) : option t :=
  find (fun u => String.eqb (_id u) id) db.

(** [User.findByIdAndUpdate(id, { status, lastSeen })]: the document of
    that id, if there is one, gets the two paths set. *)
Definition findByIdAndUpdate (id : ObjectId) (st : Status) (seen : Date)
    (db : Collection) : Collection :=
  JS.updateFirst (fun u => String.eqb (_id u) id)
    (fun u => mk (_id u) (email u) (googleId u) (name u) st seen (netId u)) db.

End User.

(** ** Presence, typing and the handshake *)

Module Live.

(** A connected socket: its id, the identity the handshake bound to it and
    the rooms it is in (its own room first). *)
Record Conn := mkConn {
  sid : string;
  userId : ObjectId;
  userName : JS.str;
  rooms : list string
}.

Inductive Packet :=
| UserOnline (userId : ObjectId) (userName : JS.str)
| UserOffline (userId : ObjectId)
| TypingStart (userId : ObjectId) (userName : JS.str)
| TypingStop (userId : ObjectId).

Record Delivery := mkDelivery { dest : string; packet : Packet }.

Record Net := mkNet {
  conns : list Conn;
  users : User.Collection;
  delivered : list Delivery
}.

(** [socket.broadcast.emit(...)]: every connected socket but the sender. *)
Definition broadcast (sender : string) (p : Packet) (n : Net) : Net :=
  mkNet (conns n) (users n)
    (delivered n
     ++ map (fun c => mkDelivery (sid c) p)
          (filter (fun c => negb (String.eqb (sid c) sender)) (conns n))).

(** [socket.to(room).emit(...)]: every socket in the room but the sender. *)
Definition toRoom (sender : string) (room : string) (p : Packet) (n : Net) : Net :=
  mkNet (conns n) (users n)
    (delivered n
     ++ map (fun c => mkDelivery (sid c) p)
          (filter (fun c => negb (String.eqb (sid c) sender)
                            && existsb (String.eqb room) (rooms c)) (conns n))).

(** [io.on("connection", ...)] up to the registration of the handlers;
    [user] and [name] are [socket.userId] and [socket.userName]. *)
Definition connection (socketId : string) (user : ObjectId) (name : JS.str)
    (now : Date) (n : Net) : Net :=
  let n1 := mkNet (conns n ++ [mkConn socketId user name [socketId]])
              (User.findByIdAndUpdate user User.online now (users n))
              (delivered n) in
  let n2 := broadcast socketId (UserOnline user name) n1 in
  mkNet (map (fun c => if String.eqb (sid c) socketId
                       then mkConn (sid c) (userId c) (userName c)
                              (rooms c ++ [("user:" ++ user)%string])
                       else c) (conns n2))
        (users n2) (delivered n2).

(** [socket.on("typing:start", ...)] *)
Definition typing_start (sender : Conn) (conversationId roomId : option string)
    (n : Net) : Net :=
  match conversationId, roomId with
  | Some (String c s), _ =>
      toRoom (sid sender) ("conversation:" ++ String c s)
        (TypingStart (userId sender) (userName sender)) n
  | _, Some (String c s) =>
      toRoom (sid sender) ("room:" ++ String c s)
        (TypingStart (userId sender) (userName sender)) n
  | _, _ => n
  end.

(** [socket.on("typing:stop", ...)] *)
Definition typing_stop (sender : Conn) (conversationId roomId : option string)
    (n : Net) : Net :=
  match conversationId, roomId with
  | Some (String c s), _ =>
      toRoom (sid sender) ("conversation:" ++ String c s)
        (TypingStop (userId sender)) n
  | _, Some (String c s) =>
      toRoom (sid sender) ("room:" ++ String c s)
        (TypingStop (userId sender)) n
  | _, _ => n
  end.

(** [socket.on("disconnect", ...)]: the socket is gone from the server when
    the handler runs. *)
Definition disconnect (sender : Conn) (now : Date) (n : Net) : Net :=
  broadcast (sid sender) (UserOffline (userId sender))
    (mkNet (filter (fun c => negb (String.eqb (sid c) (sid sender))) (conns n))
       (User.findByIdAndUpdate (userId sender) User.offline now (users n))
       (delivered n)).

(** The sockets that were sent something between two states of the net,
    and the packets sent. *)
Definition sentSince (before after : Net) : list Delivery :=
  skipn (List.length (delivered before)) (delivered after).

Definition inRoom (room : string) (c : Conn) : bool :=
  existsb (String.eqb room) (rooms c).

Section Handshake.

(** [verifyToken(token)] of the auth middleware: the [id] of the decoded
    payload as the text it is ([None] when the payload has none), or the
    error thrown. *)
Variable verifyToken : string -> Result (option string).

(** The [io.use] middleware: the identity bound to the socket, or the error
    passed to [next].  [User.findById] casts the id of the payload inside
    the [try]: for a text that is no ObjectId it throws, and the [catch]
    answers as for a token that did not verify. *)
Definition authenticate (token : option string) (db : User.Collection)
    : Result (ObjectId * JS.str) :=
  match token with
  | Some (String c s) =>
      match verifyToken (String c s) with
      | Err _ => Err (Thrown "Invalid token")
      | Ok None => Err (Thrown "User not found")
      | Ok (Some text) =>
          match JS.castObjectId text with
          | None => Err (Thrown "Invalid token")
          | Some id =>
              match User.findById id db with
              | None => Err (Thrown "User not found")
              | Some user => Ok (User._id user, User.name user)
              end
          end
      end
  | _ => Err (Thrown "No token")
  end.

End Handshake.

End Live.

(** ** The HTTP bearer middleware *)

Module Http.

Inductive Response (D : Type) : Type :=
| Json (status : nat) (key text : string)
| Next (user : D).
Arguments Json {D} status key text.
Arguments Next {D} user.

Section Middleware.

Variable Decoded : Type.
(** [jwt.verify(token, secret)]: the decoded payload, or the error thrown. *)
Variable verify : string -> Result Decoded.

(** [authenticateJWT(req, res, next)] on the [authorization] header. *)
Definition authenticateJWT (authorization : option string) : Response Decoded :=
  let header :=
    match authorization with
    | Some a => nth_error (JS.split " " a) 1
    | None => None
    end in
  match header with
  | Some (String c s) =>
      match verify (String c s) with
      | Ok decoded => Next decoded
      | Err _ => Json 401 "error" "Invalid token"
      end
  | _ => Json 401 "message" "Unauthorized/Missing valid login credentials"
  end.

End Middleware.

End Http.

(** ** The Google sign-in strategy *)

Module Google.

Record Profile := mkProfile {
  emails : list (option string);
  displayName : JS.str
}.

Inductive Done (T : Type) : Type :=
| DoneError (e : Error)
| DoneRefused (message : string)
| DoneToken (token : T).
Arguments DoneError {T} e.
Arguments DoneRefused {T} message.
Arguments DoneToken {T} token.

Section Strategy.

Variable toLowerCase : string -> string.
(** The user store and [User.findOneAndUpdate({ email }, { email, netId,
    name }, { upsert: true, new: true })] on it. *)
Variable Store : Type.
Variable findOneAndUpdate :
  string -> string -> JS.str -> Store -> Result User.t * Store.
(** [jwt.sign({ id, email }, secret, { expiresIn: "24h" })] *)
Variable Token : Type.
Variable sign : string -> string -> Result Token.

(** The verify callback of the strategy: what [done] receives, and the
    store afterwards. *)
Definition verifyCallback (profile : Profile) (db : Store) : Done Token * Store :=
  match emails profile with
  | [] =>
      (DoneError (TypeError "Cannot read properties of undefined (reading 'value')"), db)
  | first :: _ =>
      let email := option_map toLowerCase first in
      match email with
      | Some (String c rest) =>
          if negb (JS.endsWith (String c rest) "@illinois.edu")
          then (DoneRefused "Invalid email domain", db)
          else
            let netId := match JS.split "@" (String c rest) with
                         | piece :: _ => piece
                         | [] => EmptyString
                         end in
            match findOneAndUpdate (String c rest) netId (displayName profile) db with
            | (Err e, db') => (DoneError e, db')
            | (Ok user, db') =>
                match sign (User._id user) (User.email user) with
                | Err e => (DoneError e, db')
                | Ok token => (DoneToken token, db')
                end
            end
      | _ => (DoneRefused "Invalid email domain", db)
      end
  end.

End Strategy.

End Google.

(** ** Joining a room *)

Module JoinRoom.

Section Populated.

(** [document.toString()] of a populated user document: Mongoose renders
    the document through [inspect]. *)
Variable inspect : User.t -> string.

(** [room.isMember(userId)] on a room whose [members.user] is populated:
    each [m.user] is the user document, or [null] when the reference does
    not resolve, and [some] stops at the first match. *)
Fixpoint isMember_populated (users : User.Collection) (userId : ObjectId)
    (ms : list Room.Member) : Result bool :=
  match ms with
  | [] => Ok false
  | m :: ms' =>
      match User.findById (Room.mb_user m) users with
      | None => Err (TypeError "Cannot read properties of null (reading 'toString')")
      | Some u =>
          if String.eqb (inspect u) userId then Ok true
          else isMember_populated users userId ms'
      end
  end.

(** [socket.on("room:join", ...)].  [roomId] is the text the client sent:
    [Room.findById] and [Message.find] cast it, and [Room.findById] throws
    for a text that is no ObjectId; the channel name is built from the text
    as sent. *)
Definition room_join (users : User.Collection) (userId : ObjectId)
    (roomId : string)
    : Socket.World -> Socket.Reply (Room.t * list Message.t) * Socket.World :=
  Socket.tryCatch (
    match JS.castObjectId roomId with
    | None => Socket.throw (CastError "_id")
    | Some id =>
    Socket.bind
      (fun w => (Ok (Room.findById id (Socket.rooms w)), w))
      (fun found =>
         match found with
         | None => Socket.ret Socket.NotAuthorized
         | Some room =>
             Socket.bind
               (fun w => (match isMember_populated users userId (Room.members room) with
                          | Ok b => Ok b
                          | Err e => Err e
                          end, w))
               (fun isMember =>
                  if negb isMember then Socket.ret Socket.NotAuthorized
                  else
                    Socket.bind (Socket.join userId ("room:" ++ roomId))
                      (fun _ =>
                         Socket.bind
                           (fun w =>
                              (Ok (Query.limit 50
                                     (Query.sortAsc Message.createdAt
                                        (map Message.hydrate
                                           (filter (fun m =>
                                              String.eqb (Message.conversation m) id)
                                              (Socket.messages w))))), w))
                           (fun messages =>
                              Socket.ret (Socket.Success (room, messages)))))
         end)
    end).

End Populated.

End JoinRoom.

(** ** Vocabulary of the specification *)

Module Spec.

(** Pairs of characters of the invite alphabet that read alike: the letter
    O and the digit 0, the letter I and the digit 1. *)
Definition lookAlike (a b : ascii) : bool :=
  (Ascii.eqb a "O" && Ascii.eqb b "0") || (Ascii.eqb a "0" && Ascii.eqb b "O")
  || (Ascii.eqb a "I" && Ascii.eqb b "1") || (Ascii.eqb a "1" && Ascii.eqb b "I").

(** An alphabet is unambiguous when no two of its characters read alike. *)
Definition unambiguous (alphabet : list ascii) : Prop :=
  forall a b, In a alphabet -> In b alphabet -> lookAlike a b = false.

Definition isUpper (c : ascii) : bool :=
  (65 <=? nat_of_ascii c)%nat && (nat_of_ascii c <=? 90)%nat.
Definition isDigit (c : ascii) : bool :=
  (48 <=? nat_of_ascii c)%nat && (nat_of_ascii c <=? 57)%nat.

End Spec.

(** ** Sample documents *)

Module Sample.

Definition alice : ObjectId := "650000000000000000000001".
Definition bob : ObjectId := "650000000000000000000002".
Definition carol : ObjectId := "650000000000000000000003".

(** A stored conversation between alice and bob. *)
Definition chat : Conversation.t :=
  Conversation.mk "65000000000000000000c001" [alice; bob] None 1000%Z
    [Conversation.mkUnread alice 0; Conversation.mkUnread bob 0]
    [Conversation.mkArchived alice false; Conversation.mkArchived bob false]
    [Conversation.mkPinned alice false; Conversation.mkPinned bob false]
    [] false.

(** Conversation documents not yet saved, with two and with three
    participants. *)
Definition draft : Conversation.t :=
  Conversation.mk "65000000000000000000c002" [alice; carol] None 1000%Z
    [] [] [] [] true.
Definition trio : Conversation.t :=
  Conversation.mk "65000000000000000000c003" [alice; bob; carol] None 1000%Z
    [] [] [] [] true.

(** A stored text message of alice in [chat]. *)
Definition hello : Message.t :=
  Message.mk "65000000000000000000e001" alice (Conversation._id chat)
    (Some (JS.of_ascii "hello")) Message.text [] [] false None false None
    None 1100%Z false.

(** A reply of bob to [hello]. *)
Definition answer : Message.t :=
  Message.mk "65000000000000000000e002" bob (Conversation._id chat)
    (Some (JS.of_ascii "hi alice")) Message.text [] [] false None false None
    (Some (Message._id hello)) 1200%Z false.

(** A stored room of capacity 2 with alice (owner) and bob in it. *)
Definition den : Room.t :=
  Room.mk "65000000000000000000d001" (JS.of_ascii "den") alice true None None
    [Room.mkMember alice Room.owner 1000%Z; Room.mkMember bob Room.member 1001%Z]
    2%Z Room.general true 1001%Z false.

(** A stored room with the default capacity and alice alone in it. *)
Definition hall : Room.t :=
  Room.mk "65000000000000000000d002" (JS.of_ascii "hall") alice false None None
    [Room.mkMember alice Room.owner 1000%Z]
    100%Z Room.general true 1000%Z false.

(** The room that alice creates through the gateway on an empty store, and
    the same room after bob was added. *)
Definition lobby : Room.t :=
  fst (Room.create "65000000000000000000d003" 1000%Z (Some (JS.of_ascii "lobby"))
         None true alice []).

Definition lobbyWithBob : Room.t :=
  match Room.addMember bob Room.member 1001%Z lobby [lobby] with
  | Ok (room, _) => room
  | Err _ => lobby
  end.

(** Values of [Math.random()] that pick O, 0, I, 1 in turn. *)
Definition dice (i : nat) : Q :=
  match Nat.modulo i 4 with
  | 0%nat => (14 # 36)%Q
  | 1%nat => (26 # 36)%Q
  | 2%nat => (8 # 36)%Q
  | _ => (27 # 36)%Q
  end.

(** The first-contact scenario: on an empty store alice starts a
    conversation with bob, then sends "hi" in it. *)
Definition chatId : ObjectId := "65000000000000000000c009".
Definition hiId : ObjectId := "65000000000000000000e009".

Definition afterStart : Socket.World :=
  snd (Socket.conversation_start alice bob chatId 1000%Z Socket.emptyWorld).

Definition afterSend : Socket.World :=
  snd (Socket.message_send_conversation alice chatId (Some (JS.of_ascii "hi"))
         hiId 2000%Z 2001%Z afterStart).

End Sample.

(** ** Sample worlds of the gateway *)

Module Demo.

(** A store that holds the two sample rooms and the sample conversation. *)
Definition world : Socket.World :=
  Socket.mkWorld [Sample.chat] [Sample.hello; Sample.answer]
    [Sample.den; Sample.hall] [] [].

Definition aliceUser : User.t :=
  User.mk Sample.alice "alice@illinois.edu" None (JS.of_ascii "Alice")
    User.offline 900%Z "alice".
Definition bobUser : User.t :=
  User.mk Sample.bob "bob@illinois.edu" None (JS.of_ascii "Bob")
    User.offline 900%Z "bob".

Definition users : User.Collection := [aliceUser; bobUser].

(** A rendering of a user document in the style of [inspect]. *)
Definition render (u : User.t) : string :=
  "{ _id: new ObjectId('" ++ User._id u ++ "') }".

(** Alice connected from two devices, bob from one; all three sockets are
    in the channel of their conversation. *)
Definition phone : Live.Conn :=
  Live.mkConn "s-phone" Sample.alice (JS.of_ascii "Alice")
    ["s-phone"; "user:650000000000000000000001";
     "conversation:65000000000000000000c001"].
Definition laptop : Live.Conn :=
  Live.mkConn "s-laptop" Sample.alice (JS.of_ascii "Alice")
    ["s-laptop"; "user:650000000000000000000001";
     "conversation:65000000000000000000c001"].
Definition tablet : Live.Conn :=
  Live.mkConn "s-tablet" Sample.bob (JS.of_ascii "Bob")
    ["s-tablet"; "user:650000000000000000000002";
     "conversation:65000000000000000000c001"].

Definition net : Live.Net :=
  Live.mkNet [phone; laptop; tablet]
    [User.mk Sample.alice "alice@illinois.edu" None (JS.of_ascii "Alice")
       User.online 900%Z "alice";
     User.mk Sample.bob "bob@illinois.edu" None (JS.of_ascii "Bob")
       User.online 900%Z "bob"]
    [].

(** Lower case of the letters A to Z. *)
Definition lower (s : string) : string :=
  string_of_list_ascii
    (map (fun c => if (65 <=? nat_of_ascii c)%nat && (nat_of_ascii c <=? 90)%nat
                   then ascii_of_nat (nat_of_ascii c + 32) else c)
       (list_ascii_of_string s)).

(** An upsert on a list of users that answers with alice's document, and a
    signing that joins id and email. *)
Definition upsert (email netId : string) (name : JS.str) (db : User.Collection)
    : Result User.t * User.Collection :=
  (Ok (User.mk Sample.alice email None name User.offline 900%Z netId), db).

Definition signed (id email : string) : Result string :=
  Ok (id ++ ":" ++ email)%string.

(** A token check that accepts the one token "good" as alice's. *)
Definition verifyToken (token : string) : Result (option ObjectId) :=
  if String.eqb token "good" then Ok (Some Sample.alice)
  else Err (Thrown "jwt malformed").

End Demo.

(** * Properties *)

(** ** The embedding on concrete values *)

Example trim_strips_both_ends :
  JS.trim (JS.of_ascii "  hi there ") = JS.of_ascii "hi there".
Proof. reflexivity. Qed.

Example sort2_orders_the_pair :
  JS.sort2 Sample.bob Sample.alice = [Sample.alice; Sample.bob]
  /\ JS.sort2 Sample.alice Sample.bob = [Sample.alice; Sample.bob].
Proof. split; reflexivity. Qed.

Example charAt_outside : JS.charAt Room.chars 36 = "" /\ JS.charAt Room.chars 35 = "9".
Proof. split; reflexivity. Qed.

Example create_refuses_blank_text :
  snd (Message.create Sample.hiId 2000%Z Sample.alice Sample.chatId
         (Some (JS.of_ascii "   ")) Message.text [])
  = Err (ValidationError "content" "required").
Proof. reflexivity. Qed.

Example send_by_outsider :
  fst (Socket.message_send_conversation Sample.carol Sample.chatId
         (Some (JS.of_ascii "hi")) Sample.hiId 2000%Z 2001%Z Sample.afterStart)
  = Socket.NotAuthorized.
Proof. reflexivity. Qed.

Example send_to_unknown_conversation :
  fst (Socket.message_send_conversation Sample.alice Sample.chatId
         (Some (JS.of_ascii "hi")) Sample.hiId 2000%Z 2001%Z Socket.emptyWorld)
  = Socket.Failed
      (TypeError "Cannot read properties of null (reading 'participants')").
Proof. reflexivity. Qed.

Example start_twice_same_conversation :
  fst (Socket.conversation_start Sample.bob Sample.alice Sample.hiId 3000%Z
         Sample.afterSend)
  = Socket.Success
      (Conversation.mk Sample.chatId [Sample.alice; Sample.bob]
         (Some Sample.hiId) 2001%Z
         [Conversation.mkUnread Sample.alice 0; Conversation.mkUnread Sample.bob 0]
         [Conversation.mkArchived Sample.alice false;
          Conversation.mkArchived Sample.bob false]
         [Conversation.mkPinned Sample.alice false;
          Conversation.mkPinned Sample.bob false] [] false,
       [Message.mk Sample.hiId Sample.alice Sample.chatId
          (Some (JS.of_ascii "hi")) Message.text [] [] false None false None
          None 2000%Z false]).
Proof. reflexivity. Qed.

(** ** Arrays: [find] and the update of the entry it returns *)

Section ArrayFacts.
Context {A : Type} (p : A -> bool) (f : A -> A).

Lemma find_updateFirst :
  (forall x, p x = true -> p (f x) = true) ->
  forall l, find p (JS.updateFirst p f l) = option_map f (find p l).
Proof.
  intros Hp l. induction l as [|x l IH]; simpl; [reflexivity|].
  destruct (p x) eqn:Hx; simpl.
  - now rewrite (Hp x Hx).
  - now rewrite Hx.
Qed.

Lemma find_app_none (l : list A) (x : A) :
  find p l = None -> find p (l ++ [x]) = find p [x].
Proof.
  induction l as [|y l IH]; simpl; [reflexivity|].
  destruct (p y); [discriminate|exact IH].
Qed.

Lemma find_app_some (l l' : list A) (x : A) :
  find p l = Some x -> find p (l ++ l') = Some x.
Proof.
  induction l as [|y l IH]; simpl; [discriminate|].
  destruct (p y); [trivial|exact IH].
Qed.

Lemma find_none_iff (l : list A) :
  find p l = None <-> (forall x, In x l -> p x = false).
Proof.
  induction l as [|y l IH]; simpl.
  - split; [intros _ x []|reflexivity].
  - destruct (p y) eqn:Hy.
    + split; [discriminate|].
      intros H. rewrite (H y (or_introl eq_refl)) in Hy. discriminate.
    + rewrite IH. split.
      * intros H x [<-|Hx]; [exact Hy|exact (H x Hx)].
      * intros H x Hx. apply H. now right.
Qed.

Lemma length_updateFirst (l : list A) :
  List.length (JS.updateFirst p f l) = List.length l.
Proof.
  induction l as [|y l IH]; simpl; [reflexivity|].
  destruct (p y); simpl; congruence.
Qed.
End ArrayFacts.

Lemma map_updateFirst_stable {A B : Type} (p : A -> bool) (f : A -> A)
    (g : A -> B) (l : list A) :
  (forall x, g (f x) = g x) -> map g (JS.updateFirst p f l) = map g l.
Proof.
  intros Hg. induction l as [|y l IH]; simpl; [reflexivity|].
  destruct (p y); simpl; rewrite ?Hg, ?IH; reflexivity.
Qed.

(** ** Conversation: the save hook and the per-user counters *)

Section ConversationFacts.
Import Conversation.

Lemma pre_save_participants (this : t) :
  participants (fst (pre_save this)) = participants this.
Proof. unfold pre_save. simpl. destruct (isNew this); reflexivity. Qed.

Lemma findUnread_zeros (userId : ObjectId) (ps : list ObjectId) :
  match findUnread userId (map (fun p => mkUnread p 0) ps) with
  | Some unread => ur_count unread = 0%Z
  | None => True
  end.
Proof.
  unfold findUnread. induction ps as [|p ps IH]; simpl; [exact I|].
  destruct (String.eqb p userId); [reflexivity|exact IH].
Qed.

(** After the hook ran on a new document every counter reads 0. *)
Lemma getUnreadCount_fresh (userId : ObjectId) (this : t) :
  isNew this = true ->
  getUnreadCount userId (fst (pre_save this)) = 0%Z.
Proof.
  intros Hnew. unfold pre_save, getUnreadCount. simpl. rewrite Hnew. simpl.
  pose proof (findUnread_zeros userId (participants this)) as H.
  destruct (findUnread userId _); [exact H|reflexivity].
Qed.

Lemma save_fst (this : t) (db : Collection) :
  fst (save this db) = fst (pre_save this)
  \/ fst (save this db) = set_isNew false (fst (pre_save this)).
Proof.
  unfold save. destruct (pre_save this) as [this' [e|]]; simpl; auto.
Qed.

Lemma getUnreadCount_set_isNew (userId : ObjectId) (b : bool) (this : t) :
  getUnreadCount userId (set_isNew b this) = getUnreadCount userId this.
Proof. reflexivity. Qed.

Lemma getUnreadCount_save (userId : ObjectId) (this : t) (db : Collection) :
  getUnreadCount userId (fst (save this db))
  = getUnreadCount userId (fst (pre_save this)).
Proof.
  destruct (save_fst this db) as [-> | ->]; reflexivity.
Qed.

Lemma pre_save_old (this : t) :
  isNew this = false -> fst (pre_save this) = this.
Proof. intros H. unfold pre_save. simpl. now rewrite H. Qed.

Lemma getUnreadCount_reset_body (userId : ObjectId) (this : t) :
  getUnreadCount userId (resetUnread_body userId this) = 0%Z.
Proof.
  unfold resetUnread_body, getUnreadCount.
  destruct (findUnread userId (unreadCount this)) as [e|] eqn:Hf.
  - simpl. unfold findUnread in *.
    rewrite find_updateFirst by (intros x Hx; exact Hx).
    rewrite Hf. reflexivity.
  - now rewrite Hf.
Qed.
End ConversationFacts.

(** C8. For every conversation [c] and user [u], after [incrementUnread(u)]
    followed by [resetUnread(u)] on the document, [getUnreadCount(u)]
    returns 0, whatever the store holds and whether or not the saves went
    through. *)
Theorem C8_reset_after_increment :
  forall (c : Conversation.t) (u : ObjectId) (db db' : Conversation.Collection),
    let c1 := fst (Conversation.incrementUnread u c db) in
    let c2 := fst (Conversation.resetUnread u c1 db') in
    Conversation.getUnreadCount u c2 = 0%Z.
Proof.
  intros c u db db' c1 c2. subst c2. unfold Conversation.resetUnread.
  rewrite getUnreadCount_save.
  destruct (Conversation.isNew (Conversation.resetUnread_body u c1)) eqn:Hnew.
  - now apply getUnreadCount_fresh.
  - rewrite pre_save_old by exact Hnew. apply getUnreadCount_reset_body.
Qed.

(** The increment itself is visible before the reset: on a stored
    conversation the counter of [u] goes up by one. *)
Lemma incrementUnread_counts (c : Conversation.t) (u : ObjectId)
    (db : Conversation.Collection) :
  Conversation.isNew c = false ->
  Conversation.getUnreadCount u (fst (Conversation.incrementUnread u c db))
  = (Conversation.getUnreadCount u c + 1)%Z.
Proof.
  intros Hold. unfold Conversation.incrementUnread.
  rewrite getUnreadCount_save.
  rewrite pre_save_old.
  2:{ unfold Conversation.incrementUnread_body.
      destruct (Conversation.findUnread u _); exact Hold. }
  unfold Conversation.incrementUnread_body, Conversation.getUnreadCount.
  destruct (Conversation.findUnread u (Conversation.unreadCount c)) as [e|] eqn:Hf;
    simpl; unfold Conversation.findUnread in *.
  - rewrite find_updateFirst by (intros x Hx; exact Hx). now rewrite Hf.
  - rewrite find_app_none by exact Hf. simpl. now rewrite String.eqb_refl.
Qed.

(** C10. For every conversation and every user without an entry in the
    per-user arrays (participant or not), [getUnreadCount] returns 0 and
    [isArchivedForUser] and [isPinnedForUser] return false. *)
Theorem C10_defaults_without_entry :
  forall (c : Conversation.t) (u : ObjectId),
    ~ In u (map Conversation.ur_user (Conversation.unreadCount c)) ->
    ~ In u (map Conversation.ar_user (Conversation.isArchived c)) ->
    ~ In u (map Conversation.pn_user (Conversation.isPinned c)) ->
    Conversation.getUnreadCount u c = 0%Z
    /\ Conversation.isArchivedForUser u c = false
    /\ Conversation.isPinnedForUser u c = false.
Proof.
  intros c u Hu Ha Hp.
  unfold Conversation.getUnreadCount, Conversation.isArchivedForUser,
    Conversation.isPinnedForUser, Conversation.findUnread,
    Conversation.findArchived, Conversation.findPinned.
  repeat split.
  - replace (find _ (Conversation.unreadCount c)) with (@None Conversation.UnreadEntry);
      [reflexivity|].
    symmetry. apply find_none_iff. intros x Hx.
    apply String.eqb_neq. intros <-. apply Hu. now apply in_map.
  - replace (find _ (Conversation.isArchived c)) with (@None Conversation.ArchivedEntry);
      [reflexivity|].
    symmetry. apply find_none_iff. intros x Hx.
    apply String.eqb_neq. intros <-. apply Ha. now apply in_map.
  - replace (find _ (Conversation.isPinned c)) with (@None Conversation.PinnedEntry);
      [reflexivity|].
    symmetry. apply find_none_iff. intros x Hx.
    apply String.eqb_neq. intros <-. apply Hp. now apply in_map.
Qed.

(** The defaults read for carol, who has no entry in the conversation of alice and bob. *)
Lemma C10_defaults_without_entry_witness :
  Conversation.getUnreadCount Sample.carol Sample.chat = 0%Z
  /\ Conversation.isArchivedForUser Sample.carol Sample.chat = false
  /\ Conversation.isPinnedForUser Sample.carol Sample.chat = false.
Proof.
  apply (C10_defaults_without_entry Sample.chat Sample.carol);
    simpl; intros [H | [H | []]]; discriminate H.
Defined.

(** C6. A save of a conversation fails unless it has exactly two
    participants, so every saved conversation has exactly two; and a new
    conversation that is saved gets its three per-participant arrays
    together, one entry per participant, with count 0, archived false and
    pinned false. *)
Theorem C6_exactly_two_participants :
  forall (this : Conversation.t) (db : Conversation.Collection),
    (List.length (Conversation.participants this) <> 2%nat ->
     snd (Conversation.save this db)
     = Err (Thrown "Conversation must have exactly 2 participants"))
    /\ (forall this' db',
          Conversation.save this db = (this', Ok db') ->
          List.length (Conversation.participants this') = 2%nat)
    /\ (Conversation.isNew this = true ->
        forall this' db',
          Conversation.save this db = (this', Ok db') ->
          exists a b,
            Conversation.participants this' = [a; b]
            /\ Conversation.unreadCount this'
               = [Conversation.mkUnread a 0; Conversation.mkUnread b 0]
            /\ Conversation.isArchived this'
               = [Conversation.mkArchived a false; Conversation.mkArchived b false]
            /\ Conversation.isPinned this'
               = [Conversation.mkPinned a false; Conversation.mkPinned b false]
            /\ db' = db ++ [this']).
Proof.
  intros [id ps lm lma uc ia ip ty nw] db.
  unfold Conversation.save, Conversation.pre_save. simpl.
  destruct (Nat.eqb_spec (List.length ps) 2) as [H2|H2]; simpl.
  - split; [intros Hne; contradiction|]. split.
    + intros this' db' Heq. inversion Heq; subst; clear Heq.
      destruct nw; exact H2.
    + intros -> this' db' Heq.
      inversion Heq; subst; clear Heq.
      destruct ps as [|a [|b [|x l]]]; try discriminate H2.
      exists a, b. repeat split; reflexivity.
  - split; [reflexivity|]. split.
    + intros this' db' Heq. discriminate Heq.
    + intros _ this' db' Heq. discriminate Heq.
Qed.

(** A save with three participants is refused; a new two-party document is saved with both counters. *)
Lemma C6_exactly_two_participants_witness :
  snd (Conversation.save Sample.trio [Sample.chat])
  = Err (Thrown "Conversation must have exactly 2 participants")
  /\ exists a b,
       Conversation.participants
         (fst (Conversation.save Sample.draft [Sample.chat])) = [a; b]
       /\ Conversation.unreadCount
            (fst (Conversation.save Sample.draft [Sample.chat]))
          = [Conversation.mkUnread a 0; Conversation.mkUnread b 0].
Proof.
  split.
  - apply (proj1 (C6_exactly_two_participants Sample.trio [Sample.chat])).
    simpl. discriminate.
  - destruct (C6_exactly_two_participants Sample.draft [Sample.chat])
      as (_ & _ & H).
    destruct (H eq_refl _ _ eq_refl) as (a & b & Hp & Hu & _).
    exists a, b. split; [exact Hp|exact Hu].
Defined.

(** A conversation made by [Conversation.create] comes back with both
    participants' entries, and it is the record added to the store. *)
Lemma create_initialises (freshId : ObjectId) (now : Date) (a b : ObjectId)
    (db : Conversation.Collection) :
  Conversation.create freshId now [a; b] db
  = (Conversation.mk freshId [a; b] None now
       [Conversation.mkUnread a 0; Conversation.mkUnread b 0]
       [Conversation.mkArchived a false; Conversation.mkArchived b false]
       [Conversation.mkPinned a false; Conversation.mkPinned b false] [] false,
     Ok (db ++ [Conversation.mk freshId [a; b] None now
       [Conversation.mkUnread a 0; Conversation.mkUnread b 0]
       [Conversation.mkArchived a false; Conversation.mkArchived b false]
       [Conversation.mkPinned a false; Conversation.mkPinned b false] [] false])).
Proof. reflexivity. Qed.

(** ** Message: read receipts *)

Section ReadReceipts.
Import Message.

Lemma save_readBy (this : t) (db : Collection) :
  readBy (fst (save this db)) = readBy this.
Proof. unfold save. destruct (validate this); reflexivity. Qed.

Lemma validate_set_isNew (b : bool) (this : t) :
  validate (set_isNew b this) = validate this.
Proof. reflexivity. Qed.

Lemma markAsRead_body_read (u : ObjectId) (now : Date) (this : t) :
  isReadBy u (markAsRead_body u now this) = true.
Proof.
  unfold markAsRead_body, isReadBy.
  destruct (existsb _ (readBy this)) eqn:He; simpl; [exact He|].
  rewrite existsb_app. simpl. rewrite String.eqb_refl.
  now rewrite orb_true_r.
Qed.

Lemma markAsRead_body_again (u : ObjectId) (now : Date) (this : t) :
  isReadBy u this = true -> markAsRead_body u now this = this.
Proof. unfold markAsRead_body, isReadBy. now intros ->. Qed.

Lemma filter_user_none (u : ObjectId) (l : list ReadEntry) :
  existsb (fun read => String.eqb (rd_user read) u) l = false ->
  filter (fun read => String.eqb (rd_user read) u) l = [].
Proof.
  induction l as [|x l IH]; simpl; [reflexivity|].
  destruct (String.eqb (rd_user x) u); simpl; [discriminate|exact IH].
Qed.

Lemma filter_user_once (u : ObjectId) (l : list ReadEntry) :
  NoDup (map rd_user l) ->
  existsb (fun read => String.eqb (rd_user read) u) l = true ->
  List.length (filter (fun read => String.eqb (rd_user read) u) l) = 1%nat.
Proof.
  induction l as [|x l IH]; simpl; [discriminate|].
  intros Hnd He. inversion Hnd as [|? ? Hnotin Hnd']; subst.
  destruct (String.eqb_spec (rd_user x) u) as [Hx|Hx]; simpl.
  - rewrite filter_user_none; [reflexivity|].
    destruct (existsb _ l) eqn:Hl; [|reflexivity].
    apply existsb_exists in Hl. destruct Hl as (y & Hy & Hyu).
    apply String.eqb_eq in Hyu. exfalso. apply Hnotin.
    rewrite Hx, <- Hyu. now apply in_map.
  - now apply IH.
Qed.

Lemma NoDup_snoc_user (u : ObjectId) (now : Date) (l : list ReadEntry) :
  NoDup (map rd_user l) ->
  existsb (fun read => String.eqb (rd_user read) u) l = false ->
  NoDup (map rd_user (l ++ [mkRead u now])).
Proof.
  intros Hnd He. rewrite map_app. simpl.
  apply NoDup_app; [exact Hnd|constructor; [intros []|constructor]|].
  intros a Ha [<-|[]].
  apply in_map_iff in Ha. destruct Ha as (y & Hy & Hin).
  assert (existsb (fun read => String.eqb (rd_user read) (rd_user y)) l = true) as Ht.
  { apply existsb_exists. exists y. split; [exact Hin|apply String.eqb_refl]. }
  rewrite Hy in Ht. congruence.
Qed.

Lemma markAsRead_body_NoDup (u : ObjectId) (now : Date) (this : t) :
  NoDup (map rd_user (readBy this)) ->
  NoDup (map rd_user (readBy (markAsRead_body u now this))).
Proof.
  intros Hnd. unfold markAsRead_body.
  destruct (existsb _ (readBy this)) eqn:He; simpl; [exact Hnd|].
  now apply NoDup_snoc_user.
Qed.
End ReadReceipts.

(** C5. Marking a message read twice by the same user leaves the message
    as the first marking left it, with exactly one read entry for that
    user; and the read list keeps each reader at most once. *)
Theorem C5_markAsRead_idempotent :
  forall (m : Message.t) (u : ObjectId) (t1 t2 : Date)
         (db1 db2 : Message.Collection),
    NoDup (map Message.rd_user (Message.readBy m)) ->
    let m1 := fst (Message.markAsRead u t1 m db1) in
    let m2 := fst (Message.markAsRead u t2 m1 db2) in
    m2 = m1
    /\ Message.readsOf u m2 = 1%nat
    /\ NoDup (map Message.rd_user (Message.readBy m2)).
Proof.
  intros m u t1 t2 db1 db2 Hnd m1 m2.
  assert (Hread1 : Message.isReadBy u m1 = true).
  { subst m1. unfold Message.markAsRead, Message.isReadBy.
    rewrite save_readBy. apply markAsRead_body_read. }
  assert (Hm2 : m2 = m1).
  { subst m2. unfold Message.markAsRead.
    rewrite markAsRead_body_again by exact Hread1.
    subst m1. unfold Message.markAsRead, Message.save.
    destruct (Message.validate (Message.markAsRead_body u t1 m)) eqn:Hv; simpl.
    - now rewrite Hv.
    - rewrite validate_set_isNew, Hv. reflexivity. }
  assert (Hnd1 : NoDup (map Message.rd_user (Message.readBy m1))).
  { subst m1. unfold Message.markAsRead. rewrite save_readBy.
    now apply markAsRead_body_NoDup. }
  rewrite Hm2. split; [reflexivity|]. split; [|exact Hnd1].
  unfold Message.readsOf. apply filter_user_once; [exact Hnd1|exact Hread1].
Qed.

(** Bob marks a message read twice: one read entry. *)
Lemma C5_markAsRead_idempotent_witness :
  Message.readsOf Sample.bob
    (fst (Message.markAsRead Sample.bob 1300%Z
            (fst (Message.markAsRead Sample.bob 1200%Z Sample.hello [Sample.hello]))
            [Sample.hello])) = 1%nat.
Proof.
  destruct (C5_markAsRead_idempotent Sample.hello Sample.bob 1200%Z 1300%Z
              [Sample.hello] [Sample.hello]) as (_ & H & _).
  - simpl. constructor.
  - exact H.
Defined.

(** A message as [Message.create] makes it has an empty read list, so the
    premise on the read list holds from the start. *)
Lemma create_readBy (freshId : ObjectId) (now : Date) (sender conversation : ObjectId)
    (content : option JS.str) (ty : Message.MessageType) (db : Message.Collection) :
  Message.readBy (fst (Message.create freshId now sender conversation content ty db)) = [].
Proof. unfold Message.create. now rewrite save_readBy. Qed.

(** ** Room: membership *)

(** From [Hs : call = (doc, saved)], replace [doc] by [fst call]. *)
Ltac name_document Hs :=
  match type of Hs with
  | ?call = (?doc, _) =>
      let E := fresh "E" in
      assert (E : doc = fst call) by (rewrite Hs; reflexivity);
      clear Hs; subst doc
  end.

Section RoomFacts.
Import Room.

Lemma save_members (this : t) (db : Collection) :
  members (fst (save this db)) = members this.
Proof. unfold save. destruct (uniqueIndexes this db); reflexivity. Qed.

Lemma save_maxMembers (this : t) (db : Collection) :
  maxMembers (fst (save this db)) = maxMembers this.
Proof. unfold save. destruct (uniqueIndexes this db); reflexivity. Qed.

Lemma isMember_In (userId : ObjectId) (this : t) :
  isMember userId this = true <-> In userId (map mb_user (members this)).
Proof.
  unfold isMember. rewrite existsb_exists, in_map_iff.
  split; intros (m & H1 & H2).
  - apply String.eqb_eq in H2. now exists m.
  - exists m. split; [exact H2|now apply String.eqb_eq].
Qed.

Lemma filter_absent (userId : ObjectId) (ms : list Member) :
  existsb (fun m => String.eqb (mb_user m) userId) ms = false ->
  filter (fun m => negb (String.eqb (mb_user m) userId)) ms = ms.
Proof.
  induction ms as [|m ms IH]; simpl; [reflexivity|].
  destruct (String.eqb (mb_user m) userId); simpl; [discriminate|].
  intros H. now rewrite IH.
Qed.

Lemma set_members_same (this : t) : set_members (members this) this = this.
Proof. now destruct this. Qed.

Lemma NoDup_map_filter {A B : Type} (g : A -> B) (q : A -> bool) (l : list A) :
  NoDup (map g l) -> NoDup (map g (filter q l)).
Proof.
  induction l as [|x l IH]; simpl; [trivial|].
  intros Hnd. inversion Hnd as [|? ? Hnotin Hnd']; subst.
  destruct (q x); simpl; [|now apply IH].
  constructor; [|now apply IH].
  intros Hin. apply Hnotin. apply in_map_iff in Hin.
  destruct Hin as (y & Hy & Hin). apply filter_In in Hin.
  apply in_map_iff. exists y. tauto.
Qed.

(** A successful [addMember] keeps both room invariants. *)
Lemma addMember_invariants (userId : ObjectId) (role : Role) (now : Date)
    (this this' : t) (db : Collection) (saved : Result Collection) :
  addMember userId role now this db = Ok (this', saved) ->
  withinCapacity this' /\ (distinctMembers this -> distinctMembers this').
Proof.
  unfold addMember. intros H.
  destruct (existsb _ (members this)) eqn:He; [discriminate|].
  destruct (Z.leb_spec (maxMembers this) (Z.of_nat (List.length (members this))))
    as [Hfull|Hroom]; [discriminate|].
  inversion H as [Hs]; clear H.
  name_document Hs.
  unfold withinCapacity, distinctMembers.
  rewrite save_members, save_maxMembers. simpl. split.
  - rewrite length_app. simpl. lia.
  - intros Hnd. rewrite map_app. simpl.
    apply NoDup_app; [exact Hnd|constructor; [intros []|constructor]|].
    intros a Ha [<-|[]].
    assert (isMember (mb_user (mkMember userId role now)) this = true) as Ht
      by now apply isMember_In.
    unfold isMember in Ht. simpl in Ht. congruence.
Qed.

Lemma step_invariants (this this' : t) :
  step this this' ->
  withinCapacity this /\ distinctMembers this ->
  withinCapacity this' /\ distinctMembers this'.
Proof.
  intros Hstep [Hcap Hnd]. destruct Hstep as
    [userId role now this db this' saved H
    |userId this db this' saved H
    |userId newRole this db this' saved H
    |random this db
    |now this db].
  - destruct (addMember_invariants _ _ _ _ _ _ _ H) as [H1 H2]. auto.
  - unfold removeMember in H. inversion H as [Hs]; clear H.
    name_document Hs.
    unfold withinCapacity, distinctMembers in *.
    rewrite save_members, save_maxMembers. simpl. split.
    + pose proof (filter_length_le
        (fun m => negb (String.eqb (mb_user m) userId)) (members this)). lia.
    + now apply NoDup_map_filter.
  - unfold updateMemberRole in H.
    destruct (find _ (members this)); [|discriminate].
    inversion H as [Hs]; clear H.
    name_document Hs.
    unfold withinCapacity, distinctMembers in *.
    rewrite save_members, save_maxMembers. simpl. split.
    + now rewrite length_updateFirst.
    + rewrite map_updateFirst_stable; [exact Hnd|reflexivity].
  - unfold generateInviteCode, withinCapacity, distinctMembers in *.
    rewrite save_members, save_maxMembers. simpl. auto.
  - unfold updateActivity, withinCapacity, distinctMembers in *.
    rewrite save_members, save_maxMembers. simpl. auto.
Qed.

(** Every room the gateway creates and the methods then change holds at
    most [maxMembers] members, each user once. *)
Lemma reachable_invariants (this : t) :
  reachable this -> withinCapacity this /\ distinctMembers this.
Proof.
  induction 1 as [freshId now name description isPrivate createdBy db
                 |this this' _ IH Hstep].
  - unfold create, withinCapacity, distinctMembers.
    destruct (validate _); simpl;
      rewrite ?save_members, ?save_maxMembers; simpl;
      (split; [lia|constructor; [intros []|constructor]]).
  - now apply (step_invariants this this').
Qed.
End RoomFacts.

(** C3. [addMember(userId, role)] fails with AlreadyMember when the user
    is already in the member list; for a user not in the list it fails with
    CapacityExceeded when one more member would exceed [maxMembers], and
    otherwise appends the member; so after a successful call the member
    count is within [maxMembers] and no user is listed twice, and this
    holds of every room that the gateway creates and the room methods then
    change. *)
Theorem C3_addMember :
  forall (this : Room.t) (userId : ObjectId) (role : Room.Role) (now : Date)
         (db : Room.Collection),
    (Room.isMember userId this = true ->
     Room.addMember userId role now this db = Err Room.AlreadyMember)
    /\ (Room.isMember userId this = false ->
        (Z.of_nat (Room.getMemberCount this) + 1 > Room.maxMembers this)%Z ->
        Room.addMember userId role now this db = Err Room.CapacityExceeded)
    /\ (Room.isMember userId this = false ->
        (Z.of_nat (Room.getMemberCount this) + 1 <= Room.maxMembers this)%Z ->
        exists this' saved,
          Room.addMember userId role now this db = Ok (this', saved)
          /\ Room.members this'
             = Room.members this ++ [Room.mkMember userId role now]
          /\ Room.maxMembers this' = Room.maxMembers this)
    /\ (forall this' saved,
          Room.addMember userId role now this db = Ok (this', saved) ->
          Room.withinCapacity this'
          /\ (Room.distinctMembers this -> Room.distinctMembers this'))
    /\ (Room.reachable this ->
        Room.withinCapacity this /\ Room.distinctMembers this).
Proof.
  intros this userId role now db.
  unfold Room.isMember, Room.getMemberCount.
  split; [|split; [|split; [|split; [|exact (reachable_invariants this)]]]].
  - intros Hm. unfold Room.addMember. now rewrite Hm.
  - intros Hm Hfull. unfold Room.addMember. rewrite Hm.
    destruct (Z.leb_spec (Room.maxMembers this)
                (Z.of_nat (List.length (Room.members this)))); [reflexivity|lia].
  - intros Hm Hroom. unfold Room.addMember. rewrite Hm.
    destruct (Z.leb_spec (Room.maxMembers this)
                (Z.of_nat (List.length (Room.members this)))); [lia|].
    eexists _, _. split.
    + rewrite (surjective_pairing (Room.save _ db)). reflexivity.
    + rewrite save_members, save_maxMembers. split; reflexivity.
  - intros this' saved H. exact (addMember_invariants _ _ _ _ _ _ _ H).
Qed.

(** The three outcomes of [addMember] on the sample rooms. *)
Lemma C3_addMember_witness :
  Room.addMember Sample.alice Room.member 2000%Z Sample.hall [Sample.hall]
  = Err Room.AlreadyMember
  /\ Room.addMember Sample.carol Room.member 2000%Z Sample.den [Sample.den]
     = Err Room.CapacityExceeded
  /\ (exists this' saved,
        Room.addMember Sample.bob Room.member 2000%Z Sample.hall [Sample.hall]
        = Ok (this', saved)
        /\ Room.members this'
           = Room.members Sample.hall
             ++ [Room.mkMember Sample.bob Room.member 2000%Z]
        /\ Room.maxMembers this' = Room.maxMembers Sample.hall)
  /\ Room.withinCapacity Sample.lobbyWithBob
  /\ Room.distinctMembers Sample.lobbyWithBob.
Proof.
  split; [|split; [|split]].
  - apply (proj1 (C3_addMember Sample.hall Sample.alice Room.member 2000%Z
                    [Sample.hall])).
    reflexivity.
  - destruct (C3_addMember Sample.den Sample.carol Room.member 2000%Z
                [Sample.den]) as (_ & H & _).
    apply H; [reflexivity|simpl; lia].
  - destruct (C3_addMember Sample.hall Sample.bob Room.member 2000%Z
                [Sample.hall]) as (_ & _ & H & _).
    apply H; [reflexivity|simpl; lia].
  - destruct (C3_addMember Sample.lobbyWithBob Sample.carol Room.member 2000%Z
                []) as (_ & _ & _ & _ & H).
    apply H.
    apply (Room.reachable_step Sample.lobby).
    + exact (Room.reachable_create "65000000000000000000d003" 1000%Z
               (Some (JS.of_ascii "lobby")) None true Sample.alice []).
    + exact (Room.step_addMember Sample.bob Room.member 1001%Z Sample.lobby
               [Sample.lobby] Sample.lobbyWithBob _ eq_refl).
Defined.

(** C7 as stated fails for [removeMember]: removing carol, who is not a
    member, from a room returns normally. *)
Lemma C7_removeMember_counterexample :
  Room.isMember Sample.carol Sample.den = false
  /\ Room.removeMember Sample.carol Sample.den [Sample.den]
     = Ok (Sample.den, Ok [Sample.den])
  /\ Room.removeMember Sample.carol Sample.den [Sample.den]
     <> Err Room.NotAMember.
Proof.
  split; [reflexivity|]. split; [reflexivity|discriminate].
Qed.

(** C7, amended. For every room and every user not in the member list,
    [removeMember(userId)] does not fail: it is the plain save of the
    unchanged room, the member list staying as it was; and
    [updateMemberRole(userId, role)] fails with NotAMember. *)
Theorem C7_absent_member :
  forall (this : Room.t) (userId : ObjectId) (newRole : Room.Role)
         (db : Room.Collection),
    Room.isMember userId this = false ->
    Room.removeMember userId this db = Ok (Room.save this db)
    /\ Room.members (fst (Room.save this db)) = Room.members this
    /\ Room.updateMemberRole userId newRole this db = Err Room.NotAMember.
Proof.
  intros this userId newRole db Hm. unfold Room.isMember in Hm.
  split; [|split].
  - unfold Room.removeMember.
    rewrite filter_absent by exact Hm. now rewrite set_members_same.
  - apply save_members.
  - unfold Room.updateMemberRole.
    replace (find _ (Room.members this)) with (@None Room.Member); [reflexivity|].
    symmetry. apply find_none_iff. intros m Hin.
    destruct (String.eqb (Room.mb_user m) userId) eqn:Heq; [|reflexivity].
    rewrite <- Hm. symmetry. apply existsb_exists. now exists m.
Qed.

(** Carol is not in the room: removing her changes nothing, changing her role fails. *)
Lemma C7_absent_member_witness :
  Room.removeMember Sample.carol Sample.den [Sample.den]
  = Ok (Room.save Sample.den [Sample.den])
  /\ Room.members (fst (Room.save Sample.den [Sample.den]))
     = Room.members Sample.den
  /\ Room.updateMemberRole Sample.carol Room.admin Sample.den [Sample.den]
     = Err Room.NotAMember.
Proof.
  apply (C7_absent_member Sample.den Sample.carol Room.admin [Sample.den]).
  reflexivity.
Defined.

(** ** Room: invite codes *)

Section InviteCodes.
Import Room.

Lemma get_In (s : string) (n : nat) (c : ascii) :
  String.get n s = Some c -> In c (list_ascii_of_string s).
Proof.
  revert n. induction s as [|a s IH]; intros [|n] H; simpl in *;
    try discriminate.
  - left. congruence.
  - right. exact (IH n H).
Qed.

Lemma get_Some (s : string) (n : nat) :
  (n < String.length s)%nat -> exists c, String.get n s = Some c.
Proof.
  revert n. induction s as [|a s IH]; intros [|n] H; simpl in *; try lia.
  - now exists a.
  - apply IH. lia.
Qed.

Lemma length_append (s1 s2 : string) :
  String.length (s1 ++ s2)%string = (String.length s1 + String.length s2)%nat.
Proof. induction s1 as [|a s1 IH]; simpl; [reflexivity|now rewrite IH]. Qed.

Lemma list_ascii_of_append (s1 s2 : string) :
  list_ascii_of_string (s1 ++ s2)%string
  = (list_ascii_of_string s1 ++ list_ascii_of_string s2)%list.
Proof. induction s1 as [|a s1 IH]; simpl; [reflexivity|now rewrite IH]. Qed.

(** The index [Math.floor(Math.random() * chars.length)] lies inside the
    alphabet. *)
Lemma index_in_range (r : Q) :
  (0 <= r)%Q -> (r < 1)%Q ->
  (0 <= Qfloor (r * inject_Z (Z.of_nat (String.length chars)))%Q < 36)%Z.
Proof.
  intros H0 H1. change (Z.of_nat (String.length chars)) with 36%Z. split.
  - change 0%Z with (Qfloor 0). apply Qfloor_resp_le.
    apply Qmult_le_0_compat; [exact H0|discriminate].
  - rewrite Zlt_Qlt.
    apply Qle_lt_trans with (r * inject_Z 36)%Q; [apply Qfloor_le|].
    apply Qlt_le_trans with (1 * inject_Z 36)%Q.
    + apply Qmult_lt_compat_r; [reflexivity|exact H1].
    + rewrite Qmult_1_l. apply Qle_refl.
Qed.
End InviteCodes.

Section InviteLoop.
Import Room.
Variable random : nat -> Q.
Hypothesis random_range : forall i, (0 <= random i)%Q /\ (random i < 1)%Q.

Lemma charAt_random (i : nat) :
  exists c,
    JS.charAt chars (Qfloor (random i * inject_Z (Z.of_nat (String.length chars)))%Q)
    = String c ""
    /\ In c (list_ascii_of_string chars).
Proof.
  destruct (random_range i) as [H0 H1].
  pose proof (index_in_range (random i) H0 H1) as Hidx.
  unfold JS.charAt.
  set (k := Qfloor (random i * inject_Z (Z.of_nat (String.length chars)))%Q) in *.
  destruct (Z.ltb_spec k 0) as [Hneg|_]; [lia|].
  destruct (get_Some chars (Z.to_nat k)) as [c Hc].
  { change (String.length chars) with 36%nat. lia. }
  exists c. rewrite Hc. split; [reflexivity|exact (get_In _ _ _ Hc)].
Qed.

Lemma inviteLoop_spec (n i : nat) (code : string) :
  String.length (inviteLoop random i n code) = (String.length code + n)%nat
  /\ forall c, In c (list_ascii_of_string (inviteLoop random i n code)) ->
               In c (list_ascii_of_string code)
               \/ In c (list_ascii_of_string chars).
Proof.
  revert i code. induction n as [|n IH]; intros i code; cbn [inviteLoop].
  - split; [lia|auto].
  - destruct (charAt_random i) as (c0 & Hc0 & Hin0). rewrite Hc0.
    destruct (IH (S i) (code ++ String c0 "")%string) as [Hlen Hall]. split.
    + rewrite Hlen, length_append. simpl. lia.
    + intros c Hc. destruct (Hall c Hc) as [Hold|Hnew]; [|now right].
      rewrite list_ascii_of_append in Hold. apply in_app_or in Hold.
      destruct Hold as [Hold|[<-|[]]]; [now left|now right].
Qed.
End InviteLoop.

Lemma chars_alphanumeric :
  forall c, In c (list_ascii_of_string Room.chars) ->
            Spec.isUpper c || Spec.isDigit c = true.
Proof.
  assert (H : forallb (fun c => Spec.isUpper c || Spec.isDigit c)
                (list_ascii_of_string Room.chars) = true) by reflexivity.
  intros c Hc. rewrite forallb_forall in H. exact (H c Hc).
Qed.

(** C9 as stated fails on the alphabet: a run of [generateInviteCode]
    yields the code O0I1O0I1, and no alphabet that holds its characters is
    unambiguous, the letter O and the digit 0 (and I and 1) reading alike. *)
Lemma C9_invite_code_counterexample :
  (forall i, (0 <= Sample.dice i)%Q /\ (Sample.dice i < 1)%Q)
  /\ Room.inviteCode
       (fst (Room.generateInviteCode Sample.dice Sample.den [Sample.den]))
     = Some "O0I1O0I1"
  /\ ~ Spec.unambiguous (list_ascii_of_string Room.chars)
  /\ forall alphabet,
       (forall c, In c (list_ascii_of_string "O0I1O0I1") -> In c alphabet) ->
       ~ Spec.unambiguous alphabet.
Proof.
  assert (Hclash : forall alphabet,
            In "O"%char alphabet -> In "0"%char alphabet ->
            ~ Spec.unambiguous alphabet).
  { intros alphabet HO H0 Hun. specialize (Hun "O"%char "0"%char HO H0).
    discriminate Hun. }
  split; [|split; [reflexivity|split]].
  - intros i. unfold Sample.dice.
    destruct (Nat.modulo i 4) as [|[|[|k]]]; split; reflexivity || discriminate.
  - apply Hclash; simpl; tauto.
  - intros alphabet Hall. apply Hclash; apply Hall; simpl; tauto.
Qed.

(** C9, amended. [generateInviteCode] always sets a code of exactly 8
    characters, each drawn from the 36 characters A to Z and 0 to 9 (upper
    case letters and digits, the look-alikes O/0 and I/1 among them). *)
Theorem C9_invite_code :
  forall (random : nat -> Q) (this : Room.t) (db : Room.Collection),
    (forall i, (0 <= random i)%Q /\ (random i < 1)%Q) ->
    exists code,
      Room.inviteCode (fst (Room.generateInviteCode random this db)) = Some code
      /\ String.length code = 8%nat
      /\ forall c, In c (list_ascii_of_string code) ->
                   In c (list_ascii_of_string Room.chars)
                   /\ Spec.isUpper c || Spec.isDigit c = true.
Proof.
  intros random this db Hrange.
  exists (Room.inviteLoop random 0 8 "").
  destruct (inviteLoop_spec random Hrange 8 0 "") as [Hlen Hall].
  split; [|split].
  - unfold Room.generateInviteCode, Room.save.
    destruct (Room.uniqueIndexes _ db); reflexivity.
  - exact Hlen.
  - intros c Hc. destruct (Hall c Hc) as [[]|Hin].
    split; [exact Hin|now apply chars_alphanumeric].
Qed.

(** A run of the generator on the sample draws. *)
Lemma C9_invite_code_witness :
  exists code,
    Room.inviteCode
      (fst (Room.generateInviteCode Sample.dice Sample.den [Sample.den]))
    = Some code
    /\ String.length code = 8%nat
    /\ forall c, In c (list_ascii_of_string code) ->
                 In c (list_ascii_of_string Room.chars)
                 /\ Spec.isUpper c || Spec.isDigit c = true.
Proof.
  apply (C9_invite_code Sample.dice Sample.den [Sample.den]).
  intros i. unfold Sample.dice.
  destruct (Nat.modulo i 4) as [|[|[|k]]]; split; reflexivity || discriminate.
Defined.

(** ** Queries *)

Section QueryFacts.
Context {A : Type} (key : A -> Z).

Lemma In_insertDesc (x y : A) (l : list A) :
  In y (Query.insertDesc key x l) <-> y = x \/ In y l.
Proof.
  induction l as [|z l IH]; simpl; [intuition congruence|].
  destruct (key z <? key x)%Z; simpl; [intuition congruence|].
  rewrite IH. intuition congruence.
Qed.

Lemma In_sortDesc (y : A) (l : list A) :
  In y (Query.sortDesc key l) <-> In y l.
Proof.
  induction l as [|z l IH]; simpl; [tauto|].
  rewrite In_insertDesc, IH. intuition congruence.
Qed.

Lemma In_limit (n : nat) (y : A) (l : list A) :
  In y (Query.limit n l) -> In y l.
Proof.
  destruct n as [|n]; simpl; [trivial|].
  intros H. change (In y (firstn (S n) l)) in H.
  rewrite <- (firstn_skipn (S n) l). apply in_or_app. now left.
Qed.
End QueryFacts.

(** ** Message: soft deletion *)

Section SoftDelete.
Import Message.

Lemma trim_tombstone : setter_content (Some tombstone) = Some tombstone.
Proof. reflexivity. Qed.

Lemma validate_softDelete (now : Date) (this : t) :
  validate (softDelete_body now this) = None.
Proof.
  unfold validate, softDelete_body. simpl.
  destruct (messageType this); reflexivity.
Qed.

Lemma hydrate_old (this : t) : isNew this = false -> hydrate this = this.
Proof. destruct this. simpl. now intros ->. Qed.

Lemma findById_old (id : ObjectId) (db : Collection) (this : t) :
  findById id db = Some this -> isNew this = false /\ _id this = id.
Proof.
  unfold findById. destruct (find _ db) as [x|] eqn:Hf; [|discriminate].
  simpl. intros H. inversion H; subst. split; [reflexivity|].
  apply find_some in Hf. destruct Hf as [_ Heq]. simpl.
  now apply String.eqb_eq.
Qed.

(** Replacing the documents of one id: the lookup by that id finds the
    replacement. *)
Lemma find_replaced (id : ObjectId) (b : t) (db : Collection) :
  _id b = id ->
  find (fun d => String.eqb (_id d) id)
    (map (fun d => if String.eqb (_id d) id then b else d) db)
  = option_map (fun _ => b) (find (fun d => String.eqb (_id d) id) db).
Proof.
  intros Hb. induction db as [|x db IH]; simpl; [reflexivity|].
  destruct (String.eqb (_id x) id) eqn:Hx; simpl.
  - rewrite Hb, String.eqb_refl. reflexivity.
  - rewrite Hx. exact IH.
Qed.

Lemma softDelete_stored (now : Date) (this : t) (db : Collection) :
  isNew this = false ->
  softDelete now this db
  = (softDelete_body now this,
     Ok (map (fun d => if String.eqb (_id d) (_id this)
                       then softDelete_body now this else d) db)).
Proof.
  intros Hold. unfold softDelete, save. rewrite validate_softDelete.
  unfold store. simpl. rewrite Hold. f_equal.
  destruct this; simpl in *. now subst.
Qed.
End SoftDelete.

(** C4. For every stored message, [softDelete] replaces the content by the
    tombstone text, sets the deleted flag and the deletion time, and saves;
    after it no listing of [getRecentMessages] holds the message, while
    [findById] still returns it and a reply that refers to it has the
    reference resolved to the tombstone content and its sender. *)
Theorem C4_softDelete :
  forall (m : Message.t) (now : Date) (db : Message.Collection),
    Message.findById (Message._id m) db = Some m ->
    exists m' db',
      Message.softDelete now m db = (m', Ok db')
      /\ Message.content m' = Some (JS.of_ascii "This message was deleted")
      /\ Message.isDeleted m' = true
      /\ Message.deletedAt m' = Some now
      /\ (forall conversationId limit l,
            In l (Message.getRecentMessages conversationId limit db') ->
            Message._id (Message.doc l) <> Message._id m)
      /\ Message.findById (Message._id m) db' = Some m'
      /\ (forall r,
            Message.replyTo r = Some (Message._id m) ->
            Message.replyTo_populated (Message.populate_replyTo db' r)
            = Some (Some (JS.of_ascii "This message was deleted"),
                    Message.sender m)).
Proof.
  intros m now db Hfound.
  destruct (findById_old _ _ _ Hfound) as [Hold _].
  eexists _, _. split; [apply softDelete_stored; exact Hold|].
  assert (Hlookup :
    Message.findById (Message._id m)
      (map (fun d => if String.eqb (Message._id d) (Message._id m)
                     then Message.softDelete_body now m else d) db)
    = Some (Message.softDelete_body now m)).
  { unfold Message.findById in *. rewrite find_replaced by reflexivity.
    destruct (find _ db); [|discriminate]. simpl.
    rewrite hydrate_old by exact Hold. reflexivity. }
  repeat split; try reflexivity.
  - intros conversationId limit l Hin Hid.
    unfold Message.getRecentMessages in Hin.
    apply in_map_iff in Hin. destruct Hin as (x & <- & Hin).
    apply In_limit, In_sortDesc in Hin.
    apply in_map_iff in Hin. destruct Hin as (d & <- & Hin).
    apply filter_In in Hin. destruct Hin as [Hin Hkeep].
    apply andb_prop in Hkeep. destruct Hkeep as [_ Hlive].
    apply in_map_iff in Hin. destruct Hin as (y & Hy & _).
    simpl in Hid.
    destruct (String.eqb_spec (Message._id y) (Message._id m)) as [Heq|Hne];
      subst d.
    + discriminate Hlive.
    + contradiction.
  - exact Hlookup.
  - intros r Hr. unfold Message.populate_replyTo. simpl.
    rewrite Hr, Hlookup. reflexivity.
Qed.

(** After the deletion of a message the listing holds only the reply to it, whose reference resolves to the tombstone. *)
Lemma C4_softDelete_witness :
  exists m' db',
    Message.softDelete 1500%Z Sample.hello [Sample.hello; Sample.answer]
    = (m', Ok db')
    /\ Message.content m' = Some (JS.of_ascii "This message was deleted")
    /\ map (fun l => Message._id (Message.doc l))
         (Message.getRecentMessages (Conversation._id Sample.chat) 50 db')
       = [Message._id Sample.answer]
    /\ map Message.replyTo_populated
         (Message.getRecentMessages (Conversation._id Sample.chat) 50 db')
       = [Some (Some (JS.of_ascii "This message was deleted"), Sample.alice)].
Proof.
  destruct (C4_softDelete Sample.hello 1500%Z [Sample.hello; Sample.answer])
    as (m' & db' & Hrun & Hcontent & _).
  - reflexivity.
  - exists m', db'. split; [exact Hrun|]. split; [exact Hcontent|].
    inversion Hrun; subst. split; reflexivity.
Defined.

(** ** Conversation: one record per pair *)

Section FindOrCreate.
Import Conversation.

Lemma sort2_comm (a b : ObjectId) : JS.sort2 a b = JS.sort2 b a.
Proof.
  unfold JS.sort2, String.leb. rewrite (String.compare_antisym a b).
  destruct (String.compare b a) eqn:Hc; simpl; try reflexivity.
  apply String.compare_eq_iff in Hc. now subst.
Qed.

Lemma sort2_cases (a b : ObjectId) :
  JS.sort2 a b = [a; b] \/ JS.sort2 a b = [b; a].
Proof. unfold JS.sort2. destruct (String.leb a b); auto. Qed.

Lemma includes_In (xs : list ObjectId) (x : ObjectId) :
  JS.includes xs x = true <-> In x xs.
Proof.
  unfold JS.includes. rewrite existsb_exists. split.
  - intros (y & Hy & Heq). apply String.eqb_eq in Heq. now subst.
  - intros H. exists x. split; [exact H|apply String.eqb_refl].
Qed.

Lemma matches_pair (a b : ObjectId) (c : t) :
  matchesAllSize2 (JS.sort2 a b) c = true <->
  In a (participants c) /\ In b (participants c)
  /\ List.length (participants c) = 2%nat.
Proof.
  unfold matchesAllSize2.
  rewrite andb_true_iff, Nat.eqb_eq, forallb_forall.
  destruct (sort2_cases a b) as [-> | ->]; split.
  - intros [H Hlen]. repeat split; trivial;
      apply includes_In, H; simpl; auto.
  - intros (Ha & Hb & Hlen). split; [|exact Hlen].
    intros x [<-|[<-|[]]]; now apply includes_In.
  - intros [H Hlen]. repeat split; trivial;
      apply includes_In, H; simpl; auto.
  - intros (Ha & Hb & Hlen). split; [|exact Hlen].
    intros x [<-|[<-|[]]]; now apply includes_In.
Qed.

Lemma matches_hydrate (ps : list ObjectId) (c : t) :
  matchesAllSize2 ps (hydrate c) = matchesAllSize2 ps c.
Proof. reflexivity. Qed.

Lemma hydrate_idem (c : t) : hydrate (hydrate c) = hydrate c.
Proof. reflexivity. Qed.

(** What [findOrCreate] does, by whether the store holds a match. *)
Lemma findOrCreate_found (freshId : ObjectId) (now : Date) (a b : ObjectId)
    (db : Collection) (x : t) :
  find (matchesAllSize2 (JS.sort2 a b)) db = Some x ->
  findOrCreate freshId now a b db = Ok (hydrate x, db).
Proof. intros H. unfold findOrCreate, findOne. now rewrite H. Qed.

Lemma findOrCreate_created (freshId : ObjectId) (now : Date) (a b : ObjectId)
    (db : Collection) :
  find (matchesAllSize2 (JS.sort2 a b)) db = None ->
  exists c,
    findOrCreate freshId now a b db = Ok (c, db ++ [c])
    /\ participants c = JS.sort2 a b
    /\ hydrate c = c
    /\ _id c = freshId.
Proof.
  intros H. unfold findOrCreate, findOne. rewrite H. simpl.
  destruct (sort2_cases a b) as [-> | ->]; rewrite create_initialises;
    eexists; repeat split.
Qed.
(** The query of [findOrCreate] is the test: both users are participants
    and there are two participants. *)
Lemma matches_pair_test (a b : ObjectId) (c : t) :
  matchesAllSize2 (JS.sort2 a b) c
  = JS.includes (participants c) a && JS.includes (participants c) b
    && (List.length (participants c) =? 2)%nat.
Proof.
  unfold matchesAllSize2.
  destruct (sort2_cases a b) as [-> | ->]; simpl;
    destruct (JS.includes (participants c) a),
             (JS.includes (participants c) b); reflexivity.
Qed.

Lemma find_pair_test (a b : ObjectId) (db : Collection) :
  find (matchesAllSize2 (JS.sort2 a b)) db
  = find (fun r => JS.includes (participants r) a
                   && JS.includes (participants r) b
                   && (List.length (participants r) =? 2)%nat) db.
Proof.
  induction db as [|x db IH]; simpl; [reflexivity|].
  now rewrite matches_pair_test, IH.
Qed.

(** The record that [findOrCreate] makes when the store holds no match. *)
Lemma findOrCreate_created_record (freshId : ObjectId) (now : Date)
    (a b : ObjectId) (db : Collection) :
  find (matchesAllSize2 (JS.sort2 a b)) db = None ->
  findOrCreate freshId now a b db
  = Ok (mk freshId (JS.sort2 a b) None now
          (map (fun p => mkUnread p 0) (JS.sort2 a b))
          (map (fun p => mkArchived p false) (JS.sort2 a b))
          (map (fun p => mkPinned p false) (JS.sort2 a b)) [] false,
        db ++ [mk freshId (JS.sort2 a b) None now
                 (map (fun p => mkUnread p 0) (JS.sort2 a b))
                 (map (fun p => mkArchived p false) (JS.sort2 a b))
                 (map (fun p => mkPinned p false) (JS.sort2 a b)) [] false]).
Proof.
  intros H. unfold findOrCreate, findOne. rewrite H. simpl.
  destruct (sort2_cases a b) as [-> | ->]; now rewrite create_initialises.
Qed.
End FindOrCreate.

(** C2. For every pair of users (A, B) and every store,
    [findOrCreate(A, B)] and [findOrCreate(B, A)] return the same record
    and leave the same store; the record holds A and B as its two
    participants and is a record of the store afterwards.  When the store
    holds a record with A and B as its two participants, the first such
    record is the one returned and the store is left as it is; only when
    it holds none is a record made, with the sorted pair as participants,
    and added to the store.  Once the first call is made, a further call
    for the pair in either order returns that record and leaves the store
    as it is, so at most one record is ever added. *)
Theorem C2_findOrCreate_one_record :
  forall (A B : ObjectId) (db : Conversation.Collection)
         (id1 id2 : ObjectId) (t1 t2 : Date),
    exists c db1,
      Conversation.findOrCreate id1 t1 A B db = Ok (c, db1)
      /\ Conversation.findOrCreate id1 t1 B A db = Ok (c, db1)
      /\ Conversation.findOrCreate id2 t2 A B db1 = Ok (c, db1)
      /\ Conversation.findOrCreate id2 t2 B A db1 = Ok (c, db1)
      /\ (db1 = db \/ db1 = db ++ [c])
      /\ In A (Conversation.participants c)
      /\ In B (Conversation.participants c)
      /\ List.length (Conversation.participants c) = 2%nat
      /\ (exists stored, In stored db1 /\ c = Conversation.hydrate stored)
      /\ ((exists existing,
             find (fun r =>
                     JS.includes (Conversation.participants r) A
                     && JS.includes (Conversation.participants r) B
                     && (List.length (Conversation.participants r) =? 2)%nat) db
             = Some existing
             /\ In existing db
             /\ c = Conversation.hydrate existing
             /\ db1 = db)
          \/ ((forall r, In r db ->
                  ~ (In A (Conversation.participants r)
                     /\ In B (Conversation.participants r)
                     /\ List.length (Conversation.participants r) = 2%nat))
              /\ c = Conversation.mk id1 (JS.sort2 A B) None t1
                       (map (fun p => Conversation.mkUnread p 0) (JS.sort2 A B))
                       (map (fun p => Conversation.mkArchived p false)
                          (JS.sort2 A B))
                       (map (fun p => Conversation.mkPinned p false)
                          (JS.sort2 A B)) [] false
              /\ db1 = db ++ [c])).
Proof.
  intros A B db id1 id2 t1 t2.
  destruct (find (Conversation.matchesAllSize2 (JS.sort2 A B)) db) as [x|] eqn:Hf.
  - exists (Conversation.hydrate x), db.
    pose proof (find_some _ _ Hf) as [Hin Hm]. apply matches_pair in Hm.
    assert (Hf' : find (Conversation.matchesAllSize2 (JS.sort2 B A)) db = Some x)
      by now rewrite <- (sort2_comm A B).
    split; [now apply findOrCreate_found|].
    split; [now apply findOrCreate_found|].
    split; [now apply findOrCreate_found|].
    split; [now apply findOrCreate_found|].
    split; [now left|].
    split; [simpl; tauto|]. split; [simpl; tauto|]. split; [simpl; tauto|].
    split; [now exists x|].
    left. exists x. rewrite <- find_pair_test. repeat split; trivial.
  - pose proof (findOrCreate_created_record id1 t1 A B db Hf) as Hrun.
    set (c := Conversation.mk id1 (JS.sort2 A B) None t1
                (map (fun p => Conversation.mkUnread p 0) (JS.sort2 A B))
                (map (fun p => Conversation.mkArchived p false) (JS.sort2 A B))
                (map (fun p => Conversation.mkPinned p false) (JS.sort2 A B))
                [] false) in *.
    exists c, (db ++ [c]).
    assert (Hm : Conversation.matchesAllSize2 (JS.sort2 A B) c = true).
    { apply matches_pair. subst c. simpl.
      destruct (sort2_cases A B) as [-> | ->]; simpl; auto. }
    assert (Hf1 : find (Conversation.matchesAllSize2 (JS.sort2 A B)) (db ++ [c])
                  = Some c).
    { rewrite find_app_none by exact Hf. simpl. now rewrite Hm. }
    assert (Hagain : forall id t,
              Conversation.findOrCreate id t A B (db ++ [c]) = Ok (c, db ++ [c])).
    { intros id t. now rewrite (findOrCreate_found id t A B (db ++ [c]) c Hf1). }
    assert (Hswap : forall id t (s : Conversation.Collection),
              Conversation.findOrCreate id t B A s
              = Conversation.findOrCreate id t A B s).
    { intros id t s. unfold Conversation.findOrCreate.
      now rewrite (sort2_comm B A). }
    apply matches_pair in Hm.
    split; [exact Hrun|]. split; [rewrite Hswap; exact Hrun|].
    split; [apply Hagain|]. split; [rewrite Hswap; apply Hagain|].
    split; [now right|].
    split; [tauto|]. split; [tauto|]. split; [tauto|].
    split.
    { exists c. split; [apply in_or_app; right; now left|reflexivity]. }
    right. split; [|split; reflexivity].
    intros r Hr Hpair.
    rewrite find_none_iff in Hf. specialize (Hf r Hr).
    apply matches_pair in Hpair. rewrite Hpair in Hf. discriminate.
Qed.

(** ** Gateway: sending a message in a conversation *)

Section SendConversation.
Import Socket.

Lemma conversation_findById_old (id : ObjectId)
    (db : Conversation.Collection) (c : Conversation.t) :
  Conversation.findById id db = Some c ->
  Conversation.isNew c = false /\ Conversation._id c = id.
Proof.
  unfold Conversation.findById.
  destruct (find _ db) as [x|] eqn:Hf; [|discriminate].
  simpl. intros H. inversion H; subst. split; [reflexivity|].
  apply find_some in Hf. destruct Hf as [_ Heq]. simpl.
  now apply String.eqb_eq.
Qed.

Lemma conversation_find_replaced (id : ObjectId) (b : Conversation.t)
    (db : Conversation.Collection) :
  Conversation._id b = id ->
  find (fun d => String.eqb (Conversation._id d) id)
    (map (fun d => if String.eqb (Conversation._id d) id then b else d) db)
  = option_map (fun _ => b)
      (find (fun d => String.eqb (Conversation._id d) id) db).
Proof.
  intros Hb. induction db as [|x db IH]; simpl; [reflexivity|].
  destruct (String.eqb (Conversation._id x) id) eqn:Hx; simpl.
  - rewrite Hb, String.eqb_refl. reflexivity.
  - rewrite Hx. exact IH.
Qed.

Lemma conversation_hydrate_old (c : Conversation.t) :
  Conversation.isNew c = false -> Conversation.hydrate c = c.
Proof. destruct c. simpl. now intros ->. Qed.

(** A message that [Message.create] saved is the document built from the
    arguments, with the text trimmed, added at the end of the store. *)
Lemma create_saved (freshId : ObjectId) (now : Date) (sender conversation : ObjectId)
    (content : option JS.str) (db db' : Message.Collection) (m : Message.t) :
  Message.create freshId now sender conversation content Message.text db
  = (m, Ok db') ->
  exists text,
    content = Some text
    /\ JS.trim text <> []
    /\ (List.length (JS.trim text) <= Message.maxlength)%nat
    /\ m = Message.mk freshId sender conversation (Some (JS.trim text))
             Message.text [] [] false None false None None now false
    /\ db' = db ++ [m].
Proof.
  unfold Message.create, Message.save, Message.validate. simpl.
  destruct content as [text|]; simpl; [|discriminate].
  destruct (JS.trim text) as [|c0 rest] eqn:Htrim; simpl; [discriminate|].
  destruct (Nat.ltb_spec Message.maxlength (S (List.length rest)))
    as [Hlong|Hfit]; [discriminate|].
  intros Hrun. inversion Hrun; subst; clear Hrun. exists text.
  rewrite Htrim. repeat split; [discriminate|simpl; lia].
Qed.
End SendConversation.

(** C1 as stated fails on the unread count.  In the first-contact
    scenario (alice starts a conversation with bob and sends "hi") the send
    succeeds, the message is stored and becomes the last message that bob's
    [conversation:list] shows, and bob's unread count is 0 before the send
    and still 0 after it. *)
Lemma C1_send_conversation_counterexample :
  exists message before after,
    Socket.message_send_conversation Sample.alice Sample.chatId
      (Some (JS.of_ascii "hi")) Sample.hiId 2000%Z 2001%Z Sample.afterStart
    = (Socket.Success message, Sample.afterSend)
    /\ Conversation.findById Sample.chatId (Socket.conversations Sample.afterStart)
       = Some before
    /\ Conversation.participants before = [Sample.alice; Sample.bob]
    /\ Conversation.getUnreadCount Sample.bob before = 0%Z
    /\ Conversation.findById Sample.chatId (Socket.conversations Sample.afterSend)
       = Some after
    /\ Conversation.getUnreadCount Sample.bob after = 0%Z
    /\ Conversation.getUnreadCount Sample.bob after
       <> (Conversation.getUnreadCount Sample.bob before + 1)%Z
    /\ Socket.messages Sample.afterSend = [message]
    /\ Message.content message = Some (JS.of_ascii "hi")
    /\ fst (Socket.conversation_list Sample.bob Sample.afterSend)
       = Socket.Success [Socket.mkListedConversation after (Some message)].
Proof.
  eexists _, _, _. split; [reflexivity|].
  split; [reflexivity|]. split; [reflexivity|]. split; [reflexivity|].
  split; [reflexivity|]. split; [reflexivity|]. split; [discriminate|].
  split; [reflexivity|]. split; reflexivity.
Qed.

(** C1, amended. For every conversation, a successful send of a
    conversation message by a participant persists the message (the sender,
    the conversation and the trimmed text, added to the message store),
    sets the conversation's last-message reference to it and the
    last-activity time to the time of the update, and pushes the message to
    the conversation's channel; it leaves the unread count of every user
    as it was. *)
Theorem C1_send_conversation :
  forall (w w' : Socket.World) (userId conversationId : ObjectId)
         (content : option JS.str) (freshId : ObjectId)
         (tCreate tUpdate : Date) (message : Message.t),
    Socket.message_send_conversation userId conversationId content freshId
      tCreate tUpdate w = (Socket.Success message, w') ->
    exists before after text,
      Conversation.findById conversationId (Socket.conversations w) = Some before
      /\ In userId (Conversation.participants before)
      /\ content = Some text
      /\ message = Message.mk freshId userId conversationId (Some (JS.trim text))
                     Message.text [] [] false None false None None tCreate false
      /\ Socket.messages w' = Socket.messages w ++ [message]
      /\ Conversation.findById conversationId (Socket.conversations w') = Some after
      /\ Conversation.lastMessage after = Some (Message._id message)
      /\ Conversation.lastMessageAt after = tUpdate
      /\ Conversation.participants after = Conversation.participants before
      /\ Conversation.unreadCount after = Conversation.unreadCount before
      /\ (forall u, Conversation.getUnreadCount u after
                    = Conversation.getUnreadCount u before)
      /\ Socket.emitted w'
         = Socket.emitted w
           ++ [Socket.MessageNew ("conversation:" ++ conversationId) message].
Proof.
  intros w w' userId conversationId content freshId tCreate tUpdate message.
  unfold Socket.message_send_conversation, Socket.tryCatch, Socket.bind.
  destruct (Conversation.findById conversationId (Socket.conversations w))
    as [before|] eqn:Hfound; [|discriminate].
  destruct (JS.includes (Conversation.participants before) userId) eqn:Hinc;
    simpl; [|discriminate].
  unfold Socket.onMessages.
  destruct (Message.create freshId tCreate userId conversationId content
              Message.text (Socket.messages w)) as [m [mdb|e]] eqn:Hcreate;
    [|discriminate].
  destruct (create_saved _ _ _ _ _ _ _ _ Hcreate)
    as (text & -> & _ & _ & Hm & Hmdb).
  destruct (conversation_findById_old _ _ _ Hfound) as [Hold Hid].
  unfold Socket.onConversations, Conversation.updateLastMessage,
    Conversation.save, Conversation.pre_save. simpl.
  rewrite Hold.
  destruct (Nat.eqb (List.length (Conversation.participants before)) 2);
    simpl; [|discriminate].
  intros H. inversion H; subst message w'; clear H.
  exists before,
    (Conversation.set_lastMessage (Some (Message._id m)) tUpdate before), text.
  simpl. repeat split; trivial.
  - now apply includes_In.
  - unfold Conversation.findById, Conversation.store in *. simpl.
    rewrite Hold, Hid. rewrite conversation_find_replaced by exact Hid.
    destruct (find _ (Socket.conversations w)); [|discriminate]. simpl.
    rewrite conversation_hydrate_old by exact Hold. reflexivity.
Qed.

(** The send of the first-contact scenario. *)
Lemma C1_send_conversation_witness :
  exists after,
    Conversation.findById Sample.chatId (Socket.conversations Sample.afterSend)
    = Some after
    /\ Conversation.lastMessage after = Some Sample.hiId
    /\ Conversation.lastMessageAt after = 2001%Z
    /\ Conversation.getUnreadCount Sample.bob after = 0%Z.
Proof.
  destruct (C1_send_conversation Sample.afterStart Sample.afterSend
              Sample.alice Sample.chatId (Some (JS.of_ascii "hi")) Sample.hiId
              2000%Z 2001%Z
              (Message.mk Sample.hiId Sample.alice Sample.chatId
                 (Some (JS.of_ascii "hi")) Message.text [] [] false None false
                 None None 2000%Z false))
    as (before & after & text & Hb & _ & _ & Hm & _ & Ha & Hl & Ht & _ & _ & Hu & _).
  - reflexivity.
  - exists after. split; [exact Ha|]. split; [exact Hl|]. split; [exact Ht|].
    rewrite Hu. inversion Hb; subst. reflexivity.
Defined.

(** * Further properties of the models and the gateway *)

(** ** Per-user entries of a conversation *)

Section PerUserArrays.
Context {A : Type} (user : A -> ObjectId) (f : A -> A).
Hypothesis f_keeps_user : forall x, user (f x) = user x.

Lemma find_updateFirst_same (u : ObjectId) (l : list A) :
  find (fun x => String.eqb (user x) u)
    (JS.updateFirst (fun x => String.eqb (user x) u) f l)
  = option_map f (find (fun x => String.eqb (user x) u) l).
Proof.
  apply find_updateFirst. intros x Hx. now rewrite f_keeps_user.
Qed.

Lemma find_updateFirst_other (u v : ObjectId) (l : list A) :
  v <> u ->
  find (fun x => String.eqb (user x) v)
    (JS.updateFirst (fun x => String.eqb (user x) u) f l)
  = find (fun x => String.eqb (user x) v) l.
Proof.
  intros Hvu. induction l as [|x l IH]; simpl; [reflexivity|].
  destruct (String.eqb_spec (user x) u) as [Hx|Hx]; simpl.
  - rewrite f_keeps_user.
    destruct (String.eqb_spec (user x) v) as [Hv|Hv]; [congruence|reflexivity].
  - now rewrite IH.
Qed.

Lemma find_snoc_other (u v : ObjectId) (l : list A) (x : A) :
  v <> u -> user x = u ->
  find (fun y => String.eqb (user y) v) (l ++ [x])
  = find (fun y => String.eqb (user y) v) l.
Proof.
  intros Hvu Hx. induction l as [|y l IH]; simpl.
  - destruct (String.eqb_spec (user x) v); [congruence|reflexivity].
  - now rewrite IH.
Qed.
End PerUserArrays.

Section ConversationFlags.
Import Conversation.

Lemma save_old_fields (this : t) (db : Collection) :
  isNew this = false ->
  unreadCount (fst (save this db)) = unreadCount this
  /\ isArchived (fst (save this db)) = isArchived this
  /\ isPinned (fst (save this db)) = isPinned this
  /\ participants (fst (save this db)) = participants this
  /\ typingUsers (fst (save this db)) = typingUsers this.
Proof.
  intros Hold. unfold save, pre_save. rewrite Hold.
  destruct (negb _); simpl; repeat split.
Qed.

Lemma save_typingUsers (this : t) (db : Collection) :
  typingUsers (fst (save this db)) = typingUsers this.
Proof.
  unfold save, pre_save.
  destruct (negb _), (isNew this); reflexivity.
Qed.

(** A save of a new document leaves every per-user entry at its default. *)
Lemma save_new_defaults (this : t) (db : Collection) (v : ObjectId) :
  isNew this = true ->
  getUnreadCount v (fst (save this db)) = 0%Z
  /\ isArchivedForUser v (fst (save this db)) = false
  /\ isPinnedForUser v (fst (save this db)) = false.
Proof.
  intros Hnew. unfold save, pre_save. rewrite Hnew.
  assert (Hu : getUnreadCount v
                 (set_unreadCount (map (fun p => mkUnread p 0) (participants this)) this)
               = 0%Z).
  { unfold getUnreadCount. simpl.
    pose proof (findUnread_zeros v (participants this)) as H.
    destruct (findUnread v _); [exact H|reflexivity]. }
  assert (Ha : forall ps,
    match findArchived v (map (fun p => mkArchived p false) ps) with
    | Some a => ar_archived a | None => false end = false).
  { unfold findArchived. induction ps as [|p ps IH]; simpl; [reflexivity|].
    destruct (String.eqb p v); [reflexivity|exact IH]. }
  assert (Hp : forall ps,
    match findPinned v (map (fun p => mkPinned p false) ps) with
    | Some a => pn_pinned a | None => false end = false).
  { unfold findPinned. induction ps as [|p ps IH]; simpl; [reflexivity|].
    destruct (String.eqb p v); [reflexivity|exact IH]. }
  unfold getUnreadCount, isArchivedForUser, isPinnedForUser in *.
  destruct (negb _); simpl in *; repeat split; auto.
Qed.
End ConversationFlags.

(** On a stored conversation, [archiveForUser(u, flag)] makes
    [isArchivedForUser(u)] read [flag], whether or not [u] is a participant,
    and leaves the archive flag of every other user, the pin flags, the
    unread counts and the participants as they were. *)
Lemma archive_round_trip :
  forall (c : Conversation.t) (u : ObjectId) (flag : bool)
         (db : Conversation.Collection),
    Conversation.isNew c = false ->
    let c' := fst (Conversation.archiveForUser u flag c db) in
    Conversation.isArchivedForUser u c' = flag
    /\ (forall v, v <> u ->
          Conversation.isArchivedForUser v c' = Conversation.isArchivedForUser v c)
    /\ Conversation.isPinned c' = Conversation.isPinned c
    /\ Conversation.unreadCount c' = Conversation.unreadCount c
    /\ Conversation.participants c' = Conversation.participants c.
Proof.
  intros c u flag db Hold c'. subst c'. unfold Conversation.archiveForUser.
  set (body := match Conversation.findArchived u (Conversation.isArchived c) with
               | Some _ => _ | None => _ end).
  assert (Hbody : Conversation.isNew body = false).
  { subst body. destruct (Conversation.findArchived u _); exact Hold. }
  destruct (save_old_fields body db Hbody) as (Hu & Ha & Hp & Hps & _).
  unfold Conversation.isArchivedForUser. rewrite Ha, Hp, Hu, Hps.
  subst body. unfold Conversation.findArchived.
  destruct (find _ (Conversation.isArchived c)) as [e|] eqn:Hf; simpl.
  - repeat split.
    + rewrite (find_updateFirst_same Conversation.ar_user) by reflexivity.
      now rewrite Hf.
    + intros v Hv.
      now rewrite (find_updateFirst_other Conversation.ar_user) by (reflexivity || exact Hv).
  - repeat split.
    + rewrite find_app_none by exact Hf. simpl. now rewrite String.eqb_refl.
    + intros v Hv.
      now rewrite (find_snoc_other Conversation.ar_user u v) by (reflexivity || exact Hv).
Qed.

(** On a stored conversation, [pinForUser(u, flag)] makes
    [isPinnedForUser(u)] read [flag] and leaves the pin flag of every other
    user, the archive flags, the unread counts and the participants as they
    were. *)
Lemma pin_round_trip :
  forall (c : Conversation.t) (u : ObjectId) (flag : bool)
         (db : Conversation.Collection),
    Conversation.isNew c = false ->
    let c' := fst (Conversation.pinForUser u flag c db) in
    Conversation.isPinnedForUser u c' = flag
    /\ (forall v, v <> u ->
          Conversation.isPinnedForUser v c' = Conversation.isPinnedForUser v c)
    /\ Conversation.isArchived c' = Conversation.isArchived c
    /\ Conversation.unreadCount c' = Conversation.unreadCount c
    /\ Conversation.participants c' = Conversation.participants c.
Proof.
  intros c u flag db Hold c'. subst c'. unfold Conversation.pinForUser.
  set (body := match Conversation.findPinned u (Conversation.isPinned c) with
               | Some _ => _ | None => _ end).
  assert (Hbody : Conversation.isNew body = false).
  { subst body. destruct (Conversation.findPinned u _); exact Hold. }
  destruct (save_old_fields body db Hbody) as (Hu & Ha & Hp & Hps & _).
  unfold Conversation.isPinnedForUser. rewrite Ha, Hp, Hu, Hps.
  subst body. unfold Conversation.findPinned.
  destruct (find _ (Conversation.isPinned c)) as [e|] eqn:Hf; simpl.
  - repeat split.
    + rewrite (find_updateFirst_same Conversation.pn_user) by reflexivity.
      now rewrite Hf.
    + intros v Hv.
      now rewrite (find_updateFirst_other Conversation.pn_user) by (reflexivity || exact Hv).
  - repeat split.
    + rewrite find_app_none by exact Hf. simpl. now rewrite String.eqb_refl.
    + intros v Hv.
      now rewrite (find_snoc_other Conversation.pn_user u v) by (reflexivity || exact Hv).
Qed.

(** X1. On a stored conversation, [archiveForUser(u, flag)] and
    [pinForUser(u, flag)] make [isArchivedForUser(u)] and
    [isPinnedForUser(u)] read [flag], whether or not [u] is a participant;
    each leaves the flag of every other user, the other kind of flag, the
    unread counts and the participants as they were. *)
Theorem X1_flags_round_trip :
  forall (c : Conversation.t) (u : ObjectId) (flag : bool)
         (db : Conversation.Collection),
    Conversation.isNew c = false ->
    let archived := fst (Conversation.archiveForUser u flag c db) in
    let pinned := fst (Conversation.pinForUser u flag c db) in
    Conversation.isArchivedForUser u archived = flag
    /\ Conversation.isPinnedForUser u pinned = flag
    /\ (forall v, v <> u ->
          Conversation.isArchivedForUser v archived
          = Conversation.isArchivedForUser v c
          /\ Conversation.isPinnedForUser v pinned
             = Conversation.isPinnedForUser v c)
    /\ (forall v,
          Conversation.isPinnedForUser v archived
          = Conversation.isPinnedForUser v c
          /\ Conversation.isArchivedForUser v pinned
             = Conversation.isArchivedForUser v c
          /\ Conversation.getUnreadCount v archived
             = Conversation.getUnreadCount v c
          /\ Conversation.getUnreadCount v pinned
             = Conversation.getUnreadCount v c)
    /\ Conversation.participants archived = Conversation.participants c
    /\ Conversation.participants pinned = Conversation.participants c.
Proof.
  intros c u flag db Hold archived pinned.
  destruct (archive_round_trip c u flag db Hold) as (Ha1 & Ha2 & Ha3 & Ha4 & Ha5).
  destruct (pin_round_trip c u flag db Hold) as (Hp1 & Hp2 & Hp3 & Hp4 & Hp5).
  fold archived in Ha1, Ha2, Ha3, Ha4, Ha5. fold pinned in Hp1, Hp2, Hp3, Hp4, Hp5.
  split; [exact Ha1|]. split; [exact Hp1|]. split.
  { intros v Hv. split; [now apply Ha2|now apply Hp2]. }
  split; [|split; assumption].
  intros v. unfold Conversation.isPinnedForUser, Conversation.isArchivedForUser,
    Conversation.getUnreadCount.
  rewrite Ha3, Ha4, Hp3, Hp4. repeat split.
Qed.

(** Carol, a stranger to the conversation, archives it for herself; bob
    pins it, and alice's pin flag stays false. *)
Lemma X1_flags_round_trip_witness :
  Conversation.isArchivedForUser Sample.carol
    (fst (Conversation.archiveForUser Sample.carol true Sample.chat [Sample.chat]))
  = true
  /\ Conversation.isPinnedForUser Sample.bob
       (fst (Conversation.pinForUser Sample.bob true Sample.chat [Sample.chat]))
     = true.
Proof.
  split.
  - apply (X1_flags_round_trip Sample.chat Sample.carol true [Sample.chat]).
    reflexivity.
  - apply (X1_flags_round_trip Sample.chat Sample.bob true [Sample.chat]).
    reflexivity.
Defined.

(** On a stored conversation the reset reads back as 0. *)
Lemma resetUnread_zero (c : Conversation.t) (u : ObjectId)
    (db : Conversation.Collection) :
  Conversation.isNew c = false ->
  Conversation.getUnreadCount u (fst (Conversation.resetUnread u c db)) = 0%Z.
Proof.
  intros Hold. unfold Conversation.resetUnread.
  rewrite getUnreadCount_save, pre_save_old.
  - apply getUnreadCount_reset_body.
  - unfold Conversation.resetUnread_body.
    destruct (Conversation.findUnread u _); exact Hold.
Qed.

(** X3. On a stored conversation, [incrementUnread(u)] raises the unread
    count of [u] by one and [resetUnread(u)] sets it to 0; either leaves the
    count of every other user and the archive and pin flags as they were. *)
Theorem X3_unread_only_that_user :
  forall (c : Conversation.t) (u : ObjectId) (db : Conversation.Collection),
    Conversation.isNew c = false ->
    let inc := fst (Conversation.incrementUnread u c db) in
    let rst := fst (Conversation.resetUnread u c db) in
    Conversation.getUnreadCount u inc = (Conversation.getUnreadCount u c + 1)%Z
    /\ Conversation.getUnreadCount u rst = 0%Z
    /\ (forall v, v <> u ->
          Conversation.getUnreadCount v inc = Conversation.getUnreadCount v c
          /\ Conversation.getUnreadCount v rst = Conversation.getUnreadCount v c)
    /\ Conversation.isArchived inc = Conversation.isArchived c
    /\ Conversation.isPinned inc = Conversation.isPinned c
    /\ Conversation.isArchived rst = Conversation.isArchived c
    /\ Conversation.isPinned rst = Conversation.isPinned c.
Proof.
  intros c u db Hold inc rst.
  assert (Hi : Conversation.isNew (Conversation.incrementUnread_body u c) = false).
  { unfold Conversation.incrementUnread_body.
    destruct (Conversation.findUnread u _); exact Hold. }
  assert (Hr : Conversation.isNew (Conversation.resetUnread_body u c) = false).
  { unfold Conversation.resetUnread_body.
    destruct (Conversation.findUnread u _); exact Hold. }
  destruct (save_old_fields _ db Hi) as (Hiu & Hia & Hip & _).
  destruct (save_old_fields _ db Hr) as (Hru & Hra & Hrp & _).
  split; [now apply incrementUnread_counts|].
  split.
  { subst rst. unfold Conversation.resetUnread.
    rewrite getUnreadCount_save, pre_save_old by exact Hr.
    apply getUnreadCount_reset_body. }
  subst inc rst. unfold Conversation.incrementUnread, Conversation.resetUnread.
  rewrite Hia, Hip, Hra, Hrp. split.
  - intros v Hv. unfold Conversation.getUnreadCount. rewrite Hiu, Hru.
    unfold Conversation.incrementUnread_body, Conversation.resetUnread_body,
      Conversation.findUnread.
    destruct (find (fun x => String.eqb (Conversation.ur_user x) u)
                (Conversation.unreadCount c)) as [e|] eqn:Hf; simpl.
    + rewrite !(find_updateFirst_other Conversation.ur_user)
        by (reflexivity || exact Hv). split; reflexivity.
    + rewrite (find_snoc_other Conversation.ur_user u v)
        by (reflexivity || exact Hv). split; reflexivity.
  - unfold Conversation.incrementUnread_body, Conversation.resetUnread_body.
    destruct (Conversation.findUnread u _); repeat split.
Qed.

(** A message for bob: his count goes up, alice's stays. *)
Lemma X3_unread_only_that_user_witness :
  Conversation.getUnreadCount Sample.bob
    (fst (Conversation.incrementUnread Sample.bob Sample.chat [Sample.chat])) = 1%Z
  /\ Conversation.getUnreadCount Sample.alice
       (fst (Conversation.incrementUnread Sample.bob Sample.chat [Sample.chat]))
     = 0%Z.
Proof.
  destruct (X3_unread_only_that_user Sample.chat Sample.bob [Sample.chat])
    as (H1 & _ & H2 & _).
  - reflexivity.
  - split; [exact H1|].
    destruct (H2 Sample.alice) as [H _]; [discriminate|]. rewrite H. reflexivity.
Defined.

(** X4. On a conversation document that was never saved, what
    [incrementUnread], [archiveForUser] and [pinForUser] set is lost: the
    save they end in runs the hook, which sets the three arrays anew, so
    every count reads 0 and every flag reads false afterwards. *)
Theorem X4_unsaved_document_resets :
  forall (c : Conversation.t) (u v : ObjectId) (flag : bool)
         (db : Conversation.Collection),
    Conversation.isNew c = true ->
    Conversation.getUnreadCount v (fst (Conversation.incrementUnread u c db)) = 0%Z
    /\ Conversation.isArchivedForUser v
         (fst (Conversation.archiveForUser u flag c db)) = false
    /\ Conversation.isPinnedForUser v
         (fst (Conversation.pinForUser u flag c db)) = false.
Proof.
  intros c u v flag db Hnew.
  unfold Conversation.incrementUnread, Conversation.archiveForUser,
    Conversation.pinForUser.
  split; [|split].
  - apply save_new_defaults. unfold Conversation.incrementUnread_body.
    destruct (Conversation.findUnread u _); exact Hnew.
  - apply save_new_defaults.
    destruct (Conversation.findArchived u _); exact Hnew.
  - apply save_new_defaults.
    destruct (Conversation.findPinned u _); exact Hnew.
Qed.

(** On the unsaved draft of alice and carol the increment and the pin of
    alice do not show. *)
Lemma X4_unsaved_document_resets_witness :
  Conversation.getUnreadCount Sample.alice
    (fst (Conversation.incrementUnread Sample.alice Sample.draft [])) = 0%Z
  /\ Conversation.isPinnedForUser Sample.alice
       (fst (Conversation.pinForUser Sample.alice true Sample.draft [])) = false.
Proof.
  destruct (X4_unsaved_document_resets Sample.draft Sample.alice Sample.alice
              true []) as (H1 & _ & H3).
  - reflexivity.
  - split; [exact H1|exact H3].
Defined.

(** X5. In a conversation of [a] and [b], [getOtherParticipant] maps [a]
    to [b] and [b] to [a] when they differ; for a user who is neither it
    returns [a], the first participant; and in a conversation of a user
    with themselves it returns nothing. *)
Theorem X5_getOtherParticipant :
  forall (c : Conversation.t) (a b u : ObjectId),
    Conversation.participants c = [a; b] ->
    (a <> b ->
     Conversation.getOtherParticipant a c = Some b
     /\ Conversation.getOtherParticipant b c = Some a)
    /\ (u <> a -> Conversation.getOtherParticipant u c = Some a)
    /\ (a = b -> Conversation.getOtherParticipant a c = None).
Proof.
  intros c a b u Hps. unfold Conversation.getOtherParticipant. rewrite Hps.
  simpl. split; [|split].
  - intros Hab. rewrite !String.eqb_refl. simpl.
    destruct (String.eqb_spec b a) as [Hba|Hba]; [congruence|].
    destruct (String.eqb_spec a b) as [Hab'|_]; [congruence|]. simpl. auto.
  - intros Hua. destruct (String.eqb_spec a u) as [Hau|_]; [congruence|].
    reflexivity.
  - intros <-. now rewrite String.eqb_refl.
Qed.

(** In the conversation of alice and bob: alice's other is bob, and a
    stranger is answered with alice. *)
Lemma X5_getOtherParticipant_witness :
  Conversation.getOtherParticipant Sample.alice Sample.chat = Some Sample.bob
  /\ Conversation.getOtherParticipant Sample.carol Sample.chat = Some Sample.alice.
Proof.
  destruct (X5_getOtherParticipant Sample.chat Sample.alice Sample.bob
              Sample.carol eq_refl) as (H1 & H2 & _).
  split.
  - apply H1. discriminate.
  - apply H2. discriminate.
Defined.

(** ** Typing users of a conversation *)

Section TypingUsers.
Import Conversation.

Lemma filter_other_notin (u : ObjectId) (l : list ObjectId) :
  ~ In u (filter (fun id => negb (String.eqb id u)) l).
Proof.
  intros Hin. apply filter_In in Hin. destruct Hin as [_ H].
  rewrite String.eqb_refl in H. discriminate.
Qed.

Lemma filter_other_id (u : ObjectId) (l : list ObjectId) :
  ~ In u l -> filter (fun id => negb (String.eqb id u)) l = l.
Proof.
  induction l as [|x l IH]; simpl; [reflexivity|].
  intros Hn. destruct (String.eqb_spec x u) as [->|_]; simpl.
  - exfalso. apply Hn. now left.
  - rewrite IH; [reflexivity|]. intros H. apply Hn. now right.
Qed.

Lemma filter_other_snoc (u : ObjectId) (l : list ObjectId) :
  filter (fun id => negb (String.eqb id u)) (l ++ [u])
  = filter (fun id => negb (String.eqb id u)) l.
Proof.
  rewrite filter_app. simpl. rewrite String.eqb_refl. simpl. apply app_nil_r.
Qed.
End TypingUsers.

(** X6. [setTyping(u, true)] puts [u] in the typing list, once: a second
    call changes nothing.  [setTyping(u, false)] takes every entry of [u]
    out and keeps the others in order; after a start and a stop the list
    of a conversation where [u] was not typing is what it was. *)
Theorem X6_setTyping :
  forall (c : Conversation.t) (u : ObjectId) (db1 db2 : Conversation.Collection),
    let on := fst (Conversation.setTyping u true c db1) in
    let on2 := fst (Conversation.setTyping u true on db2) in
    let off := fst (Conversation.setTyping u false on db2) in
    In u (Conversation.typingUsers on)
    /\ Conversation.typingUsers on2 = Conversation.typingUsers on
    /\ ~ In u (Conversation.typingUsers off)
    /\ (forall v, v <> u ->
          (In v (Conversation.typingUsers off) <-> In v (Conversation.typingUsers c)))
    /\ (~ In u (Conversation.typingUsers c) ->
        Conversation.typingUsers on = Conversation.typingUsers c ++ [u]
        /\ Conversation.typingUsers off = Conversation.typingUsers c).
Proof.
  intros c u db1 db2 on on2 off.
  assert (Hon : Conversation.typingUsers on
                = if JS.includes (Conversation.typingUsers c) u
                  then Conversation.typingUsers c
                  else Conversation.typingUsers c ++ [u]).
  { subst on. unfold Conversation.setTyping. rewrite save_typingUsers.
    destruct (JS.includes _ u); reflexivity. }
  assert (Hin : In u (Conversation.typingUsers on)).
  { rewrite Hon. destruct (JS.includes _ u) eqn:Hi.
    - now apply includes_In.
    - apply in_or_app. right. now left. }
  assert (Hoff : Conversation.typingUsers off
                 = filter (fun id => negb (String.eqb id u))
                     (Conversation.typingUsers on)).
  { subst off. unfold Conversation.setTyping. now rewrite save_typingUsers. }
  split; [exact Hin|]. split.
  { subst on2. unfold Conversation.setTyping. rewrite save_typingUsers.
    apply includes_In in Hin. now rewrite Hin. }
  split; [rewrite Hoff; apply filter_other_notin|]. split.
  - intros v Hv. rewrite Hoff, filter_In, Hon.
    destruct (JS.includes _ u).
    + split; [tauto|]. intros H. split; [exact H|].
      destruct (String.eqb_spec v u); [contradiction|reflexivity].
    + rewrite in_app_iff. simpl. split.
      * intros [[H|[H|[]]] _]; [exact H|congruence].
      * intros H. split; [now left|].
        destruct (String.eqb_spec v u); [contradiction|reflexivity].
  - intros Hn. rewrite Hoff, Hon.
    destruct (JS.includes _ u) eqn:Hi.
    + apply includes_In in Hi. contradiction.
    + split; [reflexivity|].
      rewrite filter_other_snoc. now apply filter_other_id.
Qed.

(** Bob starts typing in the conversation with alice, then stops. *)
Lemma X6_setTyping_witness :
  Conversation.typingUsers
    (fst (Conversation.setTyping Sample.bob true Sample.chat [Sample.chat]))
  = [Sample.bob]
  /\ Conversation.typingUsers
       (fst (Conversation.setTyping Sample.bob false
               (fst (Conversation.setTyping Sample.bob true Sample.chat
                       [Sample.chat]))
               [Sample.chat]))
     = [].
Proof.
  destruct (X6_setTyping Sample.chat Sample.bob [Sample.chat] [Sample.chat])
    as (_ & _ & _ & _ & H).
  apply H. simpl. tauto.
Defined.

(** ** Sorted listings *)

Section SortedListings.
Context {A : Type} (key : A -> Z).

Local Abbreviation newestFirst := (Query.newestFirst key).
Local Abbreviation oldestFirst := (Query.oldestFirst key).

Lemma insertDesc_sorted (x : A) (l : list A) :
  StronglySorted newestFirst l ->
  StronglySorted newestFirst (Query.insertDesc key x l).
Proof.
  induction 1 as [|y l Hl IH Hy]; simpl.
  - constructor; constructor.
  - destruct (Z.ltb_spec (key y) (key x)) as [Hlt|Hge].
    + constructor; [constructor; assumption|].
      constructor; [unfold Query.newestFirst; lia|].
      rewrite Forall_forall in *. intros z Hz. specialize (Hy z Hz).
      unfold Query.newestFirst in *. lia.
    + constructor; [exact IH|].
      rewrite Forall_forall in *. intros z Hz.
      apply In_insertDesc in Hz. destruct Hz as [->|Hz].
      * unfold Query.newestFirst. lia.
      * now apply Hy.
  Qed.

Lemma sortDesc_sorted (l : list A) :
  StronglySorted newestFirst (Query.sortDesc key l).
Proof.
  induction l as [|x l IH]; simpl; [constructor|now apply insertDesc_sorted].
Qed.

Lemma In_insertAsc (x y : A) (l : list A) :
  In y (Query.insertAsc key x l) <-> y = x \/ In y l.
Proof.
  induction l as [|z l IH]; simpl; [intuition congruence|].
  destruct (key x <? key z)%Z; simpl; [intuition congruence|].
  rewrite IH. intuition congruence.
Qed.

Lemma In_sortAsc (y : A) (l : list A) :
  In y (Query.sortAsc key l) <-> In y l.
Proof.
  induction l as [|z l IH]; simpl; [tauto|].
  rewrite In_insertAsc, IH. intuition congruence.
Qed.

Lemma insertAsc_sorted (x : A) (l : list A) :
  StronglySorted oldestFirst l ->
  StronglySorted oldestFirst (Query.insertAsc key x l).
Proof.
  induction 1 as [|y l Hl IH Hy]; simpl.
  - constructor; constructor.
  - destruct (Z.ltb_spec (key x) (key y)) as [Hlt|Hge].
    + constructor; [constructor; assumption|].
      constructor; [unfold Query.oldestFirst; lia|].
      rewrite Forall_forall in *. intros z Hz. specialize (Hy z Hz).
      unfold Query.oldestFirst in *. lia.
    + constructor; [exact IH|].
      rewrite Forall_forall in *. intros z Hz.
      apply In_insertAsc in Hz. destruct Hz as [->|Hz].
      * unfold Query.oldestFirst. lia.
      * now apply Hy.
Qed.

Lemma sortAsc_sorted (l : list A) :
  StronglySorted oldestFirst (Query.sortAsc key l).
Proof.
  induction l as [|x l IH]; simpl; [constructor|now apply insertAsc_sorted].
Qed.

Lemma length_insertDesc (x : A) (l : list A) :
  List.length (Query.insertDesc key x l) = S (List.length l).
Proof.
  induction l as [|y l IH]; simpl; [reflexivity|].
  destruct (key y <? key x)%Z; simpl; congruence.
Qed.

Lemma length_sortDesc (l : list A) :
  List.length (Query.sortDesc key l) = List.length l.
Proof.
  induction l as [|x l IH]; simpl; [reflexivity|].
  now rewrite length_insertDesc, IH.
Qed.
End SortedListings.

Lemma StronglySorted_filter {A : Type} (R : A -> A -> Prop) (p : A -> bool)
    (l : list A) :
  StronglySorted R l -> StronglySorted R (filter p l).
Proof.
  induction 1 as [|x l Hl IH Hx]; simpl; [constructor|].
  destruct (p x); [|exact IH].
  constructor; [exact IH|].
  rewrite Forall_forall in *. intros y Hy. apply filter_In in Hy.
  apply Hx. tauto.
Qed.

Lemma StronglySorted_firstn {A : Type} (R : A -> A -> Prop) (n : nat)
    (l : list A) :
  StronglySorted R l -> StronglySorted R (firstn n l).
Proof.
  intros H. revert n. induction H as [|x l Hl IH Hx]; intros [|n]; simpl;
    try constructor.
  - apply IH.
  - rewrite Forall_forall in *. intros y Hy. apply Hx.
    rewrite <- (firstn_skipn n l). apply in_or_app. now left.
Qed.

Lemma StronglySorted_limit {A : Type} (R : A -> A -> Prop) (n : nat)
    (l : list A) :
  StronglySorted R l -> StronglySorted R (Query.limit n l).
Proof.
  destruct n; simpl; [trivial|]. intros H.
  now apply (StronglySorted_firstn R (S n)).
Qed.

Lemma StronglySorted_map {A B : Type} (R : A -> A -> Prop) (Q : B -> B -> Prop)
    (g : A -> B) (l : list A) :
  (forall a b, R a b -> Q (g a) (g b)) ->
  StronglySorted R l -> StronglySorted Q (map g l).
Proof.
  intros Hg. induction 1 as [|x l Hl IH Hx]; simpl; constructor; [exact IH|].
  rewrite Forall_forall in *. intros y Hy. apply in_map_iff in Hy.
  destruct Hy as (z & <- & Hz). apply Hg. now apply Hx.
Qed.

(** ** The conversations of a user *)

Section UserConversations.
Import Conversation ConversationStatics.
Variable userId : ObjectId.

Local Abbreviation pinned := (isPinnedForUser userId).

Lemma insertBy_pinned (x : t) (l : list t) :
  pinned x = true -> JS.insertBy (pinnedFirst userId) x l = x :: l.
Proof.
  intros Hx. destruct l as [|y l]; simpl; [reflexivity|].
  unfold pinnedFirst. rewrite Hx.
  destruct (pinned y); reflexivity.
Qed.

Lemma insertBy_unpinned (x : t) (front back : list t) :
  pinned x = false ->
  Forall (fun c => pinned c = true) front ->
  Forall (fun c => pinned c = false) back ->
  JS.insertBy (pinnedFirst userId) x (front ++ back) = front ++ x :: back.
Proof.
  intros Hx Hfront Hback. induction Hfront as [|y front Hy _ IH]; simpl.
  - destruct Hback as [|z back Hz _]; simpl; [reflexivity|].
    unfold pinnedFirst. now rewrite Hx, Hz.
  - unfold pinnedFirst at 1. rewrite Hx, Hy. simpl.
    now rewrite IH.
Qed.

Lemma Forall_filter_true {A : Type} (p : A -> bool) (l : list A) :
  Forall (fun c => p c = true) (filter p l).
Proof. rewrite Forall_forall. intros c Hc. now apply filter_In in Hc. Qed.

(** The comparator sort amounts to: the pinned ones, then the others, each
    group in the order it had. *)
Lemma sortBy_pinnedFirst (l : list t) :
  JS.sortBy (pinnedFirst userId) l
  = filter pinned l ++ filter (fun c => negb (pinned c)) l.
Proof.
  induction l as [|x l IH]; simpl; [reflexivity|].
  rewrite IH. destruct (pinned x) eqn:Hx; simpl.
  - now apply insertBy_pinned.
  - apply insertBy_unpinned; [exact Hx|apply Forall_filter_true|].
    rewrite Forall_forall. intros c Hc. apply filter_In in Hc.
    destruct Hc as [_ Hc]. now apply negb_true_iff.
Qed.
End UserConversations.

Section Partition.
Context {A : Type} (p : A -> bool).

Lemma filter_twice (l : list A) : filter p (filter p l) = filter p l.
Proof.
  induction l as [|x l IH]; simpl; [reflexivity|].
  destruct (p x) eqn:Hx; simpl; rewrite ?Hx, IH; reflexivity.
Qed.

Lemma filter_disjoint (q : A -> bool) (l : list A) :
  (forall x, q x = true -> p x = false) -> filter p (filter q l) = [].
Proof.
  intros Hq. induction l as [|x l IH]; simpl; [reflexivity|].
  destruct (q x) eqn:Hx; simpl; [rewrite (Hq x Hx)|]; exact IH.
Qed.

Lemma filter_partition (l : list A) :
  filter p (filter p l ++ filter (fun x => negb (p x)) l) = filter p l
  /\ filter (fun x => negb (p x)) (filter p l ++ filter (fun x => negb (p x)) l)
     = filter (fun x => negb (p x)) l.
Proof.
  rewrite !filter_app. split.
  - rewrite filter_twice, filter_disjoint, app_nil_r; [reflexivity|].
    intros x Hx. now apply negb_true_iff.
  - assert (H1 : filter (fun x => negb (p x)) (filter p l) = []).
    { induction l as [|x l IH]; simpl; [reflexivity|].
      destruct (p x) eqn:Hx; simpl; rewrite ?Hx; exact IH. }
    assert (H2 : filter (fun x => negb (p x)) (filter (fun x => negb (p x)) l)
                 = filter (fun x => negb (p x)) l).
    { clear H1. induction l as [|x l IH]; simpl; [reflexivity|].
      destruct (p x) eqn:Hx; simpl; rewrite ?Hx; simpl; rewrite IH; reflexivity. }
    now rewrite H1, H2.
Qed.
End Partition.

(** X7. [getUserConversations(userId, includeArchived)] lists exactly the
    stored conversations that hold the user as a participant and, unless
    [includeArchived], are not archived for the user; the ones pinned for
    the user come first, and within the pinned and within the others the
    order is by last activity, newest first. *)
Theorem X7_getUserConversations :
  forall (userId : ObjectId) (includeArchived : bool)
         (db : Conversation.Collection),
    let listed :=
      ConversationStatics.getUserConversations userId includeArchived db in
    let pinned := filter (Conversation.isPinnedForUser userId) listed in
    let others :=
      filter (fun c => negb (Conversation.isPinnedForUser userId c)) listed in
    listed = pinned ++ others
    /\ StronglySorted (Query.newestFirst Conversation.lastMessageAt) pinned
    /\ StronglySorted (Query.newestFirst Conversation.lastMessageAt) others
    /\ (forall c,
          In c listed <->
          exists d, In d db /\ c = Conversation.hydrate d
                    /\ In userId (Conversation.participants d)
                    /\ (includeArchived = true
                        \/ Conversation.isArchivedForUser userId d = false)).
Proof.
  intros userId includeArchived db listed pinned others.
  set (found := Query.sortDesc Conversation.lastMessageAt
                  (map Conversation.hydrate
                     (filter (fun c => JS.includes (Conversation.participants c) userId)
                        db))).
  set (kept := filter (fun conv =>
                 includeArchived
                 || negb (Conversation.isArchivedForUser userId conv)) found).
  assert (Hlisted : listed
                    = filter (Conversation.isPinnedForUser userId) kept
                      ++ filter (fun c => negb (Conversation.isPinnedForUser userId c))
                           kept).
  { subst listed. unfold ConversationStatics.getUserConversations.
    fold found. fold kept. apply sortBy_pinnedFirst. }
  assert (Hkept : StronglySorted (Query.newestFirst Conversation.lastMessageAt) kept).
  { subst kept. apply StronglySorted_filter. subst found. apply sortDesc_sorted. }
  destruct (filter_partition (Conversation.isPinnedForUser userId) kept)
    as [Hp Ho].
  assert (Hpinned : pinned = filter (Conversation.isPinnedForUser userId) kept).
  { subst pinned. now rewrite Hlisted. }
  assert (Hothers : others
                    = filter (fun c => negb (Conversation.isPinnedForUser userId c))
                        kept).
  { subst others. now rewrite Hlisted. }
  split; [now rewrite Hpinned, Hothers|].
  split; [rewrite Hpinned; now apply StronglySorted_filter|].
  split; [rewrite Hothers; now apply StronglySorted_filter|].
  intros c. rewrite Hlisted, in_app_iff, !filter_In.
  assert (Hin : In c kept <->
                exists d, In d db /\ c = Conversation.hydrate d
                          /\ In userId (Conversation.participants d)
                          /\ (includeArchived = true
                              \/ Conversation.isArchivedForUser userId d = false)).
  { subst kept found. rewrite filter_In, In_sortDesc, in_map_iff. split.
    - intros [(d & <- & Hd) Hkeep]. apply filter_In in Hd.
      destruct Hd as [Hd Hinc]. apply includes_In in Hinc.
      exists d. repeat split; trivial.
      apply orb_prop in Hkeep. destruct Hkeep as [H|H]; [now left|right].
      now apply negb_true_iff in H.
    - intros (d & Hd & -> & Hu & Harch). split.
      + exists d. split; [reflexivity|]. apply filter_In.
        split; [exact Hd|now apply includes_In].
      + destruct Harch as [->|H]; [reflexivity|].
        apply orb_true_iff. right. now apply negb_true_iff. }
  rewrite <- Hin.
  destruct (Conversation.isPinnedForUser userId c); simpl; tauto.
Qed.

(** ** The total of the unread counts of a user *)

Section TotalUnread.
Import Conversation ConversationStatics.

Lemma fold_left_sum {A : Type} (g : A -> Z) (l : list A) (a : Z) :
  fold_left (fun total x => (total + g x)%Z) l a
  = (a + fold_right Z.add 0%Z (map g l))%Z.
Proof.
  revert a. induction l as [|x l IH]; intros a; simpl; [lia|].
  rewrite IH. lia.
Qed.

Lemma total_as_sum (u : ObjectId) (db : Collection) :
  getTotalUnreadCount u db
  = fold_right Z.add 0%Z
      (map (getUnreadCount u)
         (filter (fun c => JS.includes (participants c) u) db)).
Proof.
  unfold getTotalUnreadCount. rewrite fold_left_sum, map_map. simpl.
  f_equal.
Qed.

Lemma save_stored (this this' : t) (db db' : Collection) :
  isNew this = false ->
  save this db = (this', Ok db') ->
  this' = this
  /\ db' = map (fun d => if String.eqb (_id d) (_id this) then this else d) db.
Proof.
  intros Hold. unfold save, pre_save, store. rewrite Hold.
  destruct (negb _); [discriminate|]. intros H. inversion H; subst.
  rewrite Hold. split; [|reflexivity]. destruct this; simpl in *. now subst.
Qed.

Lemma replace_absent (b : t) (id : ObjectId) (db : Collection) :
  ~ In id (map _id db) ->
  map (fun d => if String.eqb (_id d) id then b else d) db = db.
Proof.
  induction db as [|y db IH]; simpl; [reflexivity|].
  intros Hn. destruct (String.eqb_spec (_id y) id) as [Hy|Hy].
  - exfalso. apply Hn. now left.
  - rewrite IH; [reflexivity|]. intros H. apply Hn. now right.
Qed.

(** Replacing the stored document of an id by one with the same
    participants moves the total by the difference of the two counts. *)
Lemma total_replace (u : ObjectId) (b x : t) (db : Collection) :
  NoDup (map _id db) ->
  find (fun d => String.eqb (_id d) (_id b)) db = Some x ->
  participants b = participants x ->
  getTotalUnreadCount u
    (map (fun d => if String.eqb (_id d) (_id b) then b else d) db)
  = (getTotalUnreadCount u db
     + if JS.includes (participants x) u
       then getUnreadCount u b - getUnreadCount u x else 0)%Z.
Proof.
  intros Hnd Hfind Hps. rewrite !total_as_sum.
  induction db as [|y db IH]; simpl in *; [discriminate|].
  inversion Hnd as [|? ? Hnotin Hnd']; subst.
  destruct (String.eqb_spec (_id y) (_id b)) as [Hy|Hy].
  - inversion Hfind; subst x. rewrite replace_absent by now rewrite <- Hy.
    rewrite Hps. destruct (JS.includes (participants y) u); simpl; lia.
  - specialize (IH Hnd' Hfind).
    destruct (JS.includes (participants y) u); simpl; lia.
Qed.
End TotalUnread.

(** X8. In a store where each id occurs once, [incrementUnread(u)] on a
    stored conversation that saves raises [getTotalUnreadCount(u)] by one
    when [u] is a participant, and [resetUnread(u)] lowers it by the count
    the conversation had for [u]; for a user who is not a participant the
    total does not move. *)
Theorem X8_total_unread_follows :
  forall (db db' : Conversation.Collection) (c c' : Conversation.t)
         (u : ObjectId),
    NoDup (map Conversation._id db) ->
    Conversation.findById (Conversation._id c) db = Some c ->
    (Conversation.incrementUnread u c db = (c', Ok db') ->
     ConversationStatics.getTotalUnreadCount u db'
     = (ConversationStatics.getTotalUnreadCount u db
        + if JS.includes (Conversation.participants c) u then 1 else 0)%Z)
    /\ (Conversation.resetUnread u c db = (c', Ok db') ->
        ConversationStatics.getTotalUnreadCount u db'
        = (ConversationStatics.getTotalUnreadCount u db
           - if JS.includes (Conversation.participants c) u
             then Conversation.getUnreadCount u c else 0)%Z).
Proof.
  intros db db' c c' u Hnd Hfound.
  destruct (conversation_findById_old _ _ _ Hfound) as [Hold _].
  unfold Conversation.findById in Hfound.
  destruct (find _ db) as [x|] eqn:Hfind; [|discriminate].
  simpl in Hfound.
  assert (Hx : Conversation.hydrate x = c) by congruence. clear Hfound.
  assert (Hxu : forall v, Conversation.getUnreadCount v x
                          = Conversation.getUnreadCount v c)
    by (intros v; now rewrite <- Hx).
  assert (Hxp : Conversation.participants x = Conversation.participants c)
    by now rewrite <- Hx.
  assert (Hxi : Conversation._id x = Conversation._id c) by now rewrite <- Hx.
  pose proof (incrementUnread_counts c u db Hold) as Hinc.
  pose proof (resetUnread_zero c u db Hold) as Hrst.
  split; intros Hrun.
  - unfold Conversation.incrementUnread in Hrun.
    assert (Hb : Conversation.isNew (Conversation.incrementUnread_body u c) = false).
    { unfold Conversation.incrementUnread_body.
      destruct (Conversation.findUnread u _); exact Hold. }
    destruct (save_stored _ _ _ _ Hb Hrun) as [Hc' ->].
    assert (Hid : Conversation._id (Conversation.incrementUnread_body u c)
                  = Conversation._id c).
    { unfold Conversation.incrementUnread_body.
      destruct (Conversation.findUnread u _); reflexivity. }
    rewrite (total_replace u _ x); rewrite ?Hid; trivial.
    + rewrite Hxp, Hxu.
      unfold Conversation.incrementUnread in Hinc. rewrite Hrun in Hinc.
      simpl in Hinc. rewrite <- Hc', Hinc.
      destruct (JS.includes _ u); lia.
    + rewrite Hxp. unfold Conversation.incrementUnread_body.
      destruct (Conversation.findUnread u _); reflexivity.
  - unfold Conversation.resetUnread in Hrun.
    assert (Hb : Conversation.isNew (Conversation.resetUnread_body u c) = false).
    { unfold Conversation.resetUnread_body.
      destruct (Conversation.findUnread u _); exact Hold. }
    destruct (save_stored _ _ _ _ Hb Hrun) as [Hc' ->].
    assert (Hid : Conversation._id (Conversation.resetUnread_body u c)
                  = Conversation._id c).
    { unfold Conversation.resetUnread_body.
      destruct (Conversation.findUnread u _); reflexivity. }
    rewrite (total_replace u _ x); rewrite ?Hid; trivial.
    + rewrite Hxp, Hxu.
      unfold Conversation.resetUnread in Hrst. rewrite Hrun in Hrst.
      simpl in Hrst. rewrite <- Hc', Hrst.
      destruct (JS.includes _ u); lia.
    + rewrite Hxp. unfold Conversation.resetUnread_body.
      destruct (Conversation.findUnread u _); reflexivity.
Qed.

(** One unread message for bob in the stored conversation: his total is 1. *)
Lemma X8_total_unread_follows_witness :
  ConversationStatics.getTotalUnreadCount Sample.bob
    (match snd (Conversation.incrementUnread Sample.bob Sample.chat [Sample.chat]) with
     | Ok db' => db'
     | Err _ => []
     end)
  = 1%Z.
Proof.
  destruct (X8_total_unread_follows [Sample.chat]
              (match snd (Conversation.incrementUnread Sample.bob Sample.chat
                            [Sample.chat]) with
               | Ok db' => db'
               | Err _ => []
               end)
              Sample.chat
              (fst (Conversation.incrementUnread Sample.bob Sample.chat
                      [Sample.chat]))
              Sample.bob) as [H _].
  - simpl. constructor; [intros []|constructor].
  - reflexivity.
  - rewrite H; reflexivity.
Defined.

(** ** Message: the stored text *)

Section Trim.

Lemma trimStart_head (s : JS.str) (c : N) (r : JS.str) :
  JS.trimStart s = c :: r -> JS.isWhiteSpace c = false.
Proof.
  induction s as [|x s IH]; simpl; [discriminate|].
  destruct (JS.isWhiteSpace x) eqn:Hx; [exact IH|].
  intros H. inversion H; subst. exact Hx.
Qed.

Lemma trimStart_snoc (l : JS.str) (c : N) :
  JS.isWhiteSpace c = false ->
  JS.trimStart (l ++ [c]) = JS.trimStart l ++ [c].
Proof.
  intros Hc. induction l as [|x l IH]; simpl.
  - now rewrite Hc.
  - destruct (JS.isWhiteSpace x); [exact IH|reflexivity].
Qed.

Lemma trimStart_blank (s : JS.str) :
  forallb JS.isWhiteSpace s = true -> JS.trimStart s = [].
Proof.
  induction s as [|x s IH]; simpl; [reflexivity|].
  destruct (JS.isWhiteSpace x); simpl; [exact IH|discriminate].
Qed.

Lemma trim_blank (s : JS.str) :
  forallb JS.isWhiteSpace s = true -> JS.trim s = [].
Proof.
  intros H. unfold JS.trim, JS.trimEnd. now rewrite (trimStart_blank s H).
Qed.

(** A trimmed text that is not empty starts and ends with a code unit
    that is not white space. *)
Lemma trim_ends (s : JS.str) (c : N) (r : JS.str) :
  JS.trim s = c :: r ->
  JS.isWhiteSpace c = false /\ JS.isWhiteSpace (last (c :: r) c) = false.
Proof.
  unfold JS.trim, JS.trimEnd.
  destruct (JS.trimStart s) as [|c0 r0] eqn:Hs; [discriminate|].
  pose proof (trimStart_head _ _ _ Hs) as Hc0.
  cbn [rev]. rewrite trimStart_snoc by exact Hc0. rewrite rev_app_distr.
  cbn [rev app]. intros H. inversion H; subst c r. split; [exact Hc0|].
  destruct (JS.trimStart (rev r0)) as [|d u] eqn:Hu; [exact Hc0|].
  pose proof (trimStart_head _ _ _ Hu) as Hd.
  cbn [rev]. change (c0 :: rev u ++ [d]) with ((c0 :: rev u) ++ [d]).
  now rewrite last_last.
Qed.
End Trim.

(** X9. [Message.create] of a text message refuses a missing text and a
    text of white space only ([content] required) and leaves the store as
    it is; a message it stores holds the trimmed text, which has 1 to 5000
    code units and neither starts nor ends with white space, has no reader
    and is not deleted, and is added at the end of the store. *)
Theorem X9_create_text_message :
  forall (freshId : ObjectId) (now : Date) (sender conversation : ObjectId)
         (content : option JS.str) (db : Message.Collection),
    let run := Message.create freshId now sender conversation content
                 Message.text db in
    ((content = None
      \/ exists raw, content = Some raw /\ forallb JS.isWhiteSpace raw = true) ->
     snd run = Err (ValidationError "content" "required"))
    /\ (forall db', snd run = Ok db' ->
          exists raw first rest,
            content = Some raw
            /\ JS.trim raw = first :: rest
            /\ Message.content (fst run) = Some (first :: rest)
            /\ JS.isWhiteSpace first = false
            /\ JS.isWhiteSpace (last (first :: rest) first) = false
            /\ (List.length (first :: rest) <= 5000)%nat
            /\ Message.readBy (fst run) = []
            /\ Message.isDeleted (fst run) = false
            /\ db' = db ++ [fst run]).
Proof.
  intros freshId now sender conversation content db run. split.
  - intros [->|(raw & -> & Hblank)]; [reflexivity|].
    subst run. unfold Message.create, Message.save, Message.validate. simpl.
    now rewrite (trim_blank raw Hblank).
  - intros db' Hok.
    destruct run as [m r] eqn:Hrun. simpl in Hok. subst r.
    destruct (create_saved _ _ _ _ _ _ _ _ Hrun)
      as (raw & -> & Hne & Hlen & Hm & Hdb).
    destruct (JS.trim raw) as [|first rest] eqn:Htrim; [contradiction|].
    destruct (trim_ends raw first rest Htrim) as [Hfirst Hlast].
    exists raw, first, rest. simpl. rewrite Hm. simpl.
    repeat split; trivial. now rewrite <- Hm.
Qed.

(** A blank text is refused; the text "  hi there " is stored trimmed. *)
Lemma X9_create_text_message_witness :
  snd (Message.create Sample.hiId 2000%Z Sample.alice Sample.chatId
         (Some (JS.of_ascii "   ")) Message.text [])
  = Err (ValidationError "content" "required")
  /\ exists raw first rest,
       Some (JS.of_ascii "  hi there ") = Some raw
       /\ JS.trim raw = first :: rest
       /\ Message.content
            (fst (Message.create Sample.hiId 2000%Z Sample.alice Sample.chatId
                    (Some (JS.of_ascii "  hi there ")) Message.text []))
          = Some (first :: rest).
Proof.
  split.
  - apply (proj1 (X9_create_text_message Sample.hiId 2000%Z Sample.alice
                    Sample.chatId (Some (JS.of_ascii "   ")) [])).
    right. exists (JS.of_ascii "   "). split; reflexivity.
  - destruct (proj2 (X9_create_text_message Sample.hiId 2000%Z Sample.alice
                       Sample.chatId (Some (JS.of_ascii "  hi there ")) [])
                _ eq_refl)
      as (raw & first & rest & H1 & H2 & H3 & _).
    exists raw, first, rest. split; [exact H1|]. split; [exact H2|exact H3].
Defined.

(** ** Message: edits, read receipts and listings over the store *)

Section MessageStore.
Import Message.

Lemma message_save_stored (this this' : t) (db db' : Collection) :
  isNew this = false ->
  save this db = (this', Ok db') ->
  this' = this
  /\ db' = map (fun d => if String.eqb (_id d) (_id this) then this else d) db.
Proof.
  intros Hold. unfold save, store.
  destruct (validate this); [discriminate|]. rewrite Hold.
  intros H. inversion H; subst. split; [|reflexivity].
  destruct this; simpl in *. now subst.
Qed.

Lemma message_findById_replaced (b : t) (db : Collection) (x : t) :
  isNew b = false ->
  findById (_id b) db = Some x ->
  findById (_id b)
    (map (fun d => if String.eqb (_id d) (_id b) then b else d) db) = Some b.
Proof.
  intros Hold. unfold findById. rewrite find_replaced by reflexivity.
  destruct (find _ db); [|discriminate]. simpl. intros _.
  now rewrite hydrate_old.
Qed.

(** A listing never holds a message of an id whose stored documents are
    all deleted. *)
Lemma recent_skips_deleted (id conversationId : ObjectId) (limit : nat)
    (db : Collection) (l : Listed) :
  (forall d, In d db -> _id d = id -> isDeleted d = true) ->
  In l (getRecentMessages conversationId limit db) ->
  _id (doc l) <> id.
Proof.
  intros Hdel Hin Hid. unfold getRecentMessages in Hin.
  apply in_map_iff in Hin. destruct Hin as (x & <- & Hin).
  apply In_limit, In_sortDesc in Hin.
  apply in_map_iff in Hin. destruct Hin as (d & <- & Hin).
  apply filter_In in Hin. destruct Hin as [Hin Hkeep].
  apply andb_prop in Hkeep. destruct Hkeep as [_ Hlive].
  simpl in Hid. rewrite (Hdel d Hin Hid) in Hlive. discriminate.
Qed.

Lemma message_replace_absent (b : t) (id : ObjectId) (db : Collection) :
  ~ In id (map _id db) ->
  map (fun d => if String.eqb (_id d) id then b else d) db = db.
Proof.
  induction db as [|y db IH]; simpl; [reflexivity|].
  intros Hn. destruct (String.eqb_spec (_id y) id) as [Hy|Hy].
  - exfalso. apply Hn. now left.
  - rewrite IH; [reflexivity|]. intros H. apply Hn. now right.
Qed.

(** Replacing the stored document of an id and counting by a predicate. *)
Lemma count_replace (q : t -> bool) (b x : t) (db : Collection) :
  NoDup (map _id db) ->
  find (fun d => String.eqb (_id d) (_id b)) db = Some x ->
  q b = false ->
  (List.length (filter q (map (fun d => if String.eqb (_id d) (_id b)
                                        then b else d) db))
   + (if q x then 1 else 0)
   = List.length (filter q db))%nat.
Proof.
  intros Hnd Hfind Hqb.
  induction db as [|y db IH]; simpl in *; [discriminate|].
  inversion Hnd as [|? ? Hnotin Hnd']; subst.
  destruct (String.eqb_spec (_id y) (_id b)) as [Hy|Hy].
  - inversion Hfind; subst x.
    rewrite message_replace_absent by now rewrite <- Hy.
    rewrite Hqb. destruct (q y); simpl; lia.
  - specialize (IH Hnd' Hfind). destruct (q y); simpl; lia.
Qed.
End MessageStore.

(** X10. [editMessage] on a stored message that saves sets the content to
    the trimmed new text, the edited flag and the edit time, and the
    stored document follows; it touches neither the read list nor the
    deletion flag, so an edit of a soft-deleted message replaces the
    tombstone text and the message still stays out of
    [getRecentMessages]. *)
Theorem X10_editMessage :
  forall (m m' : Message.t) (newContent : option JS.str) (now : Date)
         (db db' : Message.Collection),
    Message.findById (Message._id m) db = Some m ->
    Message.editMessage newContent now m db = (m', Ok db') ->
    Message.content m' = option_map JS.trim newContent
    /\ Message.isEdited m' = true
    /\ Message.editedAt m' = Some now
    /\ Message.readBy m' = Message.readBy m
    /\ Message.isDeleted m' = Message.isDeleted m
    /\ Message.deletedAt m' = Message.deletedAt m
    /\ Message.findById (Message._id m) db' = Some m'
    /\ (Message.isDeleted m = true ->
        forall conversationId limit l,
          In l (Message.getRecentMessages conversationId limit db') ->
          Message._id (Message.doc l) <> Message._id m).
Proof.
  intros m m' newContent now db db' Hfound Hrun.
  destruct (findById_old _ _ _ Hfound) as [Hold _].
  unfold Message.editMessage in Hrun.
  apply message_save_stored in Hrun; [|exact Hold].
  destruct Hrun as [-> ->]. simpl.
  repeat split.
  - apply (message_findById_replaced
             (Message.set_edited true (Some now)
                (Message.set_content (Message.setter_content newContent) m))
             db m); [exact Hold|exact Hfound].
  - intros Hdel conversationId limit l Hin.
    refine (recent_skips_deleted (Message._id m) conversationId limit _ l _ Hin).
    intros d Hd Hid. apply in_map_iff in Hd. destruct Hd as (y & Hy & _).
    simpl in Hy.
    destruct (String.eqb_spec (Message._id y) (Message._id m)) as [Heq|Hne];
      subst d; [exact Hdel|contradiction].
Qed.

(** Alice corrects her message: the text is trimmed and marked edited. *)
Lemma X10_editMessage_witness :
  exists m' db',
    Message.editMessage (Some (JS.of_ascii " hello bob ")) 1400%Z Sample.hello
      [Sample.hello; Sample.answer] = (m', Ok db')
    /\ Message.content m' = Some (JS.of_ascii "hello bob")
    /\ Message.isEdited m' = true
    /\ Message.findById (Message._id Sample.hello) db' = Some m'.
Proof.
  eexists _, _. split; [reflexivity|].
  destruct (X10_editMessage Sample.hello _ (Some (JS.of_ascii " hello bob "))
              1400%Z [Sample.hello; Sample.answer] _ eq_refl eq_refl)
    as (H1 & H2 & _ & _ & _ & _ & H7 & _).
  split; [exact H1|]. split; [exact H2|exact H7].
Defined.

(** X11. [Message.getUnreadCount(conversationId, u)] counts the messages
    of the conversation that [u] did not send, has not read and that are
    not deleted.  In a store where each id occurs once, after [u] marks a
    stored message read the count is lower by one if the message was
    among them and is the same otherwise; the message then reads as read
    by [u], and as before for any other user. *)
Theorem X11_unread_count_after_read :
  forall (m m' : Message.t) (u : ObjectId) (now : Date)
         (conversationId : ObjectId) (db db' : Message.Collection),
    NoDup (map Message._id db) ->
    Message.findById (Message._id m) db = Some m ->
    Message.markAsRead u now m db = (m', Ok db') ->
    (Message.getUnreadCount conversationId u db'
     + (if String.eqb (Message.conversation m) conversationId
           && negb (String.eqb (Message.sender m) u)
           && negb (Message.isReadBy u m)
           && negb (Message.isDeleted m)
        then 1 else 0)
     = Message.getUnreadCount conversationId u db)%nat
    /\ Message.isReadBy u m' = true
    /\ (forall v, v <> u -> Message.isReadBy v m' = Message.isReadBy v m).
Proof.
  intros m m' u now conversationId db db' Hnd Hfound Hrun.
  destruct (findById_old _ _ _ Hfound) as [Hold _].
  assert (Hb : Message.isNew (Message.markAsRead_body u now m) = false).
  { unfold Message.markAsRead_body. destruct (negb _); exact Hold. }
  assert (Hid : Message._id (Message.markAsRead_body u now m) = Message._id m).
  { unfold Message.markAsRead_body. destruct (negb _); reflexivity. }
  unfold Message.markAsRead in Hrun.
  apply message_save_stored in Hrun; [|exact Hb].
  destruct Hrun as [-> ->].
  unfold Message.findById in Hfound.
  destruct (find _ db) as [x|] eqn:Hfind; [|discriminate].
  simpl in Hfound. assert (Hx : Message.hydrate x = m) by congruence.
  split; [|split].
  - unfold Message.getUnreadCount. rewrite <- Hid in Hfind.
    match goal with
    | |- (List.length (filter ?q _) + _ = _)%nat =>
        pose proof (count_replace q (Message.markAsRead_body u now m) x db
                      Hnd Hfind) as Hcount
    end.
    simpl in Hcount. rewrite <- Hcount.
    + f_equal. rewrite <- Hx. reflexivity.
    + pose proof (markAsRead_body_read u now m) as Hr.
      unfold Message.isReadBy in Hr. rewrite Hr. simpl.
      now rewrite !andb_false_r.
  - apply markAsRead_body_read.
  - intros v Hv. unfold Message.isReadBy, Message.markAsRead_body.
    destruct (negb _); simpl; [|reflexivity].
    rewrite existsb_app. simpl.
    destruct (String.eqb_spec u v); [congruence|]. now rewrite !orb_false_r.
Qed.

(** Bob reads alice's message: it no longer counts as unread for him. *)
Lemma X11_unread_count_after_read_witness :
  Message.getUnreadCount (Conversation._id Sample.chat) Sample.bob
    [Sample.hello; Sample.answer] = 1%nat
  /\ Message.getUnreadCount (Conversation._id Sample.chat) Sample.bob
       (match snd (Message.markAsRead Sample.bob 1300%Z Sample.hello
                     [Sample.hello; Sample.answer]) with
        | Ok db' => db'
        | Err _ => []
        end) = 0%nat.
Proof.
  split; [reflexivity|].
  destruct (X11_unread_count_after_read Sample.hello
              (fst (Message.markAsRead Sample.bob 1300%Z Sample.hello
                      [Sample.hello; Sample.answer]))
              Sample.bob 1300%Z (Conversation._id Sample.chat)
              [Sample.hello; Sample.answer]
              (match snd (Message.markAsRead Sample.bob 1300%Z Sample.hello
                            [Sample.hello; Sample.answer]) with
               | Ok db' => db'
               | Err _ => []
               end))
    as (H & _).
  - simpl. constructor; [simpl; intros [H|[]]; discriminate H|].
    constructor; [intros []|constructor].
  - reflexivity.
  - reflexivity.
  - apply Nat.add_cancel_r with (p := 1%nat). exact H.
Defined.

(** X12. [getRecentMessages(conversationId, limit)] lists stored messages
    of that conversation only, none of them deleted, newest first; with a
    limit above 0 it lists at most that many, and with limit 0 it lists
    every message of the conversation that is not deleted. *)
Theorem X12_getRecentMessages :
  forall (conversationId : ObjectId) (limit : nat) (db : Message.Collection),
    let listed :=
      map Message.doc (Message.getRecentMessages conversationId limit db) in
    (forall m, In m listed ->
       Message.conversation m = conversationId
       /\ Message.isDeleted m = false
       /\ exists d, In d db /\ m = Message.hydrate d)
    /\ StronglySorted (Query.newestFirst Message.createdAt) listed
    /\ (limit <> 0%nat -> (List.length listed <= limit)%nat)
    /\ (limit = 0%nat ->
        List.length listed
        = List.length
            (filter (fun m => String.eqb (Message.conversation m) conversationId
                              && negb (Message.isDeleted m)) db)).
Proof.
  intros conversationId limit db listed.
  assert (Hlisted : listed
    = Query.limit limit
        (Query.sortDesc Message.createdAt
           (map Message.hydrate
              (filter (fun m => String.eqb (Message.conversation m) conversationId
                                && negb (Message.isDeleted m)) db)))).
  { subst listed. unfold Message.getRecentMessages. rewrite map_map. simpl.
    apply map_id. }
  rewrite Hlisted. split; [|split; [|split]].
  - intros m Hm. apply In_limit, In_sortDesc in Hm.
    apply in_map_iff in Hm. destruct Hm as (d & <- & Hd).
    apply filter_In in Hd. destruct Hd as [Hd Hq].
    apply andb_prop in Hq. destruct Hq as [Hc Hl].
    apply String.eqb_eq in Hc. apply negb_true_iff in Hl.
    repeat split; trivial. now exists d.
  - apply StronglySorted_limit, sortDesc_sorted.
  - intros Hpos. destruct limit as [|n]; [contradiction|].
    apply firstn_le_length.
  - intros ->. simpl. now rewrite length_sortDesc, length_map.
Qed.

(** With limit 1 the listing of the sample store is the newest message. *)
Lemma X12_getRecentMessages_witness :
  (List.length
     (map Message.doc
        (Message.getRecentMessages (Conversation._id Sample.chat) 1
           [Sample.hello; Sample.answer])) <= 1)%nat.
Proof.
  destruct (X12_getRecentMessages (Conversation._id Sample.chat) 1
              [Sample.hello; Sample.answer]) as (_ & _ & H & _).
  apply H. discriminate.
Defined.

(** ** Room: members and roles *)

Section RoomMembers.
Import Room.

Lemma find_filter_other (u v : ObjectId) (ms : list Member) :
  v <> u ->
  find (fun m => String.eqb (mb_user m) v)
    (filter (fun m => negb (String.eqb (mb_user m) u)) ms)
  = find (fun m => String.eqb (mb_user m) v) ms.
Proof.
  intros Hvu. induction ms as [|m ms IH]; simpl; [reflexivity|].
  destruct (String.eqb_spec (mb_user m) u) as [Hm|Hm]; simpl.
  - destruct (String.eqb_spec (mb_user m) v); [congruence|exact IH].
  - now rewrite IH.
Qed.

Lemma existsb_find (v : ObjectId) (ms : list Member) :
  existsb (fun m => String.eqb (mb_user m) v) ms
  = match find (fun m => String.eqb (mb_user m) v) ms with
    | Some _ => true
    | None => false
    end.
Proof.
  induction ms as [|m ms IH]; simpl; [reflexivity|].
  destruct (String.eqb (mb_user m) v); [reflexivity|exact IH].
Qed.

Lemma find_filter_self (u : ObjectId) (ms : list Member) :
  find (fun m => String.eqb (mb_user m) u)
    (filter (fun m => negb (String.eqb (mb_user m) u)) ms) = None.
Proof.
  apply find_none_iff. intros m Hm. apply filter_In in Hm.
  destruct Hm as [_ Hm]. now apply negb_true_iff.
Qed.

Lemma save_isAdminOrOwner (v : ObjectId) (this : t) (db : Collection) :
  isAdminOrOwner v (fst (save this db)) = isAdminOrOwner v this.
Proof. unfold isAdminOrOwner. now rewrite save_members. Qed.

Lemma save_isMember (v : ObjectId) (this : t) (db : Collection) :
  isMember v (fst (save this db)) = isMember v this.
Proof. unfold isMember. now rewrite save_members. Qed.
End RoomMembers.

(** X13. [removeMember(u)] never throws, whatever the role of [u]: the
    owner is removed like anyone else.  Afterwards [u] is no member and
    neither admin nor owner, every other user is a member with the role
    they had, the capacity is unchanged and the member count has not
    grown. *)
Theorem X13_removeMember :
  forall (this : Room.t) (u : ObjectId) (db : Room.Collection),
    exists this' saved,
      Room.removeMember u this db = Ok (this', saved)
      /\ Room.isMember u this' = false
      /\ Room.isAdminOrOwner u this' = false
      /\ (forall v, v <> u ->
            Room.isMember v this' = Room.isMember v this
            /\ Room.isAdminOrOwner v this' = Room.isAdminOrOwner v this)
      /\ Room.maxMembers this' = Room.maxMembers this
      /\ (Room.getMemberCount this' <= Room.getMemberCount this)%nat.
Proof.
  intros this u db. unfold Room.removeMember.
  eexists _, _. split; [rewrite (surjective_pairing (Room.save _ db)); reflexivity|].
  split; [|split; [|split; [|split]]].
  - rewrite save_isMember. unfold Room.isMember. simpl.
    now rewrite existsb_find, find_filter_self.
  - rewrite save_isAdminOrOwner. unfold Room.isAdminOrOwner. simpl.
    now rewrite find_filter_self.
  - intros v Hv. rewrite save_isMember, save_isAdminOrOwner.
    unfold Room.isMember, Room.isAdminOrOwner. simpl.
    rewrite !existsb_find. now rewrite find_filter_other.
  - now rewrite save_maxMembers.
  - unfold Room.getMemberCount. rewrite save_members. simpl.
    apply filter_length_le.
Qed.

(** X14. For a member [u], [updateMemberRole(u, role)] returns normally,
    whatever the old and the new role.  Afterwards [u] is admin or owner
    exactly when the new role is one of the two; the users of the member
    list, their order and their join times are unchanged, and so is the
    role of every other user. *)
Theorem X14_updateMemberRole :
  forall (this : Room.t) (u : ObjectId) (newRole : Room.Role)
         (db : Room.Collection),
    Room.isMember u this = true ->
    exists this' saved,
      Room.updateMemberRole u newRole this db = Ok (this', saved)
      /\ Room.isAdminOrOwner u this'
         = match newRole with Room.member => false | _ => true end
      /\ map Room.mb_user (Room.members this')
         = map Room.mb_user (Room.members this)
      /\ map Room.mb_joinedAt (Room.members this')
         = map Room.mb_joinedAt (Room.members this)
      /\ (forall v, v <> u ->
            Room.isAdminOrOwner v this' = Room.isAdminOrOwner v this).
Proof.
  intros this u newRole db Hm. unfold Room.updateMemberRole.
  unfold Room.isMember in Hm. rewrite existsb_find in Hm.
  destruct (find _ (Room.members this)) as [m0|] eqn:Hf; [|discriminate].
  eexists _, _. split; [rewrite (surjective_pairing (Room.save _ db)); reflexivity|].
  rewrite save_members. simpl. split; [|split; [|split]].
  - rewrite save_isAdminOrOwner. unfold Room.isAdminOrOwner. simpl.
    rewrite (find_updateFirst_same Room.mb_user) by reflexivity.
    rewrite Hf. simpl. destruct newRole; reflexivity.
  - apply map_updateFirst_stable. reflexivity.
  - apply map_updateFirst_stable. reflexivity.
  - intros v Hv. rewrite save_isAdminOrOwner. unfold Room.isAdminOrOwner. simpl.
    now rewrite (find_updateFirst_other Room.mb_user) by (reflexivity || exact Hv).
Qed.

(** Bob is made admin of the den; alice stays owner. *)
Lemma X14_updateMemberRole_witness :
  exists this' saved,
    Room.updateMemberRole Sample.bob Room.admin Sample.den [Sample.den]
    = Ok (this', saved)
    /\ Room.isAdminOrOwner Sample.bob this' = true.
Proof.
  destruct (X14_updateMemberRole Sample.den Sample.bob Room.admin [Sample.den]
              eq_refl) as (this' & saved & H1 & H2 & _).
  exists this', saved. split; [exact H1|exact H2].
Defined.

(** X15. Adding a user who is not a member to a room with a free place
    and then removing the user gives back the member list the room had. *)
Theorem X15_add_then_remove :
  forall (this : Room.t) (u : ObjectId) (role : Room.Role) (now : Date)
         (db db' : Room.Collection),
    Room.isMember u this = false ->
    (Z.of_nat (Room.getMemberCount this) < Room.maxMembers this)%Z ->
    exists added saved1 removed saved2,
      Room.addMember u role now this db = Ok (added, saved1)
      /\ Room.isMember u added = true
      /\ Room.removeMember u added db' = Ok (removed, saved2)
      /\ Room.members removed = Room.members this.
Proof.
  intros this u role now db db' Hm Hroom.
  unfold Room.addMember, Room.removeMember.
  unfold Room.isMember in Hm. rewrite Hm.
  unfold Room.getMemberCount in Hroom.
  destruct (Z.leb_spec (Room.maxMembers this)
              (Z.of_nat (List.length (Room.members this)))); [lia|].
  eexists _, _, _, _.
  split; [rewrite (surjective_pairing (Room.save _ db)); reflexivity|].
  split.
  { rewrite save_isMember. unfold Room.isMember. simpl.
    rewrite existsb_app. simpl. rewrite String.eqb_refl.
    now rewrite orb_true_r. }
  split; [rewrite (surjective_pairing (Room.save _ db')); reflexivity|].
  repeat (rewrite save_members; simpl).
  rewrite filter_app. simpl. rewrite String.eqb_refl. simpl.
  rewrite app_nil_r. now apply filter_absent.
Qed.

(** Bob joins the hall and leaves it again. *)
Lemma X15_add_then_remove_witness :
  exists added saved1 removed saved2,
    Room.addMember Sample.bob Room.member 2000%Z Sample.hall [Sample.hall]
    = Ok (added, saved1)
    /\ Room.isMember Sample.bob added = true
    /\ Room.removeMember Sample.bob added [Sample.hall] = Ok (removed, saved2)
    /\ Room.members removed = Room.members Sample.hall.
Proof.
  apply (X15_add_then_remove Sample.hall Sample.bob Room.member 2000%Z
           [Sample.hall] [Sample.hall]).
  - reflexivity.
  - simpl. lia.
Defined.

(** ** Room: creation through the gateway, invite codes *)

Section RoomStore.
Import Room.

Lemma str_eqb_eq (a b : JS.str) : JS.str_eqb a b = true <-> a = b.
Proof.
  unfold JS.str_eqb. destruct (list_eq_dec N.eq_dec a b); split;
    intros H; congruence.
Qed.

(** What passing the unique indexes means. *)
Lemma uniqueIndexes_none (this : t) (db : Collection) :
  uniqueIndexes this db = None ->
  forall d, In d db -> _id d <> _id this ->
    name d <> name this
    /\ (forall code, inviteCode this = Some code -> inviteCode d <> Some code).
Proof.
  unfold uniqueIndexes. intros H d Hd Hid.
  assert (Hother : In d (filter (fun d => negb (String.eqb (_id d) (_id this))) db)).
  { apply filter_In. split; [exact Hd|].
    apply negb_true_iff. now apply String.eqb_neq. }
  destruct (existsb (fun d => JS.str_eqb (name d) (name this)) _) eqn:Hn;
    [discriminate|].
  split.
  - intros Heq. apply (f_equal negb) in Hn. simpl in Hn.
    assert (Ht : existsb (fun d => JS.str_eqb (name d) (name this))
                   (filter (fun d => negb (String.eqb (_id d) (_id this))) db)
                 = true).
    { apply existsb_exists. exists d. split; [exact Hother|].
      now apply str_eqb_eq. }
    rewrite Ht in Hn. discriminate.
  - intros code Hcode Hd'. rewrite Hcode in H.
    destruct (existsb _ _) eqn:Hc in H; [discriminate|].
    assert (Ht : existsb (fun d => match inviteCode d with
                                   | Some c => String.eqb c code
                                   | None => false
                                   end)
                   (filter (fun d => negb (String.eqb (_id d) (_id this))) db)
                 = true).
    { apply existsb_exists. exists d. split; [exact Hother|].
      rewrite Hd'. apply String.eqb_refl. }
    rewrite Ht in Hc. discriminate.
Qed.

Lemma room_findById_old (id : ObjectId) (db : Collection) (r : t) :
  findById id db = Some r -> isNew r = false /\ _id r = id.
Proof.
  unfold findById. destruct (find _ db) as [x|] eqn:Hf; [|discriminate].
  simpl. intros H. inversion H; subst. split; [reflexivity|].
  apply find_some in Hf. destruct Hf as [_ Heq]. simpl.
  now apply String.eqb_eq.
Qed.

Lemma room_hydrate_old (r : t) : isNew r = false -> hydrate r = r.
Proof. destruct r. simpl. now intros ->. Qed.

Lemma room_save_stored (this this' : t) (db db' : Collection) :
  isNew this = false ->
  save this db = (this', Ok db') ->
  this' = this
  /\ uniqueIndexes this db = None
  /\ db' = map (fun d => if String.eqb (_id d) (_id this) then this else d) db.
Proof.
  intros Hold. unfold save, store.
  destruct (uniqueIndexes this db); [discriminate|]. rewrite Hold.
  intros H. inversion H; subst. split; [|split; reflexivity].
  destruct this; simpl in *. now subst.
Qed.

Lemma room_find_replaced (id : ObjectId) (b : t) (db : Collection) :
  _id b = id ->
  find (fun d => String.eqb (_id d) id)
    (map (fun d => if String.eqb (_id d) id then b else d) db)
  = option_map (fun _ => b) (find (fun d => String.eqb (_id d) id) db).
Proof.
  intros Hb. induction db as [|x db IH]; simpl; [reflexivity|].
  destruct (String.eqb (_id x) id) eqn:Hx; simpl.
  - rewrite Hb, String.eqb_refl. reflexivity.
  - rewrite Hx. exact IH.
Qed.
(** Looking a code up after the stored documents of one id were replaced
    by a room that holds the code, no other room holding it. *)
Lemma findByInviteCode_replaced (code : string) (b : t) (db : Collection) :
  inviteCode b = Some code ->
  (forall d, In d db -> _id d <> _id b -> inviteCode d <> Some code) ->
  (exists x, In x db /\ _id x = _id b) ->
  find (fun r => match inviteCode r with
                 | Some c => String.eqb c code
                 | None => false
                 end && isPrivate r && isActive r)
    (map (fun d => if String.eqb (_id d) (_id b) then b else d) db)
  = if isPrivate b && isActive b then Some b else None.
Proof.
  intros Hb Hothers Hin.
  assert (Hmiss : forall d, In d db -> _id d <> _id b ->
            match inviteCode d with
            | Some c => String.eqb c code
            | None => false
            end = false).
  { intros d Hd Hid. specialize (Hothers d Hd Hid).
    destruct (inviteCode d) as [c|]; [|reflexivity].
    apply String.eqb_neq. congruence. }
  destruct (isPrivate b && isActive b) eqn:Hpa.
  - induction db as [|y db IH]; [destruct Hin as (x & [] & _)|]. simpl.
    destruct (String.eqb_spec (_id y) (_id b)) as [Hy|Hy].
    + rewrite Hb, String.eqb_refl. simpl.
      apply andb_prop in Hpa. destruct Hpa as [-> ->]. reflexivity.
    + rewrite (Hmiss y (or_introl eq_refl) Hy). simpl. apply IH.
      * intros d Hd. apply Hothers. now right.
      * destruct Hin as (x & [->|Hx] & Hid); [contradiction|]. now exists x.
      * intros d Hd. apply Hmiss. now right.
  - apply find_none_iff. intros r Hr. apply in_map_iff in Hr.
    destruct Hr as (d & <- & Hd).
    destruct (String.eqb_spec (_id d) (_id b)) as [Hy|Hy].
    + rewrite Hb, String.eqb_refl. simpl.
      destruct (isPrivate b); simpl in *; [exact Hpa|reflexivity].
    + now rewrite (Hmiss d Hd Hy).
Qed.
End RoomStore.

(** X16. [room:create] either stores a room and replies with it, or
    replies with the error and changes nothing.  A stored room has the
    trimmed name, of 1 to 100 code units and borne by no other room, the
    creator as its only member, with role owner, capacity 100, no invite
    code (also when it is private), and is active; it is added to the
    store and its creator is subscribed to its channel.  The errors are
    validation errors and the duplicate name. *)
Theorem X16_room_create :
  forall (w : Socket.World) (userId : ObjectId) (name description : option JS.str)
         (isPrivate : bool) (freshId : ObjectId) (now : Date),
    match Socket.room_create userId name description isPrivate freshId now w with
    | (Socket.Success room, w') =>
        Room.name room = JS.trim (match name with Some n => n | None => [] end)
        /\ (1 <= List.length (Room.name room) <= 100)%nat
        /\ (forall d, In d (Socket.rooms w) ->
              Room._id d <> freshId -> Room.name d <> Room.name room)
        /\ Room.members room = [Room.mkMember userId Room.owner now]
        /\ Room.maxMembers room = 100%Z
        /\ Room.inviteCode room = None
        /\ Room.isPrivate room = isPrivate
        /\ Room.isActive room = true
        /\ Socket.rooms w' = Socket.rooms w ++ [room]
        /\ Socket.joined w'
           = Socket.joined w ++ [(userId, ("room:" ++ freshId)%string)]
        /\ Socket.messages w' = Socket.messages w
        /\ Socket.conversations w' = Socket.conversations w
    | (Socket.Failed e, w') =>
        w' = w
        /\ ((exists path kind, e = ValidationError path kind)
            \/ e = DuplicateKey "name")
    | (Socket.NotAuthorized, _) => False
    end.
Proof.
  intros w userId name description isPrivate freshId now.
  unfold Socket.room_create, Socket.tryCatch, Socket.bind, Socket.onRooms,
    Room.create.
  set (this := Room.mk freshId _ userId isPrivate _ None _ 100 Room.general
                 true now true).
  destruct (Room.validate this) as [e|] eqn:Hv.
  - split; [reflexivity|]. left. unfold Room.validate in Hv. simpl in Hv.
    destruct (List.length _ =? 0)%nat; [inversion Hv; eauto|].
    destruct (100 <? List.length _)%nat; [inversion Hv; eauto|].
    destruct (option_map JS.trim description) as [d|]; [|discriminate].
    destruct (500 <? List.length d)%nat; [inversion Hv; eauto|discriminate].
  - unfold Room.save.
    destruct (Room.uniqueIndexes this (Socket.rooms w)) as [e|] eqn:Hu.
    + split; [reflexivity|]. unfold Room.uniqueIndexes in Hu. simpl in Hu.
      destruct (existsb _ _); [inversion Hu; auto|discriminate].
    + simpl. unfold Room.validate in Hv. simpl in Hv.
      destruct (Nat.eqb_spec (List.length (JS.trim
                  (match name with Some n => n | None => [] end))) 0);
        [discriminate|].
      destruct (Nat.ltb_spec 100 (List.length (JS.trim
                  (match name with Some n => n | None => [] end))));
        [discriminate|].
      repeat split; try lia.
      intros d Hd Hid.
      exact (proj1 (uniqueIndexes_none this (Socket.rooms w) Hu d Hd Hid)).
Qed.

(** X17. [generateInviteCode] draws once and does not try again: when
    another room of the store already holds the code drawn, the save is
    refused, while the room in memory carries the new code.  When the save
    of a stored room goes through, [findByInviteCode] of the code returns
    that room if it is private and active, and nothing otherwise. *)
Theorem X17_invite_code_lookup :
  forall (random : nat -> Q) (this : Room.t) (db : Room.Collection),
    let code := Room.inviteLoop random 0 8 "" in
    let run := Room.generateInviteCode random this db in
    ((exists d, In d db /\ Room._id d <> Room._id this
                /\ Room.inviteCode d = Some code) ->
     (exists e, snd run = Err e)
     /\ Room.inviteCode (fst run) = Some code)
    /\ (Room.findById (Room._id this) db = Some this ->
        forall db', snd run = Ok db' ->
          Room.inviteCode (fst run) = Some code
          /\ Room.findById (Room._id this) db' = Some (fst run)
          /\ Room.findByInviteCode code db'
             = if Room.isPrivate this && Room.isActive this
               then Some (fst run) else None).
Proof.
  intros random this db code run. split.
  - intros (d & Hd & Hid & Hcode). subst run.
    unfold Room.generateInviteCode. fold code. unfold Room.save.
    destruct (Room.uniqueIndexes _ db) as [e|] eqn:Hu.
    + split; [now exists e|reflexivity].
    + exfalso.
      destruct (uniqueIndexes_none _ db Hu d Hd Hid) as [_ H].
      exact (H code eq_refl Hcode).
  - intros Hfound db' Hok.
    destruct (room_findById_old _ _ _ Hfound) as [Hold _].
    destruct run as [this' r] eqn:Hrun. simpl in Hok. subst r. subst run.
    unfold Room.generateInviteCode in Hrun. fold code in Hrun.
    apply room_save_stored in Hrun; [|exact Hold].
    destruct Hrun as (-> & Hu & ->). simpl.
    split; [reflexivity|]. split.
    + unfold Room.findById in *. rewrite room_find_replaced by reflexivity.
      destruct (find _ db); [|discriminate]. simpl.
      now rewrite room_hydrate_old.
    + unfold Room.findByInviteCode.
      assert (Hin : exists x, In x db /\ Room._id x = Room._id this).
      { unfold Room.findById in Hfound.
        destruct (find _ db) as [x|] eqn:Hf; [|discriminate].
        apply find_some in Hf. exists x. split; [tauto|].
        now apply String.eqb_eq. }
      assert (Hothers : forall d, In d db -> Room._id d <> Room._id this ->
                Room.inviteCode d <> Some code).
      { intros d Hd Hid.
        destruct (uniqueIndexes_none _ db Hu d Hd Hid) as [_ H].
        exact (H code eq_refl). }
      pose proof (findByInviteCode_replaced code
                    (Room.set_inviteCode (Some code) this) db eq_refl
                    Hothers Hin) as Hlookup.
      simpl in Hlookup. rewrite Hlookup.
      destruct (Room.isPrivate this && Room.isActive this); [|reflexivity].
      simpl. now rewrite room_hydrate_old.
Qed.

(** The den is private and active: after a draw that saves, the code
    leads back to it. *)
Lemma X17_invite_code_lookup_witness :
  Room.findByInviteCode "O0I1O0I1"
    (match snd (Room.generateInviteCode Sample.dice Sample.den [Sample.den]) with
     | Ok db' => db'
     | Err _ => []
     end)
  = Some (fst (Room.generateInviteCode Sample.dice Sample.den [Sample.den])).
Proof.
  destruct (X17_invite_code_lookup Sample.dice Sample.den [Sample.den])
    as [_ H].
  destruct (H eq_refl _ eq_refl) as (_ & _ & Hlookup).
  exact Hlookup.
Defined.

(** ** Room listings *)

(** X18. [findPublicRooms(limit)] and [findByCategory(category, limit)]
    list stored rooms that are public and active only, by last activity,
    newest first, at most [limit] of them when the limit is above 0;
    [findByCategory] lists rooms of that category only, and
    [findPublicRooms] returns every room without its invite code. *)
Theorem X18_public_listings :
  forall (cat : Room.Category) (limit : nat) (db : Room.Collection),
    let public := Room.findPublicRooms limit db in
    let byCategory := Room.findByCategory cat limit db in
    (forall r, In r public ->
       Room.isPrivate r = false /\ Room.isActive r = true
       /\ Room.inviteCode r = None
       /\ exists d, In d db /\ Room._id r = Room._id d
                    /\ Room.members r = Room.members d)
    /\ (forall r, In r byCategory ->
          Room.isPrivate r = false /\ Room.isActive r = true
          /\ Room.category r = cat
          /\ exists d, In d db /\ Room._id r = Room._id d
                       /\ Room.members r = Room.members d)
    /\ StronglySorted (Query.newestFirst Room.lastActivity) public
    /\ StronglySorted (Query.newestFirst Room.lastActivity) byCategory
    /\ (limit <> 0%nat ->
        (List.length public <= limit)%nat
        /\ (List.length byCategory <= limit)%nat).
Proof.
  intros cat limit db public byCategory.
  subst public byCategory. unfold Room.findPublicRooms, Room.findByCategory.
  split; [|split; [|split; [|split]]].
  - intros r Hr. apply in_map_iff in Hr. destruct Hr as (x & <- & Hx).
    apply In_limit, In_sortDesc in Hx.
    apply in_map_iff in Hx. destruct Hx as (d & <- & Hd).
    apply filter_In in Hd. destruct Hd as [Hd Hq].
    apply andb_prop in Hq. destruct Hq as [Hp Ha].
    apply negb_true_iff in Hp. simpl. repeat split; trivial. now exists d.
  - intros r Hr. apply In_limit, In_sortDesc in Hr.
    apply in_map_iff in Hr. destruct Hr as (d & <- & Hd).
    apply filter_In in Hd. destruct Hd as [Hd Hq].
    apply andb_prop in Hq. destruct Hq as [Hq Ha].
    apply andb_prop in Hq. destruct Hq as [Hc Hp].
    apply negb_true_iff in Hp. simpl. repeat split; trivial.
    + destruct (Room.category d), cat; simpl in Hc; congruence.
    + now exists d.
  - apply (StronglySorted_map (Query.newestFirst Room.lastActivity));
      [intros a b H; exact H|].
    apply StronglySorted_limit, sortDesc_sorted.
  - apply StronglySorted_limit, sortDesc_sorted.
  - intros Hpos. destruct limit as [|n]; [contradiction|].
    rewrite length_map. split; apply firstn_le_length.
Qed.

(** With limit 1 each listing of the sample rooms holds one room at most. *)
Lemma X18_public_listings_witness :
  (List.length (Room.findPublicRooms 1 [Sample.den; Sample.hall]) <= 1)%nat
  /\ (List.length (Room.findByCategory Room.general 1 [Sample.den; Sample.hall])
      <= 1)%nat.
Proof.
  destruct (X18_public_listings Room.general 1 [Sample.den; Sample.hall])
    as (_ & _ & _ & _ & H).
  apply H. discriminate.
Defined.

(** X19. [findUserRooms(userId)] lists exactly the stored rooms that are
    active and hold the user as a member, by last activity, newest first;
    the [room:list] handler answers with the rooms of the same ids in the
    same order and changes nothing. *)
Theorem X19_rooms_of_a_user :
  forall (userId : ObjectId) (w : Socket.World),
    let listed := Room.findUserRooms userId (Socket.rooms w) in
    (forall r, In r listed <->
       exists d, In d (Socket.rooms w) /\ r = Room.hydrate d
                 /\ Room.isMember userId d = true
                 /\ Room.isActive d = true)
    /\ StronglySorted (Query.newestFirst Room.lastActivity) listed
    /\ exists answered,
         Socket.room_list userId w = (Socket.Success answered, w)
         /\ map Room._id answered = map Room._id listed
         /\ StronglySorted (Query.newestFirst Room.lastActivity) answered.
Proof.
  intros userId w listed. subst listed. unfold Room.findUserRooms.
  split; [|split; [apply sortDesc_sorted|]].
  - intros r. rewrite In_sortDesc, in_map_iff. split.
    + intros (d & <- & Hd). apply filter_In in Hd. destruct Hd as [Hd Hq].
      apply andb_prop in Hq. exists d. unfold Room.isMember. tauto.
    + intros (d & Hd & -> & Hm & Ha). exists d. split; [reflexivity|].
      apply filter_In. split; [exact Hd|].
      unfold Room.isMember in Hm. now rewrite Hm, Ha.
  - eexists. split; [reflexivity|]. split; [reflexivity|apply sortDesc_sorted].
Qed.

(** ** Gateway: sending in a room, and sends that do not go through *)

(** X20. A successful [message:send:room] was sent by a member of a stored
    room; it stores the message with the room id as its parent and the
    trimmed text, sets the room's last activity to the time of the update,
    and pushes the message to the room's channel.  It leaves the member
    list and the conversations untouched. *)
Theorem X20_send_room :
  forall (w w' : Socket.World) (userId roomId : ObjectId)
         (content : option JS.str) (freshId : ObjectId)
         (tCreate tUpdate : Date) (message : Message.t),
    Socket.message_send_room userId roomId content freshId tCreate tUpdate w
    = (Socket.Success message, w') ->
    exists before after text,
      Room.findById roomId (Socket.rooms w) = Some before
      /\ Room.isMember userId before = true
      /\ content = Some text
      /\ message = Message.mk freshId userId roomId (Some (JS.trim text))
                     Message.text [] [] false None false None None tCreate false
      /\ Socket.messages w' = Socket.messages w ++ [message]
      /\ Room.findById roomId (Socket.rooms w') = Some after
      /\ Room.lastActivity after = tUpdate
      /\ Room.members after = Room.members before
      /\ Socket.conversations w' = Socket.conversations w
      /\ Socket.emitted w'
         = Socket.emitted w
           ++ [Socket.MessageNew ("room:" ++ roomId) message].
Proof.
  intros w w' userId roomId content freshId tCreate tUpdate message.
  unfold Socket.message_send_room, Socket.tryCatch, Socket.bind.
  destruct (Room.findById roomId (Socket.rooms w)) as [before|] eqn:Hfound;
    [|discriminate].
  destruct (Room.isMember userId before) eqn:Hmem; simpl; [|discriminate].
  unfold Socket.onMessages.
  destruct (Message.create freshId tCreate userId roomId content
              Message.text (Socket.messages w)) as [m [mdb|e]] eqn:Hcreate;
    [|discriminate].
  destruct (create_saved _ _ _ _ _ _ _ _ Hcreate)
    as (text & -> & _ & _ & Hm & Hmdb).
  destruct (room_findById_old _ _ _ Hfound) as [Hold Hid].
  unfold Socket.onRooms, Room.updateActivity. simpl.
  destruct (Room.save (Room.set_lastActivity tUpdate before) (Socket.rooms w))
    as [after [rdb|e]] eqn:Hsave; [|discriminate].
  apply room_save_stored in Hsave; [|exact Hold].
  destruct Hsave as (-> & _ & ->). simpl.
  intros H. inversion H; subst message w'; clear H.
  exists before, (Room.set_lastActivity tUpdate before), text.
  simpl. repeat split; trivial.
  unfold Room.findById in *. rewrite Hid.
  rewrite room_find_replaced by exact Hid.
  destruct (find _ (Socket.rooms w)); [|discriminate]. simpl.
  now rewrite room_hydrate_old.
Qed.

(** Bob writes in the den. *)
Lemma X20_send_room_witness :
  exists after,
    Room.findById (Room._id Sample.den)
      (Socket.rooms
         (snd (Socket.message_send_room Sample.bob (Room._id Sample.den)
                 (Some (JS.of_ascii "hi all")) Sample.hiId 2000%Z 2001%Z
                 Demo.world)))
    = Some after
    /\ Room.lastActivity after = 2001%Z.
Proof.
  destruct (X20_send_room Demo.world
              (snd (Socket.message_send_room Sample.bob (Room._id Sample.den)
                      (Some (JS.of_ascii "hi all")) Sample.hiId 2000%Z 2001%Z
                      Demo.world))
              Sample.bob (Room._id Sample.den) (Some (JS.of_ascii "hi all"))
              Sample.hiId 2000%Z 2001%Z
              (Message.mk Sample.hiId Sample.bob (Room._id Sample.den)
                 (Some (JS.of_ascii "hi all")) Message.text [] [] false None
                 false None None 2000%Z false))
    as (before & after & text & _ & _ & _ & _ & _ & Ha & Ht & _).
  - reflexivity.
  - exists after. split; [exact Ha|exact Ht].
Defined.

(** The cast of an id in the text that [toString()] renders is that id. *)
Lemma lowerHexDigit_fixed (c : ascii) :
  JS.isLowerHexDigit c = true ->
  JS.isHexDigit c = true /\ JS.lowerHexDigit c = c.
Proof.
  unfold JS.isLowerHexDigit, JS.isHexDigit, JS.lowerHexDigit.
  cbv zeta. intros H. split.
  - rewrite H. reflexivity.
  - destruct (Nat.leb_spec 65 (nat_of_ascii c)) as [H65|H65];
      [|reflexivity].
    destruct (Nat.leb_spec (nat_of_ascii c) 70) as [H70|H70];
      [|reflexivity].
    exfalso. apply Bool.orb_true_iff in H.
    destruct H as [H|H]; apply Bool.andb_true_iff in H; destruct H as [H1 H2];
      apply Nat.leb_le in H1; apply Nat.leb_le in H2; lia.
Qed.

Lemma castObjectId_canonical (text : string) :
  JS.isObjectIdText text = true -> JS.castObjectId text = Some text.
Proof.
  unfold JS.isObjectIdText, JS.castObjectId. intros H.
  apply Bool.andb_true_iff in H. destruct H as [Hlen Hall]. rewrite Hlen.
  assert (Hboth : forallb JS.isHexDigit (list_ascii_of_string text) = true
                  /\ map JS.lowerHexDigit (list_ascii_of_string text)
                     = list_ascii_of_string text).
  { clear Hlen. induction (list_ascii_of_string text) as [|c l IH];
      simpl in *; [now split|].
    apply Bool.andb_true_iff in Hall. destruct Hall as [Hc Hl].
    destruct (lowerHexDigit_fixed c Hc) as [Hh Hf].
    destruct (IH Hl) as [IH1 IH2]. rewrite Hh, Hf, IH1, IH2. now split. }
  destruct Hboth as [-> ->]. simpl.
  now rewrite string_of_list_ascii_of_string.
Qed.

(** X21. The send handlers are called with the id as the client sent it,
    and the lookup casts it; the caller's id is the one the handshake
    stored.  For ids in the text that [toString()] renders (24
    hexadecimal digits, lower case) the cast is the id itself, and then:
    a send for a conversation id that is not in the
    store is answered with the message of a [TypeError], not with "Not
    authorized"; a send by a user who is not a participant, and a room
    send for an unknown room or by a user who is not a member, are
    answered "Not authorized".  None of them changes the store, the
    subscriptions or the pushed events. *)
Theorem X21_refused_sends :
  forall (w : Socket.World) (userId id : ObjectId) (content : option JS.str)
         (freshId : ObjectId) (tCreate tUpdate : Date),
    JS.isObjectIdText userId = true ->
    JS.isObjectIdText id = true ->
    JS.castObjectId id = Some id
    /\ (Conversation.findById id (Socket.conversations w) = None ->
     Socket.message_send_conversation userId id content freshId tCreate tUpdate w
     = (Socket.Failed
          (TypeError "Cannot read properties of null (reading 'participants')"),
        w))
    /\ (forall c,
          Conversation.findById id (Socket.conversations w) = Some c ->
          ~ In userId (Conversation.participants c) ->
          Socket.message_send_conversation userId id content freshId tCreate
            tUpdate w = (Socket.NotAuthorized, w))
    /\ (Room.findById id (Socket.rooms w) = None ->
        Socket.message_send_room userId id content freshId tCreate tUpdate w
        = (Socket.NotAuthorized, w))
    /\ (forall r,
          Room.findById id (Socket.rooms w) = Some r ->
          Room.isMember userId r = false ->
          Socket.message_send_room userId id content freshId tCreate tUpdate w
          = (Socket.NotAuthorized, w)).
Proof.
  intros w userId id content freshId tCreate tUpdate _ Hid.
  split; [now apply castObjectId_canonical|].
  unfold Socket.message_send_conversation, Socket.message_send_room,
    Socket.tryCatch, Socket.bind.
  split; [|split; [|split]].
  - now intros ->.
  - intros c -> Hn.
    destruct (JS.includes (Conversation.participants c) userId) eqn:Hi;
      [|reflexivity].
    apply includes_In in Hi. contradiction.
  - now intros ->.
  - now intros r -> ->.
Qed.

(** Carol is no party to the sample conversation and no member of the den;
    an id that is not stored gives the [TypeError] answer. *)
Lemma X21_refused_sends_witness :
  Socket.message_send_conversation Sample.carol (Conversation._id Sample.chat)
    (Some (JS.of_ascii "hi")) Sample.hiId 2000%Z 2001%Z Demo.world
  = (Socket.NotAuthorized, Demo.world)
  /\ Socket.message_send_room Sample.carol (Room._id Sample.den)
       (Some (JS.of_ascii "hi")) Sample.hiId 2000%Z 2001%Z Demo.world
     = (Socket.NotAuthorized, Demo.world)
  /\ Socket.message_send_conversation Sample.alice Sample.chatId
       (Some (JS.of_ascii "hi")) Sample.hiId 2000%Z 2001%Z Demo.world
     = (Socket.Failed
          (TypeError "Cannot read properties of null (reading 'participants')"),
        Demo.world).
Proof.
  split; [|split].
  - destruct (X21_refused_sends Demo.world Sample.carol
                (Conversation._id Sample.chat) (Some (JS.of_ascii "hi"))
                Sample.hiId 2000%Z 2001%Z eq_refl eq_refl) as (_ & _ & H & _).
    apply (H Sample.chat); [reflexivity|].
    simpl. intros [H1|[H1|[]]]; discriminate H1.
  - destruct (X21_refused_sends Demo.world Sample.carol (Room._id Sample.den)
                (Some (JS.of_ascii "hi")) Sample.hiId 2000%Z 2001%Z eq_refl
                eq_refl)
      as (_ & _ & _ & _ & H).
    apply (H Sample.den); reflexivity.
  - destruct (X21_refused_sends Demo.world Sample.alice Sample.chatId
                (Some (JS.of_ascii "hi")) Sample.hiId 2000%Z 2001%Z eq_refl
                eq_refl)
      as (_ & H & _).
    apply H. reflexivity.
Defined.

(** X22. A conversation send that does not succeed pushes no event and
    changes no conversation, room or subscription.  The message store is
    unchanged as well, except when the stored conversation does not have
    exactly two participants: then the message has been stored before the
    save of the conversation is refused, and the sender is answered with
    that error. *)
Theorem X22_failed_send_conversation :
  forall (w w' : Socket.World) (userId conversationId : ObjectId)
         (content : option JS.str) (freshId : ObjectId)
         (tCreate tUpdate : Date) (reply : Socket.Reply Message.t),
    Socket.message_send_conversation userId conversationId content freshId
      tCreate tUpdate w = (reply, w') ->
    (forall message, reply <> Socket.Success message) ->
    Socket.conversations w' = Socket.conversations w
    /\ Socket.rooms w' = Socket.rooms w
    /\ Socket.joined w' = Socket.joined w
    /\ Socket.emitted w' = Socket.emitted w
    /\ (Socket.messages w' = Socket.messages w
        \/ exists c m,
             Conversation.findById conversationId (Socket.conversations w)
             = Some c
             /\ List.length (Conversation.participants c) <> 2%nat
             /\ Socket.messages w' = Socket.messages w ++ [m]
             /\ Message.sender m = userId
             /\ reply = Socket.Failed
                          (Thrown "Conversation must have exactly 2 participants")).
Proof.
  intros w w' userId conversationId content freshId tCreate tUpdate reply.
  unfold Socket.message_send_conversation, Socket.tryCatch, Socket.bind.
  destruct (Conversation.findById conversationId (Socket.conversations w))
    as [c|] eqn:Hfound.
  2:{ intros H _. inversion H; subst. auto 6. }
  destruct (JS.includes (Conversation.participants c) userId); simpl.
  2:{ intros H _. inversion H; subst. auto 6. }
  unfold Socket.onMessages.
  destruct (Message.create freshId tCreate userId conversationId content
              Message.text (Socket.messages w)) as [m [mdb|e]] eqn:Hcreate.
  2:{ intros H _. inversion H; subst. auto 6. }
  destruct (create_saved _ _ _ _ _ _ _ _ Hcreate)
    as (text & -> & _ & _ & Hm & Hmdb).
  destruct (conversation_findById_old _ _ _ Hfound) as [Hold _].
  unfold Socket.onConversations, Conversation.updateLastMessage,
    Conversation.save, Conversation.pre_save. simpl. rewrite Hold.
  destruct (Nat.eqb_spec (List.length (Conversation.participants c)) 2)
    as [H2|H2]; simpl.
  - intros H Hfail. inversion H; subst reply. exfalso. now apply (Hfail m).
  - intros H _. inversion H; subst reply w'; clear H. simpl.
    repeat split. right. exists c, m. rewrite Hmdb.
    repeat split; trivial. now rewrite Hm.
Qed.

(** A blank text: the answer is the validation error and nothing moved. *)
Lemma X22_failed_send_conversation_witness :
  Socket.messages
    (snd (Socket.message_send_conversation Sample.alice
            (Conversation._id Sample.chat) (Some (JS.of_ascii "  "))
            Sample.hiId 2000%Z 2001%Z Demo.world))
  = Socket.messages Demo.world
  /\ Socket.emitted
       (snd (Socket.message_send_conversation Sample.alice
               (Conversation._id Sample.chat) (Some (JS.of_ascii "  "))
               Sample.hiId 2000%Z 2001%Z Demo.world))
     = Socket.emitted Demo.world.
Proof.
  destruct (X22_failed_send_conversation Demo.world
              (snd (Socket.message_send_conversation Sample.alice
                      (Conversation._id Sample.chat) (Some (JS.of_ascii "  "))
                      Sample.hiId 2000%Z 2001%Z Demo.world))
              Sample.alice (Conversation._id Sample.chat)
              (Some (JS.of_ascii "  ")) Sample.hiId 2000%Z 2001%Z
              (Socket.Failed (ValidationError "content" "required")))
    as (_ & _ & _ & He & Hm).
  - reflexivity.
  - discriminate.
  - split; [|exact He].
    destruct Hm as [Hm|(c & m & _ & _ & _ & _ & Hr)]; [exact Hm|discriminate Hr].
Defined.

(** ** Gateway: joining a room, starting a conversation *)

Section JoinRoomFacts.
Variable inspect : User.t -> string.

Lemma isMember_populated_never (users : User.Collection) (userId : ObjectId)
    (ms : list Room.Member) :
  (forall u, In u users -> inspect u <> userId) ->
  JoinRoom.isMember_populated inspect users userId ms <> Ok true.
Proof.
  intros Hrender. induction ms as [|m ms IH]; simpl; [discriminate|].
  destruct (User.findById (Room.mb_user m) users) as [u|] eqn:Hu;
    [|discriminate].
  unfold User.findById in Hu. apply find_some in Hu. destruct Hu as [Hu _].
  destruct (String.eqb_spec (inspect u) userId) as [Heq|_]; [|exact IH].
  exfalso. exact (Hrender u Hu Heq).
Qed.
End JoinRoomFacts.

(** X23. [room:join] tests membership on a room whose members are
    populated, so it compares the rendering of each member's user document
    with the id of the caller.  When no user document renders as the
    caller's id the handler never succeeds, members included: it answers
    with the [CastError] of the lookup exactly when the room id sent is no
    ObjectId text, and otherwise "Not authorized" or the [TypeError] of a
    member whose user is gone; it changes nothing. *)
Theorem X23_room_join_never_succeeds :
  forall (inspect : User.t -> string) (users : User.Collection)
         (userId : ObjectId) (roomId : string) (w : Socket.World),
    (forall u, In u users -> inspect u <> userId) ->
    exists reply,
      JoinRoom.room_join inspect users userId roomId w = (reply, w)
      /\ (reply = Socket.NotAuthorized
          \/ reply = Socket.Failed
               (TypeError "Cannot read properties of null (reading 'toString')")
          \/ reply = Socket.Failed (CastError "_id"))
      /\ (reply = Socket.Failed (CastError "_id")
          <-> JS.castObjectId roomId = None).
Proof.
  intros inspect users userId roomId w Hrender.
  unfold JoinRoom.room_join, Socket.tryCatch.
  destruct (JS.castObjectId roomId) as [id|].
  2:{ eexists. split; [reflexivity|]. split; [auto|]. now split. }
  unfold Socket.bind.
  destruct (Room.findById id (Socket.rooms w)) as [room|].
  2:{ eexists. split; [reflexivity|]. split; [auto|].
      split; discriminate. }
  pose proof (isMember_populated_never inspect users userId
                (Room.members room) Hrender) as Hnever.
  assert (Hshape : forall ms,
            JoinRoom.isMember_populated inspect users userId ms = Ok true
            \/ JoinRoom.isMember_populated inspect users userId ms = Ok false
            \/ JoinRoom.isMember_populated inspect users userId ms
               = Err (TypeError "Cannot read properties of null (reading 'toString')")).
  { induction ms as [|m ms IH]; simpl; [auto|].
    destruct (User.findById (Room.mb_user m) users); [|auto].
    destruct (String.eqb (inspect t) userId); auto. }
  destruct (Hshape (Room.members room)) as [H|[H|H]]; [contradiction| |];
    rewrite H; simpl; eexists;
    (split; [reflexivity|split; [auto|split; discriminate]]).
Qed.

(** Bob is a member of the den, and his join is answered "Not authorized";
    a room id that is no ObjectId text is answered with the [CastError]. *)
Lemma X23_room_join_never_succeeds_witness :
  Room.isMember Sample.bob Sample.den = true
  /\ JoinRoom.room_join Demo.render Demo.users Sample.bob (Room._id Sample.den)
       Demo.world = (Socket.NotAuthorized, Demo.world)
  /\ JoinRoom.room_join Demo.render Demo.users Sample.bob "den" Demo.world
     = (Socket.Failed (CastError "_id"), Demo.world).
Proof.
  assert (Hrender : forall u, In u Demo.users -> Demo.render u <> Sample.bob).
  { intros u [<-|[<-|[]]]; discriminate. }
  split; [reflexivity|]. split.
  - destruct (X23_room_join_never_succeeds Demo.render Demo.users Sample.bob
                (Room._id Sample.den) Demo.world Hrender)
      as (reply & Hrun & _ & _).
    rewrite Hrun. vm_compute in Hrun. inversion Hrun. reflexivity.
  - destruct (X23_room_join_never_succeeds Demo.render Demo.users Sample.bob
                "den" Demo.world Hrender) as (reply & Hrun & _ & Hcast).
    rewrite Hrun. f_equal. apply Hcast. reflexivity.
Defined.

Section StartConversation.
Import Conversation.

Lemma findOrCreate_total (freshId : ObjectId) (now : Date) (a b : ObjectId)
    (db : Collection) :
  exists c db',
    findOrCreate freshId now a b db = Ok (c, db')
    /\ In a (participants c) /\ In b (participants c)
    /\ hydrate c = c.
Proof.
  destruct (find (matchesAllSize2 (JS.sort2 a b)) db) as [x|] eqn:Hf.
  - exists (hydrate x), db. split; [now apply findOrCreate_found|].
    apply find_some in Hf. destruct Hf as [_ Hm]. apply matches_pair in Hm.
    simpl. tauto.
  - destruct (findOrCreate_created freshId now a b db Hf)
      as (c & Hrun & Hps & Hhy & _).
    exists c, (db ++ [c]). split; [exact Hrun|]. rewrite Hps.
    destruct (sort2_cases a b) as [-> | ->]; simpl; tauto.
Qed.
End StartConversation.

Lemma conversation_start_run (w : Socket.World)
    (userId otherUserId freshId : ObjectId) (now : Date)
    (c : Conversation.t) (db' : Conversation.Collection) :
  Conversation.findOrCreate freshId now userId otherUserId
    (Socket.conversations w) = Ok (c, db') ->
  Socket.conversation_start userId otherUserId freshId now w
  = (Socket.Success
       (c, Query.limit 50
             (Query.sortAsc Message.createdAt
                (map Message.hydrate
                   (filter (fun m => String.eqb (Message.conversation m)
                                       (Conversation._id c))
                      (Socket.messages w))))),
     Socket.mkWorld db' (Socket.messages w) (Socket.rooms w)
       (Socket.joined w ++ [(userId, ("conversation:" ++ Conversation._id c)%string)])
       (Socket.emitted w)).
Proof.
  intros Hrun.
  unfold Socket.conversation_start, Socket.tryCatch, Socket.bind, Socket.join,
    Socket.ret.
  rewrite Hrun. reflexivity.
Qed.

Lemma length_sortAsc {A : Type} (key : A -> Z) (l : list A) :
  List.length (Query.sortAsc key l) = List.length l.
Proof.
  induction l as [|x l IH]; simpl; [reflexivity|]. rewrite <- IH.
  generalize (Query.sortAsc key l). intros s.
  induction s as [|y s IHs]; simpl; [reflexivity|].
  destruct (key x <? key y)%Z; simpl; congruence.
Qed.

(** X24. [conversation:start] is called with the other user's id as the
    client sent it, and the query casts it; the caller's id is the one the
    handshake stored.  For ids in the text that [toString()] renders (24
    hexadecimal digits, lower case) the cast is the id itself, and the
    handler then
    answers with a conversation that holds the caller and the other user,
    and subscribes the caller to its channel.  The conversation is a
    record of the store afterwards: the first stored record with the two
    as its two participants when there is one, the store being left as it
    is, and otherwise a record made of the sorted pair and added to the
    store.  The messages it answers with are stored messages of that
    conversation, oldest first, at most 50, soft-deleted ones included;
    the message store, the rooms and the pushed events are not changed. *)
Theorem X24_conversation_start :
  forall (w : Socket.World) (userId otherUserId freshId : ObjectId) (now : Date),
    JS.isObjectIdText userId = true ->
    JS.isObjectIdText otherUserId = true ->
    JS.castObjectId otherUserId = Some otherUserId
    /\ exists c messages w',
      Socket.conversation_start userId otherUserId freshId now w
      = (Socket.Success (c, messages), w')
      /\ In userId (Conversation.participants c)
      /\ In otherUserId (Conversation.participants c)
      /\ Socket.joined w'
         = Socket.joined w ++ [(userId, ("conversation:" ++ Conversation._id c)%string)]
      /\ Socket.messages w' = Socket.messages w
      /\ Socket.emitted w' = Socket.emitted w
      /\ (forall m, In m messages ->
            Message.conversation m = Conversation._id c
            /\ exists d, In d (Socket.messages w) /\ m = Message.hydrate d)
      /\ StronglySorted (Query.oldestFirst Message.createdAt) messages
      /\ (List.length messages <= 50)%nat
      /\ (forall d, In d (Socket.messages w) ->
            Message.conversation d = Conversation._id c ->
            (List.length
               (filter (fun m => String.eqb (Message.conversation m)
                                   (Conversation._id c)) (Socket.messages w))
             <= 50)%nat ->
            In (Message.hydrate d) messages)
      /\ Socket.rooms w' = Socket.rooms w
      /\ (exists stored,
            In stored (Socket.conversations w')
            /\ c = Conversation.hydrate stored)
      /\ ((exists existing,
             find (fun r =>
                     JS.includes (Conversation.participants r) userId
                     && JS.includes (Conversation.participants r) otherUserId
                     && (List.length (Conversation.participants r) =? 2)%nat)
               (Socket.conversations w)
             = Some existing
             /\ c = Conversation.hydrate existing
             /\ Socket.conversations w' = Socket.conversations w)
          \/ ((forall r, In r (Socket.conversations w) ->
                  ~ (In userId (Conversation.participants r)
                     /\ In otherUserId (Conversation.participants r)
                     /\ List.length (Conversation.participants r) = 2%nat))
              /\ c = Conversation.mk freshId (JS.sort2 userId otherUserId)
                       None now
                       (map (fun p => Conversation.mkUnread p 0)
                          (JS.sort2 userId otherUserId))
                       (map (fun p => Conversation.mkArchived p false)
                          (JS.sort2 userId otherUserId))
                       (map (fun p => Conversation.mkPinned p false)
                          (JS.sort2 userId otherUserId)) [] false
              /\ Socket.conversations w' = Socket.conversations w ++ [c])).
Proof.
  intros w userId otherUserId freshId now _ Hid.
  split; [now apply castObjectId_canonical|].
  assert (Hstore : exists c db',
            Conversation.findOrCreate freshId now userId otherUserId
              (Socket.conversations w) = Ok (c, db')
            /\ In userId (Conversation.participants c)
            /\ In otherUserId (Conversation.participants c)
            /\ (exists stored, In stored db' /\ c = Conversation.hydrate stored)
            /\ ((exists existing,
                   find (fun r =>
                           JS.includes (Conversation.participants r) userId
                           && JS.includes (Conversation.participants r)
                                otherUserId
                           && (List.length (Conversation.participants r) =? 2)%nat)
                     (Socket.conversations w)
                   = Some existing
                   /\ c = Conversation.hydrate existing
                   /\ db' = Socket.conversations w)
                \/ ((forall r, In r (Socket.conversations w) ->
                        ~ (In userId (Conversation.participants r)
                           /\ In otherUserId (Conversation.participants r)
                           /\ List.length (Conversation.participants r) = 2%nat))
                    /\ c = Conversation.mk freshId
                             (JS.sort2 userId otherUserId) None now
                             (map (fun p => Conversation.mkUnread p 0)
                                (JS.sort2 userId otherUserId))
                             (map (fun p => Conversation.mkArchived p false)
                                (JS.sort2 userId otherUserId))
                             (map (fun p => Conversation.mkPinned p false)
                                (JS.sort2 userId otherUserId)) [] false
                    /\ db' = Socket.conversations w ++ [c]))).
  { destruct (find (Conversation.matchesAllSize2 (JS.sort2 userId otherUserId))
                (Socket.conversations w)) as [x|] eqn:Hf.
    - exists (Conversation.hydrate x), (Socket.conversations w).
      pose proof (find_some _ _ Hf) as [Hin Hm]. apply matches_pair in Hm.
      split; [now apply findOrCreate_found|].
      split; [simpl; tauto|]. split; [simpl; tauto|].
      split; [now exists x|].
      left. exists x. rewrite <- find_pair_test. now repeat split.
    - pose proof (findOrCreate_created_record freshId now userId otherUserId
                    (Socket.conversations w) Hf) as Hrun.
      set (c := Conversation.mk freshId (JS.sort2 userId otherUserId) None now
                  (map (fun p => Conversation.mkUnread p 0)
                     (JS.sort2 userId otherUserId))
                  (map (fun p => Conversation.mkArchived p false)
                     (JS.sort2 userId otherUserId))
                  (map (fun p => Conversation.mkPinned p false)
                     (JS.sort2 userId otherUserId)) [] false) in *.
      exists c, (Socket.conversations w ++ [c]).
      split; [exact Hrun|].
      assert (Hps : In userId (Conversation.participants c)
                    /\ In otherUserId (Conversation.participants c)).
      { subst c. simpl.
        destruct (sort2_cases userId otherUserId) as [-> | ->]; simpl; auto. }
      split; [tauto|]. split; [tauto|].
      split.
      { exists c. split; [apply in_or_app; right; now left|reflexivity]. }
      right. split; [|split; reflexivity].
      intros r Hr Hpair.
      rewrite find_none_iff in Hf. specialize (Hf r Hr).
      apply matches_pair in Hpair. rewrite Hpair in Hf. discriminate. }
  destruct Hstore as (c & db' & Hrun & Ha & Hb & Hin & Hcase).
  eexists c, _, _. split; [exact (conversation_start_run _ _ _ _ _ _ _ Hrun)|].
  cbn [Socket.joined Socket.messages Socket.emitted Socket.rooms
       Socket.conversations].
  split; [exact Ha|]. split; [exact Hb|].
  split; [reflexivity|]. split; [reflexivity|]. split; [reflexivity|].
  split; [|split; [|split; [|split; [|split; [reflexivity|split;
    [exact Hin|exact Hcase]]]]]].
  - intros m Hm. apply In_limit, In_sortAsc in Hm.
    apply in_map_iff in Hm. destruct Hm as (d & <- & Hd).
    apply filter_In in Hd. destruct Hd as [Hd Hc]. split.
    + now apply String.eqb_eq.
    + now exists d.
  - apply StronglySorted_limit, sortAsc_sorted.
  - apply firstn_le_length.
  - intros d Hd Hc Hfew. unfold Query.limit.
    rewrite firstn_all2.
    + apply In_sortAsc, in_map, filter_In. split; [exact Hd|].
      now apply String.eqb_eq.
    + rewrite length_sortAsc, length_map. exact Hfew.
Qed.

(** Alice starts a conversation with Carol in the sample world: none is
    stored for the two, so one is made and added; started with Bob, the
    stored conversation is answered and the store is left as it is. *)
Lemma X24_conversation_start_witness :
  (exists c messages w',
     Socket.conversation_start Sample.alice Sample.carol Sample.chatId 3000%Z
       Demo.world = (Socket.Success (c, messages), w')
     /\ Conversation._id c = Sample.chatId
     /\ Conversation.participants c = [Sample.alice; Sample.carol]
     /\ Socket.conversations w' = Socket.conversations Demo.world ++ [c])
  /\ (exists c messages w',
        Socket.conversation_start Sample.bob Sample.alice Sample.chatId 3000%Z
          Demo.world = (Socket.Success (c, messages), w')
        /\ Socket.conversations w' = Socket.conversations Demo.world
        /\ exists stored,
             In stored (Socket.conversations Demo.world)
             /\ c = Conversation.hydrate stored).
Proof.
  split.
  - destruct (X24_conversation_start Demo.world Sample.alice Sample.carol
                Sample.chatId 3000%Z eq_refl eq_refl)
      as (_ & c & messages & w' & Hrun & _ & _ & _ & _ & _ & _ & _ & _ & _
          & _ & _ & Hcase).
    exists c, messages, w'. split; [exact Hrun|].
    destruct Hcase as [(x & Hf & _)|(_ & Hc & Hdb)].
    + vm_compute in Hf. discriminate Hf.
    + split; [now rewrite Hc|]. split; [now rewrite Hc|exact Hdb].
  - destruct (X24_conversation_start Demo.world Sample.bob Sample.alice
                Sample.chatId 3000%Z eq_refl eq_refl)
      as (_ & c & messages & w' & Hrun & _ & _ & _ & _ & _ & _ & _ & _ & _
          & _ & Hin & Hcase).
    exists c, messages, w'. split; [exact Hrun|].
    destruct Hcase as [(x & _ & _ & Hdb)|(Hnone & _)].
    + split; [exact Hdb|]. rewrite Hdb in Hin. exact Hin.
    + exfalso. apply (Hnone Sample.chat).
      * vm_compute. auto.
      * vm_compute. auto.
Defined.

Lemma find_same_test {A : Type} (p q : A -> bool) (l : list A) :
  (forall x, p x = q x) -> find p l = find q l.
Proof.
  intros H. induction l as [|x l IH]; simpl; [reflexivity|].
  now rewrite H, IH.
Qed.

(** X25. [findOrCreate(u, u)] does not look for a conversation of [u]
    with [u]: the query matches any two-party conversation that holds
    [u], so when the store has one, the first of them is returned,
    whoever its other participant is, and nothing is created. *)
Theorem X25_findOrCreate_with_oneself :
  forall (db : Conversation.Collection) (u freshId : ObjectId) (now : Date)
         (x : Conversation.t),
    find (fun c => JS.includes (Conversation.participants c) u
                   && (List.length (Conversation.participants c) =? 2)%nat) db
    = Some x ->
    Conversation.findOrCreate freshId now u u db
    = Ok (Conversation.hydrate x, db).
Proof.
  intros db u freshId now x Hfind.
  apply findOrCreate_found. rewrite <- Hfind.
  apply find_same_test. intros c. unfold Conversation.matchesAllSize2, JS.sort2.
  destruct (String.leb u u); simpl;
    destruct (JS.includes (Conversation.participants c) u); reflexivity.
Qed.

(** Alice starts a conversation with herself and gets the one with bob. *)
Lemma X25_findOrCreate_with_oneself_witness :
  Conversation.findOrCreate Sample.chatId 3000%Z Sample.alice Sample.alice
    [Sample.chat]
  = Ok (Sample.chat, [Sample.chat]).
Proof.
  apply (X25_findOrCreate_with_oneself [Sample.chat] Sample.alice Sample.chatId
           3000%Z Sample.chat).
  reflexivity.
Defined.

(** ** Typing events and presence *)

Section LiveFacts.
Import Live.

Lemma skipn_app_exact {A : Type} (l l' : list A) :
  skipn (List.length l) (l ++ l') = l'.
Proof. induction l as [|x l IH]; simpl; [reflexivity|exact IH]. Qed.

Lemma sentSince_toRoom (sender room : string) (p : Packet) (n : Net) :
  sentSince n (toRoom sender room p n)
  = map (fun c => mkDelivery (sid c) p)
      (filter (fun c => negb (String.eqb (sid c) sender) && inRoom room c)
         (conns n)).
Proof. unfold sentSince, toRoom. simpl. apply skipn_app_exact. Qed.

Lemma sentSince_broadcast (sender : string) (p : Packet) (n : Net) :
  sentSince n (broadcast sender p n)
  = map (fun c => mkDelivery (sid c) p)
      (filter (fun c => negb (String.eqb (sid c) sender)) (conns n)).
Proof. unfold sentSince, broadcast. simpl. apply skipn_app_exact. Qed.

Lemma sentSince_same (n : Net) : sentSince n n = [].
Proof.
  unfold sentSince. rewrite <- (app_nil_r (delivered n)) at 2.
  apply skipn_app_exact.
Qed.

Lemma toRoom_receivers (sender room : string) (p : Packet) (n : Net)
    (d : Delivery) :
  In d (sentSince n (toRoom sender room p n)) <->
  packet d = p /\ dest d <> sender
  /\ exists c, In c (conns n) /\ sid c = dest d /\ inRoom room c = true.
Proof.
  rewrite sentSince_toRoom, in_map_iff. split.
  - intros (c & <- & Hc). apply filter_In in Hc. destruct Hc as [Hc Hq].
    apply andb_prop in Hq. destruct Hq as [Hs Hr].
    apply negb_true_iff, String.eqb_neq in Hs. simpl.
    split; [reflexivity|]. split; [exact Hs|]. now exists c.
  - intros (Hp & Hs & c & Hc & Hsid & Hr). exists c. split.
    + destruct d. simpl in *. now subst.
    + apply filter_In. split; [exact Hc|]. rewrite Hr, Hsid.
      apply String.eqb_neq in Hs. now rewrite Hs.
Qed.
End LiveFacts.

(** X26. [typing:start] changes neither the connections nor the users.
    With a conversation id that is not empty the event goes to the
    conversation channel, whether or not a room id is given as well; with
    no conversation id and a room id it goes to the room channel; with
    neither nothing is sent.  It reaches exactly the sockets subscribed to
    that channel other than the sender's own socket, the sender's other
    devices among them, and the sender needs no subscription to the
    channel to send it.  [typing:stop] reaches the same sockets. *)
Theorem X26_typing_routing :
  forall (sender : Live.Conn) (conversationId roomId : option string)
         (n : Live.Net),
    let started := Live.typing_start sender conversationId roomId n in
    let stopped := Live.typing_stop sender conversationId roomId n in
    let reached (channel : string) (d : Live.Delivery) : Prop :=
      Live.dest d <> Live.sid sender
      /\ exists c, In c (Live.conns n) /\ Live.sid c = Live.dest d
                   /\ Live.inRoom channel c = true in
    Live.conns started = Live.conns n
    /\ Live.users started = Live.users n
    /\ map Live.dest (Live.sentSince n stopped)
       = map Live.dest (Live.sentSince n started)
    /\ (forall id, conversationId = Some id -> id <> "" ->
          forall d, In d (Live.sentSince n started) <->
            Live.packet d
            = Live.TypingStart (Live.userId sender) (Live.userName sender)
            /\ reached ("conversation:" ++ id)%string d)
    /\ (JS.truthy conversationId = false ->
        forall id, roomId = Some id -> id <> "" ->
          forall d, In d (Live.sentSince n started) <->
            Live.packet d
            = Live.TypingStart (Live.userId sender) (Live.userName sender)
            /\ reached ("room:" ++ id)%string d)
    /\ (JS.truthy conversationId = false -> JS.truthy roomId = false ->
        started = n /\ stopped = n).
Proof.
  intros sender conversationId roomId n started stopped reached.
  subst started stopped reached. unfold Live.typing_start, Live.typing_stop.
  split; [|split; [|split; [|split; [|split]]]].
  - destruct conversationId as [[|a s]|], roomId as [[|b t]|]; reflexivity.
  - destruct conversationId as [[|a s]|], roomId as [[|b t]|]; reflexivity.
  - destruct conversationId as [[|a s]|], roomId as [[|b t]|];
      rewrite ?sentSince_toRoom, ?map_map; reflexivity.
  - intros id -> Hid d. destruct id as [|a s]; [contradiction|].
    apply toRoom_receivers.
  - intros Hc id -> Hid d. destruct id as [|b t]; [contradiction|].
    destruct conversationId as [[|a s]|]; try discriminate Hc;
      apply toRoom_receivers.
  - intros Hc Hr.
    destruct conversationId as [[|a s]|]; try discriminate Hc;
      destruct roomId as [[|b t]|]; try discriminate Hr; split; reflexivity.
Qed.

(** Alice types on her phone in the conversation with bob: her laptop and
    bob's tablet are told, the phone is not. *)
Lemma X26_typing_routing_witness :
  map Live.dest
    (Live.sentSince Demo.net
       (Live.typing_start Demo.phone
          (Some "65000000000000000000c001") (Some "65000000000000000000d001")
          Demo.net))
  = ["s-laptop"; "s-tablet"]
  /\ forall d,
       In d (Live.sentSince Demo.net
               (Live.typing_start Demo.phone
                  (Some "65000000000000000000c001")
                  (Some "65000000000000000000d001") Demo.net)) ->
       Live.dest d <> "s-phone".
Proof.
  split; [reflexivity|].
  intros d Hd.
  destruct (X26_typing_routing Demo.phone (Some "65000000000000000000c001")
              (Some "65000000000000000000d001") Demo.net)
    as (_ & _ & _ & H & _).
  apply (H "65000000000000000000c001" eq_refl) in Hd; [|discriminate].
  destruct Hd as (_ & Hne & _). exact Hne.
Defined.

Section PresenceFacts.
Import User.

Lemma update_ids (id : ObjectId) (st : Status) (seen : Date) (db : Collection) :
  map _id (findByIdAndUpdate id st seen db) = map _id db.
Proof. unfold findByIdAndUpdate. now apply map_updateFirst_stable. Qed.

Lemma update_absent (id : ObjectId) (st : Status) (seen : Date) (db : Collection) :
  ~ In id (map _id db) -> findByIdAndUpdate id st seen db = db.
Proof.
  unfold findByIdAndUpdate. induction db as [|x db IH]; simpl; [reflexivity|].
  intros Hn. destruct (String.eqb_spec (_id x) id) as [Hx|Hx].
  - exfalso. apply Hn. now left.
  - rewrite IH; [reflexivity|]. intros H. apply Hn. now right.
Qed.

Lemma update_missing (id : ObjectId) (st : Status) (seen : Date) (db : Collection) :
  findById id db = None -> findByIdAndUpdate id st seen db = db.
Proof.
  intros Hf. apply update_absent. intros Hin. apply in_map_iff in Hin.
  destruct Hin as (x & Hx & Hin). unfold findById in Hf.
  rewrite find_none_iff in Hf. specialize (Hf x Hin).
  rewrite Hx, String.eqb_refl in Hf. discriminate.
Qed.

(** In a store where each id occurs once, the update reaches every
    document of the id. *)
Lemma update_reaches (id : ObjectId) (st : Status) (seen : Date) (db : Collection) :
  NoDup (map _id db) ->
  forall u, In u (findByIdAndUpdate id st seen db) -> _id u = id ->
    status u = st /\ lastSeen u = seen.
Proof.
  unfold findByIdAndUpdate. induction db as [|x db IH]; simpl; [intros _ u []|].
  intros Hnd u Hu Hid. inversion Hnd as [|? ? Hnotin Hnd']; subst.
  destruct (String.eqb_spec (_id x) (_id u)) as [Hx|Hx].
  - destruct Hu as [<-|Hu]; [split; reflexivity|].
    exfalso. apply Hnotin. rewrite Hx. now apply in_map.
  - destruct Hu as [<-|Hu]; [contradiction|]. now apply IH.
Qed.

Lemma update_found (id : ObjectId) (st : Status) (seen : Date) (db : Collection)
    (u : t) :
  findById id db = Some u ->
  findById id (findByIdAndUpdate id st seen db)
  = Some (mk (_id u) (email u) (googleId u) (name u) st seen (netId u)).
Proof.
  unfold findById, findByIdAndUpdate. intros H.
  rewrite (find_updateFirst_same _id) by reflexivity. now rewrite H.
Qed.
End PresenceFacts.

(** X27. On a disconnect the user is set offline with the time of the
    disconnect, every socket still connected is told so, and the socket
    that left is told nothing.  The other sockets of the same user stay
    connected, and the user is offline all the same: in a store where each
    id occurs once no online user has that id afterwards. *)
Theorem X27_disconnect :
  forall (n : Live.Net) (sender : Live.Conn) (now : Date),
    NoDup (map User._id (Live.users n)) ->
    let n' := Live.disconnect sender now n in
    (forall u, In u (User.findOnlineUsers (Live.users n')) ->
       User._id u <> Live.userId sender)
    /\ (forall u, User.findById (Live.userId sender) (Live.users n) = Some u ->
          exists u',
            User.findById (Live.userId sender) (Live.users n') = Some u'
            /\ User.status u' = User.offline /\ User.lastSeen u' = now)
    /\ (forall c, In c (Live.conns n') <->
          In c (Live.conns n) /\ Live.sid c <> Live.sid sender)
    /\ (forall d, In d (Live.sentSince n n') <->
          Live.packet d = Live.UserOffline (Live.userId sender)
          /\ exists c, In c (Live.conns n) /\ Live.sid c = Live.dest d
                       /\ Live.sid c <> Live.sid sender).
Proof.
  intros n sender now Hnd n'. subst n'. unfold Live.disconnect.
  split; [|split; [|split]].
  - intros u Hu Hid. unfold Live.broadcast in Hu. simpl in Hu.
    unfold User.findOnlineUsers in Hu. apply filter_In in Hu.
    destruct Hu as [Hu Hon].
    destruct (update_reaches _ User.offline now _ Hnd u Hu Hid) as [Hst _].
    unfold User.isOnline in Hon. rewrite Hst in Hon. discriminate.
  - intros u Hu. eexists. unfold Live.broadcast. simpl.
    split; [exact (update_found _ User.offline now _ u Hu)|]. split; reflexivity.
  - intros c. unfold Live.broadcast. simpl. rewrite filter_In.
    rewrite negb_true_iff, String.eqb_neq. tauto.
  - intros d. unfold Live.sentSince, Live.broadcast. simpl.
    rewrite skipn_app_exact, in_map_iff. split.
    + intros (c & <- & Hc). apply filter_In in Hc. destruct Hc as [Hc Hs].
      apply filter_In in Hc. destruct Hc as [Hc _].
      apply negb_true_iff, String.eqb_neq in Hs. simpl.
      split; [reflexivity|]. now exists c.
    + intros (Hp & c & Hc & Hsid & Hs). exists c. split.
      * destruct d. simpl in *. now subst.
      * apply String.eqb_neq in Hs.
        apply filter_In. rewrite Hs. split; [|reflexivity].
        apply filter_In. now rewrite Hs.
Qed.

(** Alice's phone disconnects: her laptop stays connected and is told, and
    alice is no longer among the online users. *)
Lemma X27_disconnect_witness :
  In Demo.laptop (Live.conns (Live.disconnect Demo.phone 5000%Z Demo.net))
  /\ map User._id
       (User.findOnlineUsers
          (Live.users (Live.disconnect Demo.phone 5000%Z Demo.net)))
     = [Sample.bob]
  /\ forall u,
       In u (User.findOnlineUsers
               (Live.users (Live.disconnect Demo.phone 5000%Z Demo.net))) ->
       User._id u <> Sample.alice.
Proof.
  split; [simpl; tauto|]. split; [reflexivity|].
  apply (X27_disconnect Demo.net Demo.phone 5000%Z).
  simpl. constructor; [simpl; intros [H|[]]; discriminate H|].
  constructor; [intros []|constructor].
Defined.

(** X28. On a connection the user of the socket, when the store has one of
    that id, is set online with the time of the connection, and a user id
    the store does not have changes no user.  Every socket connected
    before is told, the new socket is not, and the new socket ends up in
    its own room and in the personal channel of the user. *)
Theorem X28_connection :
  forall (n : Live.Net) (socketId : string) (user : ObjectId) (name : JS.str)
         (now : Date),
    let n' := Live.connection socketId user name now n in
    (forall u, User.findById user (Live.users n) = Some u ->
       exists u',
         In u' (User.findOnlineUsers (Live.users n'))
         /\ User._id u' = user /\ User.lastSeen u' = now)
    /\ (User.findById user (Live.users n) = None ->
        Live.users n' = Live.users n)
    /\ (forall d, In d (Live.sentSince n n') <->
          Live.packet d = Live.UserOnline user name
          /\ exists c, In c (Live.conns n) /\ Live.sid c = Live.dest d
                       /\ Live.sid c <> socketId)
    /\ ((forall c, In c (Live.conns n) -> Live.sid c <> socketId) ->
        Live.conns n'
        = Live.conns n
          ++ [Live.mkConn socketId user name
                [socketId; ("user:" ++ user)%string]]).
Proof.
  intros n socketId user name now n'. subst n'. unfold Live.connection.
  split; [|split; [|split]].
  - intros u Hu. unfold Live.broadcast. simpl.
    pose proof (update_found user User.online now _ u Hu) as Hf.
    unfold User.findById in Hf. apply find_some in Hf.
    destruct Hf as [Hin Hid]. eexists. split.
    + unfold User.findOnlineUsers. apply filter_In. split; [exact Hin|reflexivity].
    + simpl. split; [|reflexivity].
      unfold User.findById in Hu. apply find_some in Hu.
      now apply String.eqb_eq.
  - intros Hu. unfold Live.broadcast. simpl. now apply update_missing.
  - intros d. unfold Live.sentSince, Live.broadcast. simpl.
    rewrite skipn_app_exact, in_map_iff. split.
    + intros (c & <- & Hc). apply filter_In in Hc. destruct Hc as [Hc Hs].
      apply negb_true_iff, String.eqb_neq in Hs. simpl.
      split; [reflexivity|].
      apply in_app_or in Hc. destruct Hc as [Hc|[<-|[]]].
      * now exists c.
      * simpl in Hs. contradiction.
    + intros (Hp & c & Hc & Hsid & Hs). exists c. split.
      * destruct d. simpl in *. now subst.
      * apply String.eqb_neq in Hs.
        apply filter_In. rewrite Hs. split; [|reflexivity].
        apply in_or_app. now left.
  - intros Hfresh. unfold Live.broadcast. simpl.
    rewrite map_app. simpl. rewrite String.eqb_refl. f_equal.
    rewrite <- (map_id (Live.conns n)) at 2. apply map_ext_in.
    intros c Hc. specialize (Hfresh c Hc).
    apply String.eqb_neq in Hfresh. now rewrite Hfresh.
Qed.

(** Bob connects from a second device: his tablet and alice's two sockets
    are told. *)
Lemma X28_connection_witness :
  map Live.dest
    (Live.sentSince Demo.net
       (Live.connection "s-desk" Sample.bob (JS.of_ascii "Bob") 6000%Z Demo.net))
  = ["s-phone"; "s-laptop"; "s-tablet"]
  /\ exists u',
       In u' (User.findOnlineUsers
                (Live.users
                   (Live.connection "s-desk" Sample.bob (JS.of_ascii "Bob")
                      6000%Z Demo.net)))
       /\ User._id u' = Sample.bob /\ User.lastSeen u' = 6000%Z.
Proof.
  split; [reflexivity|].
  destruct (X28_connection Demo.net "s-desk" Sample.bob (JS.of_ascii "Bob")
              6000%Z) as (H & _).
  exact (H _ eq_refl).
Defined.

(** ** The handshake, the bearer middleware and the sign-in strategy *)

(** X2. The handshake binds a socket to a user only for a token that is
    not empty, that [verifyToken] accepts and whose id is the text of an
    ObjectId that is the id of a stored user; the socket then carries that
    user's id and name.  Every other handshake is refused: with "No token"
    without consulting [verifyToken]; with "Invalid token" whatever error
    [verifyToken] threw, and also when it accepted the token and the id of
    the payload is no ObjectId text, the lookup throwing inside the same
    [try]; and with "User not found" when the payload has no id or the
    store has no user of that id. *)
Theorem X2_handshake :
  forall (verifyToken : string -> Result (option string))
         (token : option string) (db : User.Collection),
    match Live.authenticate verifyToken token db with
    | Ok (id, name) =>
        exists tok text u,
          token = Some tok /\ tok <> ""
          /\ verifyToken tok = Ok (Some text)
          /\ JS.castObjectId text = Some id
          /\ User.findById id db = Some u
          /\ User._id u = id /\ User.name u = name
    | Err e =>
        (JS.truthy token = false /\ e = Thrown "No token")
        \/ (exists tok,
              token = Some tok /\ e = Thrown "Invalid token"
              /\ ((exists err, verifyToken tok = Err err)
                  \/ (exists text,
                        verifyToken tok = Ok (Some text)
                        /\ JS.castObjectId text = None)))
        \/ (exists tok decoded,
              token = Some tok /\ verifyToken tok = Ok decoded
              /\ e = Thrown "User not found"
              /\ (decoded = None
                  \/ exists text id,
                       decoded = Some text
                       /\ JS.castObjectId text = Some id
                       /\ User.findById id db = None))
    end.
Proof.
  intros verifyToken token db. unfold Live.authenticate.
  destruct token as [[|a s]|]; [left; split; reflexivity| |left; split; reflexivity].
  destruct (verifyToken (String a s)) as [decoded|err] eqn:Hv.
  - destruct decoded as [text|].
    + destruct (JS.castObjectId text) as [id|] eqn:Hcast.
      * destruct (User.findById id db) as [u|] eqn:Hu.
        -- exists (String a s), text, u.
           assert (Hid : User._id u = id).
           { unfold User.findById in Hu. apply find_some in Hu.
             now apply String.eqb_eq. }
           rewrite Hid. repeat split; trivial. discriminate.
        -- right. right. exists (String a s), (Some text).
           repeat split; trivial. right. now exists text, id.
      * right. left. exists (String a s). repeat split. right.
        now exists text.
    + right. right. exists (String a s), None. repeat split; trivial. now left.
  - right. left. exists (String a s). repeat split. left. now exists err.
Qed.

Section SplitFacts.
Variable sep : ascii.

Lemma split_not_nil (s : string) : JS.split sep s <> [].
Proof.
  destruct s as [|c s]; simpl; [discriminate|].
  destruct (Ascii.eqb c sep); [discriminate|].
  destruct (JS.split sep s); discriminate.
Qed.

Lemma split_without (s : string) :
  ~ In sep (list_ascii_of_string s) -> JS.split sep s = [s].
Proof.
  induction s as [|c s IH]; simpl; [reflexivity|].
  intros Hn. destruct (Ascii.eqb_spec c sep) as [Hc|Hc].
  - exfalso. apply Hn. now left.
  - rewrite IH; [reflexivity|]. intros H. apply Hn. now right.
Qed.

Lemma split_at (a b : string) :
  ~ In sep (list_ascii_of_string a) ->
  JS.split sep (a ++ String sep b) = a :: JS.split sep b.
Proof.
  induction a as [|c a IH]; simpl.
  - intros _. now rewrite Ascii.eqb_refl.
  - intros Hn. destruct (Ascii.eqb_spec c sep) as [Hc|Hc].
    + exfalso. apply Hn. now left.
    + rewrite IH; [reflexivity|]. intros H. apply Hn. now right.
Qed.

(** The first piece holds no separator, and the string is that piece or
    goes on with a separator after it. *)
Lemma split_head (s piece : string) (rest : list string) :
  JS.split sep s = piece :: rest ->
  ~ In sep (list_ascii_of_string piece)
  /\ (s = piece \/ exists tail, s = (piece ++ String sep tail)%string).
Proof.
  revert piece rest. induction s as [|c s IH]; simpl; intros piece rest H.
  - inversion H; subst. split; [intros []|now left].
  - destruct (Ascii.eqb_spec c sep) as [Hc|Hc].
    + inversion H; subst. split; [intros []|]. right. now exists s.
    + destruct (JS.split sep s) as [|p r] eqn:Hs;
        [exfalso; exact (split_not_nil s Hs)|].
      injection H as Hp Hr. subst piece rest.
      destruct (IH p r eq_refl) as [Hn Hshape]. split.
      * simpl. intros [Heq|Hin]; [congruence|contradiction].
      * destruct Hshape as [->|(tail & ->)]; [now left|].
        right. now exists tail.
Qed.
End SplitFacts.

Lemma substring_In (c : ascii) (s : string) (n m : nat) :
  In c (list_ascii_of_string (String.substring n m s)) ->
  In c (list_ascii_of_string s).
Proof.
  revert n m. induction s as [|a s IH]; intros [|n] [|m]; simpl; try tauto.
  - intros [H|H]; [now left|right; exact (IH 0%nat m H)].
  - intros H. right. exact (IH n 0%nat H).
  - intros H. right. exact (IH n (S m) H).
Qed.

Lemma endsWith_In (s suffix : string) (c : ascii) :
  JS.endsWith s suffix = true ->
  In c (list_ascii_of_string suffix) -> In c (list_ascii_of_string s).
Proof.
  unfold JS.endsWith. intros H Hc. apply andb_prop in H. destruct H as [_ H].
  apply String.eqb_eq in H. rewrite <- H in Hc.
  exact (substring_In c s _ _ Hc).
Qed.

(** X29. [authenticateJWT] verifies the text between the first and the
    second space of the authorization header, whatever precedes the first
    space: the scheme is not looked at, and what follows a second space is
    ignored.  A missing header, a header without a space and a header with
    nothing after its first space are answered 401 without a call of
    [jwt.verify]; a token that [jwt.verify] refuses is answered 401
    "Invalid token". *)
Theorem X29_bearer_header :
  forall (Decoded : Type) (verify : string -> Result Decoded)
         (scheme tok rest : string),
    ~ In " "%char (list_ascii_of_string scheme) ->
    ~ In " "%char (list_ascii_of_string tok) ->
    tok <> "" ->
    let verified :=
      match verify tok with
      | Ok decoded => Http.Next decoded
      | Err _ => Http.Json 401 "error" "Invalid token"
      end in
    let missing : Http.Response Decoded :=
      Http.Json 401 "message" "Unauthorized/Missing valid login credentials" in
    Http.authenticateJWT Decoded verify (Some (scheme ++ " " ++ tok)%string)
    = verified
    /\ Http.authenticateJWT Decoded verify
         (Some (scheme ++ " " ++ tok ++ " " ++ rest)%string) = verified
    /\ Http.authenticateJWT Decoded verify None = missing
    /\ Http.authenticateJWT Decoded verify (Some scheme) = missing
    /\ Http.authenticateJWT Decoded verify (Some (scheme ++ " ")%string) = missing.
Proof.
  intros Decoded verify scheme tok rest Hs Ht Hne verified missing.
  subst verified missing. unfold Http.authenticateJWT.
  change (scheme ++ " " ++ tok)%string with (scheme ++ String " " tok)%string.
  change (scheme ++ " " ++ tok ++ " " ++ rest)%string
    with (scheme ++ String " " (tok ++ String " " rest))%string.
  change (scheme ++ " ")%string with (scheme ++ String " " "")%string.
  rewrite !(split_at " " scheme) by exact Hs.
  rewrite (split_at " " tok) by exact Ht.
  rewrite (split_without " " tok) by exact Ht.
  rewrite (split_without " " scheme) by exact Hs.
  simpl. destruct tok as [|a t]; [contradiction|].
  repeat split.
Qed.

(** The scheme "Basic" passes like "Bearer" does. *)
Lemma X29_bearer_header_witness :
  Http.authenticateJWT (option ObjectId) Demo.verifyToken (Some "Basic good")
  = Http.Next (Some Sample.alice)
  /\ Http.authenticateJWT (option ObjectId) Demo.verifyToken
       (Some "Bearer good and more") = Http.Next (Some Sample.alice).
Proof.
  split.
  - apply (X29_bearer_header (option ObjectId) Demo.verifyToken "Basic" "good" "");
      [simpl; intuition discriminate | simpl; intuition discriminate | discriminate].
  - apply (X29_bearer_header (option ObjectId) Demo.verifyToken "Bearer" "good"
             "and more");
      [simpl; intuition discriminate | simpl; intuition discriminate | discriminate].
Defined.

(** X30. The sign-in callback reaches the user store and the signing of a
    token only for a profile whose first email, in lower case, is not
    empty and ends with "@illinois.edu"; the net id it stores is the part
    of that email before its first "@".  A profile without emails ends in
    a [TypeError]; any other profile is refused with "Invalid email
    domain"; in both cases the store is left as it is. *)
Theorem X30_sign_in :
  forall (toLowerCase : string -> string) (Store : Type)
         (findOneAndUpdate : string -> string -> JS.str -> Store
                             -> Result User.t * Store)
         (Token : Type) (sign : string -> string -> Result Token)
         (profile : Google.Profile) (db : Store),
    match Google.verifyCallback toLowerCase Store findOneAndUpdate Token sign
            profile db with
    | (Google.DoneToken token, db') =>
        exists raw netId tail user,
          hd_error (Google.emails profile) = Some (Some raw)
          /\ JS.endsWith (toLowerCase raw) "@illinois.edu" = true
          /\ toLowerCase raw = (netId ++ String "@" tail)%string
          /\ ~ In "@"%char (list_ascii_of_string netId)
          /\ findOneAndUpdate (toLowerCase raw) netId
               (Google.displayName profile) db = (Ok user, db')
          /\ sign (User._id user) (User.email user) = Ok token
    | (Google.DoneRefused message, db') =>
        db' = db /\ message = "Invalid email domain"
        /\ exists first, hd_error (Google.emails profile) = Some first
             /\ match first with
                | None => True
                | Some raw =>
                    toLowerCase raw = ""
                    \/ JS.endsWith (toLowerCase raw) "@illinois.edu" = false
                end
    | (Google.DoneError e, db') =>
        (Google.emails profile = [] /\ db' = db
         /\ e = TypeError "Cannot read properties of undefined (reading 'value')")
        \/ exists raw, hd_error (Google.emails profile) = Some (Some raw)
             /\ JS.endsWith (toLowerCase raw) "@illinois.edu" = true
    end.
Proof.
  intros toLowerCase Store findOneAndUpdate Token sign profile db.
  unfold Google.verifyCallback.
  destruct (Google.emails profile) as [|[raw|] others];
    cbn [option_map hd_error].
  - left. repeat split.
  - destruct (toLowerCase raw) as [|c rest] eqn:Hlow.
    + repeat split. exists (Some raw). split; [reflexivity|now left].
    + destruct (JS.endsWith (String c rest) "@illinois.edu") eqn:Hdom;
        cbn [negb].
      * destruct (JS.split "@" (String c rest)) as [|netId pieces] eqn:Hsplit;
          [exfalso; exact (split_not_nil "@" _ Hsplit)|].
        destruct (split_head "@" _ _ _ Hsplit) as [Hno Hshape].
        assert (Hat : In "@"%char (list_ascii_of_string (String c rest))).
        { apply (endsWith_In _ "@illinois.edu"); [exact Hdom|]. simpl. tauto. }
        destruct Hshape as [Heq|(tail & Htail)].
        { exfalso. apply Hno. now rewrite <- Heq. }
        destruct (findOneAndUpdate (String c rest) netId
                    (Google.displayName profile) db) as [[user|e] db'] eqn:Hup.
        -- destruct (sign (User._id user) (User.email user)) as [token|e] eqn:Hs.
           ++ exists raw, netId, tail, user. rewrite Hlow. repeat split; trivial.
           ++ right. exists raw. rewrite Hlow. split; [reflexivity|exact Hdom].
        -- right. exists raw. rewrite Hlow. split; [reflexivity|exact Hdom].
      * repeat split. exists (Some raw). split; [reflexivity|].
        right. now rewrite Hlow.
  - repeat split. now exists None.
Qed.

(** A profile of the domain is signed in with the part before the "@" as
    net id; a profile of another domain is refused. *)
Example sign_in_runs :
  Google.verifyCallback Demo.lower User.Collection Demo.upsert string Demo.signed
    (Google.mkProfile [Some "Alice@Illinois.EDU"] (JS.of_ascii "Alice")) []
  = (Google.DoneToken "650000000000000000000001:alice@illinois.edu", [])
  /\ Google.verifyCallback Demo.lower User.Collection Demo.upsert string
       Demo.signed
       (Google.mkProfile [Some "alice@example.com"] (JS.of_ascii "Alice")) []
     = (Google.DoneRefused "Invalid email domain", []).
Proof. split; reflexivity. Qed.

Example handshake_runs :
  Live.authenticate Demo.verifyToken (Some "good") Demo.users
  = Ok (Sample.alice, JS.of_ascii "Alice")
  /\ Live.authenticate Demo.verifyToken (Some "bad") Demo.users
     = Err (Thrown "Invalid token")
  /\ Live.authenticate Demo.verifyToken (Some "") Demo.users
     = Err (Thrown "No token")
  /\ Live.authenticate (fun _ => Ok (Some "42")) (Some "good") Demo.users
     = Err (Thrown "Invalid token")
  /\ Live.authenticate (fun _ => Ok (Some "65000000000000000000000A"))
       (Some "good") Demo.users
     = Err (Thrown "User not found").
Proof. repeat split. Qed.
